(** * CodeRefine (app.py): credential store, history store, response extractor

    A shallow embedding of the non-UI core of [app.py]:
    [hash_password], [load_json_file], [save_json_file], [register_user],
    [authenticate_user], [analyze_code_with_ai], [save_analysis_to_history]
    and the "Analysis execution" block of [render_dashboard]; then
    [initialize_session_state], [logout], the five pages and [main], as
    far as they read and write the session, the files and the messages.

    Python values are modelled as follows.
    - [str] is a list of Unicode code points ([N]); [len], slicing,
      [split], [strip] and [in] are written out on that list.
    - a [dict] with arbitrary string keys is a [gmap str _]; a [dict] with
      a fixed set of keys (a user record, a history entry) is a record.
    - statements run in the monad [py] of state and exceptions: an
      exception is the [Raised] case of [outcome], [try/except] is
      [try_catch].
    - the two JSON files, the LLM provider, the clock, the API key and
      SHA-256 are the environment: the files and the requests sent are
      state, the others are section variables or arguments.
    - the files are modelled twice. In [world] a file is a store as the
      program writes it, or one that does not load, and writing
      succeeds: this is the model of the statements about working
      stores. In [path] a file is what Python finds: there or not,
      readable or not, writable or not, holding text that is no JSON or
      any JSON value; [raw_load_json_file], [raw_register_user],
      [raw_authenticate_user], [raw_save_analysis_to_history] and
      [raw_analysis_execution] follow the same source lines on it, with
      the exceptions of Python's operators. *)

From Stdlib Require Import String Ascii NArith List.
From stdpp Require Import base option list gmap.

Local Open Scope N_scope.
Local Open Scope list_scope.

(** ** Python strings *)

Module PyStr.

Definition char := N.
Definition str := list char.

(** An ASCII literal of the source, as code points. *)
Definition lit (s : string) : str :=
  map N_of_ascii (list_ascii_of_string s).

Definition nl : char := 10.

Definition eqb (a b : str) : bool := bool_decide (a = b).

(** [str.isspace] on one code point, as CPython's
    [Py_UNICODE_ISSPACE] decides it. *)
Definition is_space (c : char) : bool :=
  ((9 <=? c) && (c <=? 13))
  || ((28 <=? c) && (c <=? 32))
  || (c =? 133) || (c =? 160) || (c =? 5760)
  || ((8192 <=? c) && (c <=? 8202))
  || (c =? 8232) || (c =? 8233) || (c =? 8239) || (c =? 8287)
  || (c =? 12288).

(** [s.startswith(p)] *)
Fixpoint starts_with (p s : str) : bool :=
  match p, s with
  | [], _ => true
  | _ :: _, [] => false
  | a :: p', b :: s' => (a =? b) && starts_with p' s'
  end.

(** [p in s]: [p] occurs in [s] at some offset. *)
Fixpoint contains (p s : str) : bool :=
  starts_with p s
  || match s with
     | [] => false
     | _ :: s' => contains p s'
     end.

(** [s.split(sep)] for a one-character separator: never returns the
    empty list, keeps empty fields. *)
Fixpoint split (sep : char) (s : str) : list str :=
  match s with
  | [] => [[]]
  | c :: s' =>
      if c =? sep then [] :: split sep s'
      else match split sep s' with
           | [] => [[c]]
           | l :: ls => (c :: l) :: ls
           end
  end.

(** [s.lstrip()] *)
Fixpoint lstrip (s : str) : str :=
  match s with
  | [] => []
  | c :: s' => if is_space c then lstrip s' else s
  end.

(** [s.rstrip()] *)
Fixpoint rstrip (s : str) : str :=
  match s with
  | [] => []
  | c :: s' =>
      match rstrip s' with
      | [] => if is_space c then [] else [c]
      | r => c :: r
      end
  end.

(** [s.strip()] *)
Definition strip (s : str) : str := rstrip (lstrip s).

(** [c.lower()] on the ASCII letters; the language tags it is applied
    to are ASCII. *)
Definition lower_char (c : char) : char :=
  if (65 <=? c) && (c <=? 90) then c + 32 else c.
Definition lower (s : str) : str := map lower_char s.

(** Truthiness of a string: [bool(s)]. *)
Definition truthy (s : str) : bool :=
  match s with [] => false | _ => true end.

End PyStr.
Import PyStr.

(** [l[-n:]] on a list, [n > 0]: the last [n] elements, the whole list
    when it is shorter. *)
Definition last_n {A} (n : nat) (l : list A) : list A :=
  drop (length l - n) l.

(** ** Exceptions *)

Inductive outcome (A : Type) : Type :=
| Raised (msg : str)
| Returned (a : A).
Arguments Raised {A} msg.
Arguments Returned {A} a.


(** ** Persisted data *)

(** A record of [users.json]: [{"password": ..., "created_at": ...}] *)
Record user_record := {
  stored_password : str;      (* key "password" *)
  created_at : str
}.

(** An element of a user's list in [analysis_history.json]. *)
Record history_entry := {
  timestamp : str;
  entry_language : str;       (* key "language" *)
  code_snippet : str;
  has_errors : bool;
  analysis_summary : str
}.

(** The state of one JSON file on disk, as [load_json_file] can find it. *)
Inductive file (A : Type) : Type :=
| Missing                 (* [os.path.exists] is False *)
| Unreadable              (* exists, [open] raises *)
| Malformed               (* opens, [json.load] raises *)
| Stored (data : A).      (* [json.load] returns [data] *)
Arguments Missing {A}.
Arguments Unreadable {A}.
Arguments Malformed {A}.
Arguments Stored {A} data.

(** The arguments of [client.chat.completions.create]. *)
Record request := {
  system_content : str;
  user_content : str;
  model : str;
  temperature : str;      (* the float literal, as written *)
  max_tokens : N
}.

(** What the program reads and writes: the two files, the requests sent
    to the provider, and the part of [st.session_state] and of the page
    that the analysis block touches. *)
Record world := {
  users_json : file (gmap str user_record);
  history_json : file (gmap str (list history_entry));
  llm_calls : list request;
  session_username : str;
  session_analysis_result : option (gmap str str);
  session_page : str;
  errors_shown : list str
}.

(** ** The monad of Python statements: state and exceptions *)

Definition py (A : Type) : Type := world → outcome A * world.

Definition ret {A} (a : A) : py A := λ w, (Returned a, w).
Definition raise {A} (msg : str) : py A := λ w, (Raised msg, w).
Definition bind {A B} (c : py A) (k : A → py B) : py B :=
  λ w, match c w with
       | (Raised msg, w') => (Raised msg, w')
       | (Returned a, w') => k a w'
       end.
Definition try_catch {A} (body : py A) (handler : str → py A) : py A :=
  λ w, match body w with
       | (Raised msg, w') => handler msg w'
       | (Returned a, w') => (Returned a, w')
       end.

Notation "'let*' x ':=' c 'in' k" := (bind c (λ x, k))
  (at level 10, x name, c at level 100, k at level 200).
Notation "c ';;;' k" := (bind c (λ _, k))
  (at level 100, k at level 200, right associativity).

(** A file name is the way to the file's state in the world. *)
Record filename (A : Type) := {
  file_get : world → file A;
  file_set : file A → world → world
}.
Arguments file_get {A}.
Arguments file_set {A}.

Definition USERS_FILE : filename (gmap str user_record) :=
  {| file_get := users_json;
     file_set f w :=
       {| users_json := f; history_json := history_json w;
          llm_calls := llm_calls w; session_username := session_username w;
          session_analysis_result := session_analysis_result w;
          session_page := session_page w; errors_shown := errors_shown w |} |}.

Definition HISTORY_FILE : filename (gmap str (list history_entry)) :=
  {| file_get := history_json;
     file_set f w :=
       {| users_json := users_json w; history_json := f;
          llm_calls := llm_calls w; session_username := session_username w;
          session_analysis_result := session_analysis_result w;
          session_page := session_page w; errors_shown := errors_shown w |} |}.

(** [os.path.exists(filename)] *)
Definition path_exists {A} (fn : filename A) : py bool :=
  λ w, (Returned (match file_get fn w with Missing => false | _ => true end), w).

(** [with open(filename, 'r') as f: return json.load(f)] *)
Definition open_json_load {A} (fn : filename A) : py A :=
  λ w, match file_get fn w with
       | Missing => (Raised (lit "FileNotFoundError"), w)
       | Unreadable => (Raised (lit "OSError"), w)
       | Malformed => (Raised (lit "JSONDecodeError"), w)
       | Stored data => (Returned data, w)
       end.

(** [load_json_file], lines 34-42. *)
Definition load_json_file {A} `{Empty A} (fn : filename A) : py A :=
  let* present := path_exists fn in
  if present then
    try_catch (open_json_load fn) (λ _, ret ∅)
  else ret ∅.

(** [save_json_file], lines 44-47: the file then holds [data]. The write
    itself is taken to succeed. *)
Definition save_json_file {A} (fn : filename A) (data : A) : py unit :=
  λ w, (Returned tt, file_set fn (Stored data) w).

(** ** The program *)

Section App.

(** [os.getenv("GROQ_API_KEY")] *)
Variable GROQ_API_KEY : option str.

(** [hashlib.sha256(b).hexdigest()] on the encoded password. *)
Variable sha256_hexdigest : str → str.

(** The provider: what [Groq(api_key=...)], the [create] call and
    [.choices[0].message.content] yield for a request, a reply or an
    exception with its [str(e)]. *)
Variable groq : request → outcome str.

(** [hash_password], lines 30-32. *)
Definition hash_password (password : str) : str :=
  sha256_hexdigest password.

(** *** Authentication *)

(** [register_user], lines 66-79; [now] is
    [datetime.now().isoformat()] at the call. *)
Definition register_user (username password now : str) : py (bool * str) :=
  let* users := load_json_file USERS_FILE in
  match users !! username with
  | Some _ => ret (false, lit "Username already exists")
  | None =>
      let users :=
        <[username := {| stored_password := hash_password password;
                         created_at := now |}]> users in
      save_json_file USERS_FILE users ;;;
      ret (true, lit "Registration successful")
  end.

(** [authenticate_user], lines 81-91. *)
Definition authenticate_user (username password : str) : py (bool * str) :=
  let* users := load_json_file USERS_FILE in
  match users !! username with
  | None => ret (false, lit "Username not found")
  | Some record =>
      if eqb (stored_password record) (hash_password password) then
        ret (true, lit "Login successful")
      else ret (false, lit "Incorrect password")
  end.

(** *** Analysis *)

(** A line of a literal, with its newline. *)
Definition ln (s : string) : str := lit s ++ [nl].

(** The f-string [prompt], lines 116-153: the text up to [{code}], ... *)
Definition prompt_before (language : str) : str :=
  lit "You are an expert code reviewer and security analyst. Analyze the following "
    ++ language ++ ln " code comprehensively." ++
    ln "" ++
    ln "**IMPORTANT**: Provide your analysis in the following structured format with clear section headers:" ++
    ln "" ++
    ln "## Code Review" ++
    ln "- List all bugs and logic errors found" ++
    ln "- Identify bad coding practices" ++
    ln "- Point out readability issues" ++
    ln "- Mention any code smells or anti-patterns" ++
    ln "" ++
    ln "## Optimization Suggestions" ++
    ln "- Suggest performance improvements" ++
    ln "- Identify memory usage optimization opportunities" ++
    ln "- Analyze time complexity and suggest improvements" ++
    ln "- Recommend algorithmic optimizations" ++
    ln "" ++
    ln "## Security Issues" ++
    ln "- Identify insecure functions or patterns" ++
    ln "- Detect potential injection vulnerabilities (SQL, XSS, etc.)" ++
    ln "- Flag unsafe dependencies or imports" ++
    ln "- Highlight authentication/authorization issues" ++
    ln "- Note any data exposure risks" ++
    ln "" ++
    ln "## Refactored Code" ++
    ln "Provide a complete, optimized, and secure version of the code that:" ++
    ln "- Fixes all identified bugs" ++
    ln "- Implements best practices" ++
    ln "- Improves performance" ++
    ln "- Addresses security vulnerabilities" ++
    ln "- Maintains the same functionality" ++
    ln "- Is production-ready" ++
    ln "" ++
    ln "**Code to analyze:**" ++
    lit "```" ++ lower language ++ [nl].

(** ... the text after it, ... *)
Definition prompt_after : str :=
  [nl] ++
  ln "```" ++
  ln "" ++
  lit "Provide actionable, specific feedback. Do not hallucinate vulnerabilities. Be precise and technical.".

(** ... and the whole. *)
Definition prompt (code language : str) : str :=
  prompt_before language ++ code ++ prompt_after.

(** The arguments of the [create] call, lines 156-170. *)
Definition chat_request (code language : str) : request :=
  {| system_content :=
       lit "You are an expert " ++ language ++
       lit " developer and security analyst specializing in code review, optimization, and refactoring.";
     user_content := prompt code language;
     model := lit "llama-3.3-70b-versatile";
     temperature := lit "0.3";
     max_tokens := 4000 |}.

(** The call itself: the request goes out, the provider answers. *)
Definition chat_completion (req : request) : py str :=
  λ w, (groq req,
        {| users_json := users_json w; history_json := history_json w;
           llm_calls := llm_calls w ++ [req];
           session_username := session_username w;
           session_analysis_result := session_analysis_result w;
           session_page := session_page w;
           errors_shown := errors_shown w |}).

(** The dict [sections], lines 184-189, in its iteration order. *)
Definition sections : list (str * str) :=
  [ (lit "## Code Review", lit "code_review");
    (lit "## Optimization Suggestions", lit "optimization");
    (lit "## Security Issues", lit "security");
    (lit "## Refactored Code", lit "refactored_code") ].

(** The inner loop, lines 195-198: the key of the first header found in
    [line], else [current_section] as it was. *)
Fixpoint match_header (items : list (str * str)) (line : str)
    (current_section : option str) : option str :=
  match items with
  | [] => current_section
  | (header, key) :: items' =>
      if contains header line then Some key
      else match_header items' line current_section
  end.

(** One round of the outer loop, lines 194-201. [result[k] += ...]
    finds [k] among the keys of [result], see [accumulate_keys]. *)
Definition parse_line (st : option str * gmap str str) (line : str)
  : option str * gmap str str :=
  let current_section := match_header sections line st.1 in
  let result :=
    match current_section with
    | Some key =>
        if truthy key then alter (λ v, v ++ (line ++ [nl])) key st.2
        else st.2
    | None => st.2
    end in
  (current_section, result).

(** Lines 175-201: [result] as the loop leaves it. *)
Definition accumulate_sections (analysis_text : str) : gmap str str :=
  let result : gmap str str :=
    <[lit "code_review" := []]>
    (<[lit "optimization" := []]>
    (<[lit "security" := []]>
    (<[lit "refactored_code" := []]>
    (<[lit "raw_analysis" := analysis_text]> ∅)))) in
  let lines := split nl analysis_text in
  (foldl parse_line (None, result) lines).2.

Definition section_keys : list str :=
  [ lit "code_review"; lit "optimization"; lit "security";
    lit "refactored_code" ].

(** Lines 174-207: the reply parsed into the result dict. *)
Definition parse_structured_response (analysis_text : str) : gmap str str :=
  foldl (λ result key, alter strip key result)
        (accumulate_sections analysis_text) section_keys.

(** [not GROQ_API_KEY] *)
Definition api_key_missing : bool :=
  match GROQ_API_KEY with
  | None => true
  | Some k => negb (truthy k)
  end.

(** [analyze_code_with_ai], lines 104-210. *)
Definition analyze_code_with_ai (code language : str) : py (gmap str str) :=
  if api_key_missing then
    ret {[ lit "error" :=
             lit "Groq API key not configured. Please set GROQ_API_KEY in .env file" ]}
  else
    try_catch
      (let* analysis_text := chat_completion (chat_request code language) in
       ret (parse_structured_response analysis_text))
      (λ e, ret {[ lit "error" := lit "AI Analysis Error: " ++ e ]}).

(** The dict appended by [save_analysis_to_history], lines 219-225;
    [s[:n]] is [take n s]. *)
Definition history_entry_of (code language : str) (result : gmap str str)
    (now : str) : history_entry :=
  {| timestamp := now;
     entry_language := language;
     code_snippet :=
       if (200 <? length code)%nat then take 200 code ++ lit "..."
       else code;
     has_errors :=
       match result !! lit "error" with Some _ => false | None => true end;
     analysis_summary :=
       take 150 (default [] (result !! lit "code_review")) |}.

(** [save_analysis_to_history], lines 212-230. *)
Definition save_analysis_to_history (username code language : str)
    (result : gmap str str) (now : str) : py unit :=
  let* history := load_json_file HISTORY_FILE in
  let history :=
    match history !! username with
    | None => <[username := []]> history
    | Some _ => history
    end in
  let history :=
    alter (λ l, l ++ [history_entry_of code language result now])
          username history in
  let history := alter (last_n 50) username history in
  save_json_file HISTORY_FILE history.

(** *** The analysis block of the dashboard *)

(** [st.error(message)] *)
Definition st_error (message : str) : py unit :=
  λ w, (Returned tt,
        {| users_json := users_json w; history_json := history_json w;
           llm_calls := llm_calls w;
           session_username := session_username w;
           session_analysis_result := session_analysis_result w;
           session_page := session_page w;
           errors_shown := errors_shown w ++ [message] |}).

(** [st.session_state.analysis_result = result] *)
Definition set_analysis_result (result : gmap str str) : py unit :=
  λ w, (Returned tt,
        {| users_json := users_json w; history_json := history_json w;
           llm_calls := llm_calls w;
           session_username := session_username w;
           session_analysis_result := Some result;
           session_page := session_page w;
           errors_shown := errors_shown w |}).

(** [st.session_state.page = page] *)
Definition set_page (page : str) : py unit :=
  λ w, (Returned tt,
        {| users_json := users_json w; history_json := history_json w;
           llm_calls := llm_calls w;
           session_username := session_username w;
           session_analysis_result := session_analysis_result w;
           session_page := page;
           errors_shown := errors_shown w |}).

(** [st.session_state.username] *)
Definition get_username : py str :=
  λ w, (Returned (session_username w), w).

(** [render_dashboard], lines 514-527, once the button is pressed;
    [st.rerun()] ends the run of the script and is the last statement. *)
Definition analysis_execution (code_input selected_language now : str)
  : py unit :=
  if negb (truthy code_input) || eqb (strip code_input) [] then
    st_error (lit "Please enter or upload code to analyze")
  else
    let* result := analyze_code_with_ai code_input selected_language in
    match result !! lit "error" with
    | Some message => st_error message
    | None =>
        set_analysis_result result ;;;
        let* username := get_username in
        save_analysis_to_history username code_input selected_language
                                 result now ;;;
        set_page (lit "results")
    end.


(** ** Vocabulary of the statements *)

(** Nothing but whitespace, the empty string included. *)
Definition blank (s : str) : bool := forallb is_space s.

(** [sep.join(parts)] *)
Fixpoint join (sep : char) (parts : list str) : str :=
  match parts with
  | [] => []
  | [p] => p
  | p :: parts' => p ++ sep :: join sep parts'
  end.

(** The section a line opens, if it holds a header. *)
Definition header_of (line : str) : option str :=
  match_header sections line None.

(** What the lines add to the text under [key] when the loop reaches
    them with [current_section]. *)
Fixpoint body_of (key : str) (current_section : option str)
    (lines : list str) : str :=
  match lines with
  | [] => []
  | line :: lines' =>
      let current_section := match_header sections line current_section in
      (if bool_decide (current_section = Some key) then line ++ [nl] else [])
        ++ body_of key current_section lines'
  end.

(** What [load_json_file] makes of a file. *)
Definition stored {A} `{Empty A} (f : file A) : A :=
  match f with
  | Stored data => data
  | _ => ∅
  end.

Definition unusable {A} (f : file A) : bool :=
  match f with
  | Stored _ => false
  | _ => true
  end.

Definition users_of (w : world) : gmap str user_record :=
  stored (users_json w).

(** [username]'s list in the history file, empty when there is none. *)
Definition history_of (w : world) (username : str) : list history_entry :=
  default [] (stored (history_json w) !! username).

(** One call of [save_analysis_to_history]. *)
Record append := {
  a_username : str;
  a_code : str;
  a_language : str;
  a_result : gmap str str;
  a_now : str
}.

Definition entry_of (a : append) : history_entry :=
  history_entry_of (a_code a) (a_language a) (a_result a) (a_now a).

(** The calls of a list, one after the other. *)
Fixpoint save_all (calls : list append) : py unit :=
  match calls with
  | [] => ret tt
  | a :: calls' =>
      save_analysis_to_history (a_username a) (a_code a) (a_language a)
                               (a_result a) (a_now a) ;;;
      save_all calls'
  end.

(** The entries a list of calls appends for [username], in order. *)
Definition entries_for (username : str) (calls : list append)
  : list history_entry :=
  entry_of <$> filter (λ a, a_username a = username) calls.

(** [lines], each followed by a newline. *)
Definition unlines (lines : list str) : str :=
  concat ((λ l, l ++ [nl]) <$> lines).

(** A header line with the lines under it, up to the next header line. *)
Record block := {
  block_key : str;
  block_header : str;
  block_body : list str
}.

Definition block_lines (b : block) : list str :=
  block_header b :: block_body b.

Definition is_block (b : block) : Prop :=
  header_of (block_header b) = Some (block_key b)
  ∧ Forall (λ l, header_of l = None) (block_body b).

(** The blocks opened for [key], in order, as one text. *)
Definition blocks_text (key : str) (blocks : list block) : str :=
  concat ((λ b, unlines (block_lines b))
            <$> filter (λ b, block_key b = key) blocks).

(** Every entry of every user's list says [has_errors]. *)
Definition all_flagged (w : world) : Prop :=
  ∀ username e, e ∈ history_of w username → has_errors e = true.

(** ** The session and the pages *)

(** A value kept in [st.session_state]. *)
Inductive value : Type :=
| VNone
| VBool (b : bool)
| VStr (s : str)
| VDict (d : gmap str str).

(** [bool(v)] *)
Definition value_truthy (v : value) : bool :=
  match v with
  | VNone => false
  | VBool b => b
  | VStr s => truthy s
  | VDict d => negb (bool_decide (d = ∅))
  end.

(** [v == s] for a string literal [s] *)
Definition value_is (v : value) (s : str) : bool :=
  match v with
  | VStr s' => eqb s' s
  | _ => false
  end.

(** [st.error], [st.warning], [st.success], [st.info] *)
Inductive level : Type := LError | LWarning | LSuccess | LInfo.

(** What a run of the script works on: the world of the functions
    above, of which the pages use the files and the requests sent; the
    keys the program itself keeps in [st.session_state] (the keys of
    the widgets are left out); the messages shown. *)
Record browser := {
  disk : world;
  session_state : gmap str value;
  shown : list (level * str)
}.

(** How a run, or a part of one, ends: it runs to its end, it is cut
    short by [st.rerun()], an exception escapes, or it reaches a
    statement whose behaviour is not described here. *)
Inductive ran (A : Type) : Type :=
| Finished (a : A)
| Rerun
| Failed (msg : str)
| Unmodelled.
#[global] Arguments Finished {A} a.
#[global] Arguments Rerun {A}.
#[global] Arguments Failed {A} msg.
#[global] Arguments Unmodelled {A}.

Definition ui (A : Type) : Type := browser → ran A * browser.

Definition ui_ret {A} (a : A) : ui A := λ b, (Finished a, b).
Definition ui_bind {A B} (c : ui A) (k : A → ui B) : ui B :=
  λ b, match c b with
       | (Finished a, b') => k a b'
       | (Rerun, b') => (Rerun, b')
       | (Failed msg, b') => (Failed msg, b')
       | (Unmodelled, b') => (Unmodelled, b')
       end.

Notation "'let+' x ':=' c 'in' k" := (ui_bind c (λ x, k))
  (at level 10, x name, c at level 100, k at level 200).
Notation "c ';+' k" := (ui_bind c (λ _, k))
  (at level 100, k at level 200, right associativity).

(** A call of one of the functions above. *)
Definition lift {A} (c : py A) : ui A :=
  λ b, match c (disk b) with
       | (Returned a, w) =>
           (Finished a, {| disk := w; session_state := session_state b;
                           shown := shown b |})
       | (Raised msg, w) =>
           (Failed msg, {| disk := w; session_state := session_state b;
                           shown := shown b |})
       end.

(** [name in st.session_state] *)
Definition has_attr (name : str) : ui bool :=
  λ b, (Finished (bool_decide (is_Some (session_state b !! name))), b).

(** [st.session_state.name] *)
Definition get_attr (name : str) : ui value :=
  λ b, match session_state b !! name with
       | Some v => (Finished v, b)
       | None => (Failed (lit "AttributeError"), b)
       end.

(** [st.session_state.name = v] *)
Definition set_attr (name : str) (v : value) : ui unit :=
  λ b, (Finished tt, {| disk := disk b;
                        session_state := <[name := v]> (session_state b);
                        shown := shown b |}).

(** [st.error(message)] and the like *)
Definition show (l : level) (message : str) : ui unit :=
  λ b, (Finished tt, {| disk := disk b; session_state := session_state b;
                        shown := shown b ++ [(l, message)] |}).

(** [st.rerun()] *)
Definition st_rerun {A} : ui A := λ b, (Rerun, b).

Definition ui_raise {A} (msg : str) : ui A := λ b, (Failed msg, b).
Definition unmodelled {A} : ui A := λ b, (Unmodelled, b).

(** [if cond: body] *)
Definition when (cond : bool) (body : ui unit) : ui unit :=
  if cond then body else ui_ret tt.

(** The buttons of the pages. *)
Inductive button : Type :=
| HomeLogin | HomeSignUp | HomeDashboard
| Login | LoginBack | LoginSignUp
| SignUp | SignUpBack
| Logout | Analyze
| ResultsBack | ResultsDownload | ResultsDashboard.

(** What the widgets and the clock give to one run of the script. *)
Record inputs := {
  pressed : button → bool;
  login_username : str;
  login_password : str;
  signup_username : str;
  signup_password : str;
  signup_confirm : str;
  uploaded_file : option (str * outcome str);   (* name, decoded content *)
  code_area : str;
  language_select : str;
  clock : str
}.

(** [if name not in st.session_state: st.session_state.name = v] *)
Definition init_attr (name : str) (v : value) : ui unit :=
  let+ present := has_attr name in
  when (negb present) (set_attr name v).

(** [initialize_session_state], lines 49-60. *)
Definition initialize_session_state : ui unit :=
  init_attr (lit "authenticated") (VBool false) ;+
  init_attr (lit "username") VNone ;+
  init_attr (lit "page") (VStr (lit "home")) ;+
  init_attr (lit "analysis_result") VNone ;+
  init_attr (lit "language") (VStr (lit "en")).

(** [logout], lines 93-98. *)
Definition logout : ui unit :=
  set_attr (lit "authenticated") (VBool false) ;+
  set_attr (lit "username") VNone ;+
  set_attr (lit "page") (VStr (lit "home")) ;+
  set_attr (lit "analysis_result") VNone.

(** [st.session_state.page = page; st.rerun()] *)
Definition go_to (page : string) : ui unit :=
  set_attr (lit "page") (VStr (lit page)) ;+ st_rerun.

(** [render_home_page], lines 371-386. *)
Definition render_home_page (inp : inputs) : ui unit :=
  let+ authenticated := get_attr (lit "authenticated") in
  if negb (value_truthy authenticated) then
    when (pressed inp HomeLogin) (go_to "login") ;+
    when (pressed inp HomeSignUp) (go_to "signup")
  else
    when (pressed inp HomeDashboard) (go_to "dashboard").

(** The block under the "Login" button, lines 402-413. *)
Definition login_pressed (username password : str) : ui unit :=
  if truthy username && truthy password then
    let+ r := lift (authenticate_user username password) in
    if r.1 then
      set_attr (lit "authenticated") (VBool true) ;+
      set_attr (lit "username") (VStr username) ;+
      set_attr (lit "page") (VStr (lit "dashboard")) ;+
      show LSuccess r.2 ;+
      st_rerun
    else show LError r.2
  else show LWarning (lit "Please enter both username and password").

(** [render_login_page], lines 395-425. *)
Definition render_login_page (inp : inputs) : ui unit :=
  when (pressed inp Login)
       (login_pressed (login_username inp) (login_password inp)) ;+
  when (pressed inp LoginBack) (go_to "home") ;+
  when (pressed inp LoginSignUp) (go_to "signup").

(** The block under the "Sign Up" button, lines 442-457. *)
Definition signup_pressed (username password confirm_password now : str)
  : ui unit :=
  if truthy username && truthy password && truthy confirm_password then
    if negb (eqb password confirm_password) then
      show LError (lit "Passwords do not match")
    else if (length password <? 6)%nat then
      show LError (lit "Password must be at least 6 characters")
    else
      let+ r := lift (register_user username password now) in
      if r.1 then
        show LSuccess r.2 ;+
        show LInfo (lit "Please login with your credentials") ;+
        go_to "login"
      else show LError r.2
  else show LWarning (lit "Please fill in all fields").

(** [render_signup_page], lines 434-462. *)
Definition render_signup_page (inp : inputs) : ui unit :=
  when (pressed inp SignUp)
       (signup_pressed (signup_username inp) (signup_password inp)
                       (signup_confirm inp) (clock inp)) ;+
  when (pressed inp SignUpBack) (go_to "home").

(** The block under the "Analyze Code" button, lines 515-527, on the
    session as the pages keep it. With a username that is no string the
    history would be keyed by something else than a string, which is
    not described here. *)
Definition analyze_pressed (code_input selected_language now : str)
  : ui unit :=
  if negb (truthy code_input) || eqb (strip code_input) [] then
    show LError (lit "Please enter or upload code to analyze")
  else
    let+ result := lift (analyze_code_with_ai code_input selected_language) in
    match result !! lit "error" with
    | Some message => show LError message
    | None =>
        set_attr (lit "analysis_result") (VDict result) ;+
        let+ username := get_attr (lit "username") in
        match username with
        | VStr username =>
            lift (save_analysis_to_history username code_input
                    selected_language result now)
        | _ => unmodelled
        end ;+
        go_to "results"
    end.

(** [render_dashboard], lines 466-527. *)
Definition render_dashboard (inp : inputs) : ui unit :=
  let+ _ := get_attr (lit "username") in
  when (pressed inp Logout) (logout ;+ st_rerun) ;+
  let+ code_input :=
    match uploaded_file inp with
    | None => ui_ret (code_area inp)
    | Some (name, Returned content) =>
        show LInfo (lit "Loaded code from: " ++ name) ;+ ui_ret content
    | Some (name, Raised msg) => ui_raise msg
    end in
  when (pressed inp Analyze)
       (analyze_pressed code_input (language_select inp) (clock inp)).

(** [render_results_page], lines 531-599; a result that is no dict has
    no [get]. *)
Definition render_results_page (inp : inputs) : ui unit :=
  when (pressed inp ResultsBack) (go_to "dashboard") ;+
  let+ result := get_attr (lit "analysis_result") in
  if value_truthy result then
    match result with
    | VDict _ => ui_ret tt
    | _ => ui_raise (lit "AttributeError")
    end
  else
    show LWarning (lit "No analysis results available") ;+
    when (pressed inp ResultsDashboard) (go_to "dashboard").

(** The routing of [main], lines 621-641. *)
Definition route (inp : inputs) : ui unit :=
  let+ page := get_attr (lit "page") in
  if value_is page (lit "home") then render_home_page inp
  else if value_is page (lit "login") then render_login_page inp
  else if value_is page (lit "signup") then render_signup_page inp
  else if value_is page (lit "dashboard") then
    let+ authenticated := get_attr (lit "authenticated") in
    if value_truthy authenticated then render_dashboard inp
    else
      show LWarning (lit "Please login to access the dashboard") ;+
      go_to "login"
  else if value_is page (lit "results") then
    let+ authenticated := get_attr (lit "authenticated") in
    if value_truthy authenticated then render_results_page inp
    else
      show LWarning (lit "Please login to view results") ;+
      go_to "login"
  else ui_ret tt.

(** [main], lines 605-641. *)
Definition main (inp : inputs) : ui unit :=
  initialize_session_state ;+
  route inp.

(** A browser that has not run the script yet. *)
Definition fresh (w : world) : browser :=
  {| disk := w; session_state := ∅; shown := [] |}.

(** The state after the runs of the script for a list of inputs. *)
Definition runs (inps : list inputs) (b : browser) : browser :=
  foldl (λ b inp, (main inp b).2) b inps.

(** What [initialize_session_state] gives a session that has nothing. *)
Definition session_defaults : gmap str value :=
  <[lit "authenticated" := VBool false]>
  (<[lit "username" := VNone]>
  (<[lit "page" := VStr (lit "home")]>
  (<[lit "analysis_result" := VNone]>
  (<[lit "language" := VStr (lit "en")]> ∅)))).

(** The credentials the login block lets in. *)
Definition verified (w : world) (username password : str) : Prop :=
  username ≠ [] ∧ password ≠ []
  ∧ ∃ record, users_of w !! username = Some record
              ∧ stored_password record = hash_password password.

(** The fields the signup block passes on to [register_user]. *)
Definition acceptable (username password confirm_password : str) : Prop :=
  username ≠ [] ∧ password ≠ [] ∧ password = confirm_password
  ∧ (6 ≤ length password)%nat.

(** A session that says it is authenticated names a user of the users
    file. *)
Definition auth_sound (b : browser) : Prop :=
  ∀ v, session_state b !! lit "authenticated" = Some v →
       value_truthy v = true →
       ∃ u, session_state b !! lit "username" = Some (VStr u)
            ∧ is_Some (users_of (disk b) !! u).

(** The stored result is [None] or a dict without "error". *)
Definition result_sound (b : browser) : Prop :=
  ∀ v, session_state b !! lit "analysis_result" = Some v →
       v = VNone ∨ ∃ d, v = VDict d ∧ d !! lit "error" = None.

Definition sound (b : browser) : Prop :=
  auth_sound b ∧ result_sound b.

(** From [b0] to [b] no user is lost, and the users the history file
    has gained are users of the users file. *)
Definition grows (b0 b : browser) : Prop :=
  dom (users_of (disk b0)) ⊆ dom (users_of (disk b))
  ∧ dom (stored (history_json (disk b)))
    ⊆ dom (stored (history_json (disk b0))) ∪ dom (users_of (disk b)).

(** The five keys of [initialize_session_state] are in the session. *)
Definition initialized (b : browser) : Prop :=
  ∀ name, is_Some (session_defaults !! name) →
          is_Some (session_state b !! name).

Definition ready (b : browser) : Prop := initialized b ∧ sound b.

(** [st.session_state.authenticated] holds. *)
Definition authenticated (b : browser) : Prop :=
  ∃ v, session_state b !! lit "authenticated" = Some v
       ∧ value_truthy v = true.

(** A run ends well when it reaches no statement left undescribed and
    the only exception that escapes it, if any, is the one raised by
    decoding the uploaded file. *)
Definition ends_well (inp : inputs) (r : ran unit) : Prop :=
  match r with
  | Unmodelled => False
  | Failed msg => ∃ name, uploaded_file inp = Some (name, Raised msg)
  | _ => True
  end.

(** What the pages that leave the world alone keep: the state is ready,
    the run ends well, and the world is the one of [b0]. *)
Definition kept (inp : inputs) (b0 : browser) (r : ran unit) (b : browser)
  : Prop :=
  ready b ∧ ends_well inp r ∧ disk b = disk b0.

(** What every page keeps. *)
Definition well (inp : inputs) (b0 : browser) (r : ran unit) (b : browser)
  : Prop :=
  ready b ∧ ends_well inp r ∧ grows b0 b.

(** The loop of lines 194-201 after the lines [seen] of a reply: the
    current section and [result], started as lines 175-181 and 192
    leave them. *)
Definition loop_after (analysis_text : str) (seen : list str)
  : option str * gmap str str :=
  let result : gmap str str :=
    <[lit "code_review" := []]>
    (<[lit "optimization" := []]>
    (<[lit "security" := []]>
    (<[lit "refactored_code" := []]>
    (<[lit "raw_analysis" := analysis_text]> ∅)))) in
  foldl parse_line (None, result) seen.

(** ** The files as Python finds them

    A second, untyped model of the two stores, for what the program
    does with a file that is not what it wrote itself: the file is
    there or not, can or cannot be opened, holds JSON or not, and its
    JSON is any JSON value. The operators that the three store
    functions apply to what they load fail as Python's do; an exception
    is named by its class. *)

(** What [json.load] returns; a [dict] is its items in insertion
    order, a number is kept as its [repr]. *)
#[warnings="-register-all"] Inductive json : Type :=
| JNone
| JBool (b : bool)
| JNumber (repr : str)
| JStr (s : str)
| JList (elements : list json)
| JDict (items : list (str * json)).

(** [d.get(key)] on the items of a dict *)
Fixpoint dict_get (key : str) (items : list (str * json)) : option json :=
  match items with
  | [] => None
  | (k, v) :: items' => if eqb k key then Some v else dict_get key items'
  end.

(** [d[key] = v] on the items of a dict: in place when the key is
    there, at the end when it is not. *)
Fixpoint dict_set (key : str) (v : json) (items : list (str * json))
  : list (str * json) :=
  match items with
  | [] => [(key, v)]
  | (k, v') :: items' =>
      if eqb k key then (k, v) :: items'
      else (k, v') :: dict_set key v items'
  end.

(** [x == s], for a string [s] *)
Definition py_eq_str (x : json) (s : str) : bool :=
  match x with
  | JStr s' => eqb s' s
  | _ => false
  end.

(** [key in x], for a string [key]: a key of a dict, an element of a
    list, a substring of a string. *)
Definition py_in (key : str) (x : json) : outcome bool :=
  match x with
  | JDict items =>
      Returned (match dict_get key items with Some _ => true | None => false end)
  | JList elements => Returned (existsb (λ v, py_eq_str v key) elements)
  | JStr s => Returned (contains key s)
  | JNone | JBool _ | JNumber _ => Raised (lit "TypeError")
  end.

(** [x[key]], for a string [key] *)
Definition py_getitem (x : json) (key : str) : outcome json :=
  match x with
  | JDict items =>
      match dict_get key items with
      | Some v => Returned v
      | None => Raised (lit "KeyError")
      end
  | _ => Raised (lit "TypeError")
  end.

(** [x[key] = v], for a string [key]: [x] afterwards. *)
Definition py_setitem (x : json) (key : str) (v : json) : outcome json :=
  match x with
  | JDict items => Returned (JDict (dict_set key v items))
  | _ => Raised (lit "TypeError")
  end.

(** [x.append(v)]: [x] afterwards. *)
Definition py_append (x v : json) : outcome json :=
  match x with
  | JList elements => Returned (JList (elements ++ [v]))
  | _ => Raised (lit "AttributeError")
  end.

(** [x[-50:]] *)
Definition py_last_50 (x : json) : outcome json :=
  match x with
  | JList elements => Returned (JList (last_n 50 elements))
  | JStr s => Returned (JStr (last_n 50 s))
  | _ => Raised (lit "TypeError")
  end.

(** What a file holds: text that [json.load] rejects, or text that it
    reads as [data]. *)
Inductive contents : Type :=
| Garbage
| Json (data : json).

(** One path of the file system: nothing there, and whether a file can
    be created; or a file (or directory) there, whether it can be
    opened for reading and for writing, and what it holds. *)
Inductive path : Type :=
| Absent (creatable : bool)
| Present (readable writable : bool) (held : contents).

(** Statements that work on one path. *)
Definition io (A : Type) : Type := path → outcome A * path.

Definition io_ret {A} (a : A) : io A := λ p, (Returned a, p).
Definition io_of {A} (o : outcome A) : io A := λ p, (o, p).
Definition io_bind {A B} (c : io A) (k : A → io B) : io B :=
  λ p, match c p with
       | (Raised e, p') => (Raised e, p')
       | (Returned a, p') => k a p'
       end.
Definition io_try {A} (body : io A) (handler : str → io A) : io A :=
  λ p, match body p with
       | (Raised e, p') => handler e p'
       | (Returned a, p') => (Returned a, p')
       end.

Notation "'let!' x ':=' c 'in' k" := (io_bind c (λ x, k))
  (at level 10, x name, c at level 100, k at level 200).
Notation "c ';!' k" := (io_bind c (λ _, k))
  (at level 100, k at level 200, right associativity).

(** [os.path.exists(filename)] *)
Definition raw_exists : io bool :=
  λ p, (Returned (match p with Absent _ => false | Present _ _ _ => true end),
        p).

(** [with open(filename, 'r') as f: return json.load(f)] *)
Definition raw_open_json_load : io json :=
  λ p, match p with
       | Absent _ => (Raised (lit "FileNotFoundError"), p)
       | Present false _ _ => (Raised (lit "OSError"), p)
       | Present true _ Garbage => (Raised (lit "JSONDecodeError"), p)
       | Present true _ (Json data) => (Returned data, p)
       end.

(** [load_json_file], lines 34-42; the bare [except] takes whatever is
    raised. *)
Definition raw_load_json_file : io json :=
  let! present := raw_exists in
  if present then
    io_try raw_open_json_load (λ _, io_ret (JDict []))
  else io_ret (JDict []).

(** [save_json_file], lines 44-47: [open(filename, 'w')] raises when
    the file cannot be opened for writing, and leaves it; else the file
    then holds what [json.dump] writes, which loads as [data]. A file
    that is created can be read and written. A write that fails after
    the file was opened is not described. *)
Definition raw_save_json_file (data : json) : io unit :=
  λ p, match p with
       | Absent true => (Returned tt, Present true true (Json data))
       | Absent false => (Raised (lit "OSError"), p)
       | Present readable true _ =>
           (Returned tt, Present readable true (Json data))
       | Present _ false _ => (Raised (lit "OSError"), p)
       end.

(** A code point that UTF-8 does not encode. *)
Definition is_surrogate (c : char) : bool :=
  (55296 <=? c) && (c <=? 57343).

(** [hash_password], lines 30-32, with the [UnicodeEncodeError] of
    [password.encode()] on a lone surrogate. *)
Definition raw_hash_password (password : str) : outcome str :=
  if existsb is_surrogate password then Raised (lit "UnicodeEncodeError")
  else Returned (hash_password password).

(** The dict literal of lines 72-75. *)
Definition user_json (r : user_record) : json :=
  JDict [ (lit "password", JStr (stored_password r));
          (lit "created_at", JStr (created_at r)) ].

(** The dict literal of lines 219-225. *)
Definition entry_json (e : history_entry) : json :=
  JDict [ (lit "timestamp", JStr (timestamp e));
          (lit "language", JStr (entry_language e));
          (lit "code_snippet", JStr (code_snippet e));
          (lit "has_errors", JBool (has_errors e));
          (lit "analysis_summary", JStr (analysis_summary e)) ].

(** [register_user], lines 66-79, on the path of [USERS_FILE]; the
    right-hand side of line 72 is evaluated before the item is set. *)
Definition raw_register_user (username password now : str)
  : io (bool * str) :=
  let! users := raw_load_json_file in
  let! taken := io_of (py_in username users) in
  if taken then io_ret (false, lit "Username already exists")
  else
    let! hashed := io_of (raw_hash_password password) in
    let! users :=
      io_of (py_setitem users username
               (user_json {| stored_password := hashed;
                             created_at := now |})) in
    raw_save_json_file users ;!
    io_ret (true, lit "Registration successful").

(** [authenticate_user], lines 81-91, on the path of [USERS_FILE]; the
    left operand of [==] is evaluated first. *)
Definition raw_authenticate_user (username password : str)
  : io (bool * str) :=
  let! users := raw_load_json_file in
  let! known := io_of (py_in username users) in
  if negb known then io_ret (false, lit "Username not found")
  else
    let! record := io_of (py_getitem users username) in
    let! stored_hash := io_of (py_getitem record (lit "password")) in
    let! hashed := io_of (raw_hash_password password) in
    if py_eq_str stored_hash hashed then
      io_ret (true, lit "Login successful")
    else io_ret (false, lit "Incorrect password").

(** [save_analysis_to_history], lines 212-230, on the path of
    [HISTORY_FILE]. [append] changes the list that [history] holds
    under [username], so [history] is given the list as it is
    afterwards. *)
Definition raw_save_analysis_to_history (username code language : str)
    (result : gmap str str) (now : str) : io unit :=
  let! history := raw_load_json_file in
  let! known := io_of (py_in username history) in
  let! history :=
    if negb known then io_of (py_setitem history username (JList []))
    else io_ret history in
  let! analyses := io_of (py_getitem history username) in
  let! analyses :=
    io_of (py_append analyses
             (entry_json (history_entry_of code language result now))) in
  let! history := io_of (py_setitem history username analyses) in
  let! analyses := io_of (py_getitem history username) in
  let! kept := io_of (py_last_50 analyses) in
  let! history := io_of (py_setitem history username kept) in
  raw_save_json_file history.

(** What [load_json_file] returns for a path. *)
Definition loaded (p : path) : json :=
  match p with
  | Present true _ (Json data) => data
  | _ => JDict []
  end.

(** Missing, not to be opened for reading, or not JSON. *)
Definition loads_empty (p : path) : bool :=
  match p with
  | Present true _ (Json _) => false
  | _ => true
  end.

(** [open(filename, 'w')] succeeds. *)
Definition can_write (p : path) : bool :=
  match p with
  | Absent creatable => creatable
  | Present _ writable _ => writable
  end.

(** The path after [data] was written to it. *)
Definition written (data : json) (p : path) : path :=
  match p with
  | Absent _ => Present true true (Json data)
  | Present readable writable _ => Present readable writable (Json data)
  end.

(** Every code point of [s] is below 128: on such a string [lower] is
    what [str.lower] does. *)
Definition is_ascii (s : str) : bool := forallb (λ c, c <? 128) s.

(** Statements that work on the world of the functions above, for the
    session, the messages and the requests, and on the path of
    [HISTORY_FILE] as Python finds it. *)
Definition rpy (A : Type) : Type := world * path → outcome A * (world * path).

Definition rpy_bind {A B} (c : rpy A) (k : A → rpy B) : rpy B :=
  λ s, match c s with
       | (Raised e, s') => (Raised e, s')
       | (Returned a, s') => k a s'
       end.

(** A statement that leaves the history file alone. *)
Definition in_world {A} (c : py A) : rpy A :=
  λ s, match c s.1 with (o, w) => (o, (w, s.2)) end.

(** A statement that works on the history file only. *)
Definition in_history {A} (c : io A) : rpy A :=
  λ s, match c s.2 with (o, p) => (o, (s.1, p)) end.

Notation "'let^' x ':=' c 'in' k" := (rpy_bind c (λ x, k))
  (at level 10, x name, c at level 100, k at level 200).
Notation "c ';^' k" := (rpy_bind c (λ _, k))
  (at level 100, k at level 200, right associativity).

(** [render_dashboard], lines 514-527, once the button is pressed, with
    [save_analysis_to_history] as it works on any history file. *)
Definition raw_analysis_execution (code_input selected_language now : str)
  : rpy unit :=
  if negb (truthy code_input) || eqb (strip code_input) [] then
    in_world (st_error (lit "Please enter or upload code to analyze"))
  else
    let^ result :=
      in_world (analyze_code_with_ai code_input selected_language) in
    match result !! lit "error" with
    | Some message => in_world (st_error message)
    | None =>
        in_world (set_analysis_result result) ;^
        let^ username := in_world get_username in
        in_history (raw_save_analysis_to_history
                      username code_input selected_language result now) ;^
        in_world (set_page (lit "results"))
    end.

(** *** A path as a file of the first model

    A working store is a file that is not there and can be created, or
    one that can be read and written and holds text that is no JSON or
    a dict as the program writes it. *)

(** The dict of the first model that the items of a JSON dict are: no
    key twice, every value read by [decode]. *)
Fixpoint map_of_items {A} (decode : json → option A)
    (items : list (str * json)) : option (gmap str A) :=
  match items with
  | [] => Some ∅
  | (k, v) :: items' =>
      match decode v, map_of_items decode items' with
      | Some a, Some m =>
          if bool_decide (m !! k = None) then Some (<[k := a]> m) else None
      | _, _ => None
      end
  end.

Definition file_of {A} (decode : json → option A) (p : path)
  : option (file (gmap str A)) :=
  match p with
  | Absent true => Some Missing
  | Present true true Garbage => Some Malformed
  | Present true true (Json (JDict items)) =>
      Stored <$> map_of_items decode items
  | _ => None
  end.

(** A value as line 72 writes it. *)
Definition user_of_json (v : json) : option user_record :=
  match v with
  | JDict [(k1, JStr hashed); (k2, JStr now)] =>
      if eqb k1 (lit "password") && eqb k2 (lit "created_at") then
        Some {| stored_password := hashed; created_at := now |}
      else None
  | _ => None
  end.

(** A value as lines 219-225 write it. *)
Definition entry_of_json (v : json) : option history_entry :=
  match v with
  | JDict [(k1, JStr now); (k2, JStr language); (k3, JStr snippet);
           (k4, JBool flag); (k5, JStr summary)] =>
      if eqb k1 (lit "timestamp") && eqb k2 (lit "language")
         && eqb k3 (lit "code_snippet") && eqb k4 (lit "has_errors")
         && eqb k5 (lit "analysis_summary") then
        Some {| timestamp := now; entry_language := language;
                code_snippet := snippet; has_errors := flag;
                analysis_summary := summary |}
      else None
  | _ => None
  end.

Definition entries_of_json (v : json) : option (list history_entry) :=
  match v with
  | JList elements => mapM entry_of_json elements
  | _ => None
  end.

Definition users_file_of : path → option (file (gmap str user_record)) :=
  file_of user_of_json.

Definition history_file_of
  : path → option (file (gmap str (list history_entry))) :=
  file_of entries_of_json.

(** *** A sample environment, for the concrete runs *)

Definition world0 : world :=
  {| users_json := Missing;
     history_json := Missing;
     llm_calls := [];
     session_username := lit "alice";
     session_analysis_result := None;
     session_page := lit "dashboard";
     errors_shown := [] |}.

(** A stand-in for SHA-256 in the concrete runs. *)
Definition toy_digest (s : str) : str := reverse s.

(** [world0] once alice has registered with "secret1". *)
Definition world_alice : world :=
  {| users_json :=
       Stored {[ lit "alice" :=
                   {| stored_password := toy_digest (lit "secret1");
                      created_at := lit "2024-01-01T00:00:00" |} ]};
     history_json := Missing;
     llm_calls := [];
     session_username := lit "alice";
     session_analysis_result := None;
     session_page := lit "dashboard";
     errors_shown := [] |}.

Definition sample_reply : str :=
  ln "## Code Review" ++ ln "- the loop never ends" ++
  ln "## Optimization Suggestions" ++ ln "- cache the length" ++
  ln "## Security Issues" ++ ln "- none" ++
  ln "## Refactored Code" ++ lit "x = 1".

Definition provider_replies (_ : request) : outcome str :=
  Returned sample_reply.

Definition provider_down (_ : request) : outcome str :=
  Raised (lit "Connection error.").

(** Fifty-five appends for alice, told apart by their code. *)
Definition call_number (i : nat) : append :=
  {| a_username := lit "alice";
     a_code := replicate i 120;
     a_language := lit "Python";
     a_result := parse_structured_response sample_reply;
     a_now := lit "2024-01-01T00:00:00" |}.

Definition calls55 : list append := call_number <$> seq 0 55.

(** A run with nothing pressed and every field empty. *)
Definition quiet : inputs :=
  {| pressed := λ _, false;
     login_username := [];
     login_password := [];
     signup_username := [];
     signup_password := [];
     signup_confirm := [];
     uploaded_file := None;
     code_area := [];
     language_select := lit "Python";
     clock := lit "2024-01-01T00:00:00" |}.

Definition is_button (x y : button) : bool :=
  match x, y with
  | HomeLogin, HomeLogin | HomeSignUp, HomeSignUp
  | HomeDashboard, HomeDashboard | Login, Login | LoginBack, LoginBack
  | LoginSignUp, LoginSignUp | SignUp, SignUp | SignUpBack, SignUpBack
  | Logout, Logout | Analyze, Analyze | ResultsBack, ResultsBack
  | ResultsDownload, ResultsDownload
  | ResultsDashboard, ResultsDashboard => true
  | _, _ => false
  end.

(** A run with one button pressed. *)
Definition click (x : button) : inputs :=
  {| pressed := is_button x;
     login_username := [];
     login_password := [];
     signup_username := [];
     signup_password := [];
     signup_confirm := [];
     uploaded_file := None;
     code_area := [];
     language_select := lit "Python";
     clock := lit "2024-01-01T00:00:00" |}.

(** Alice fills the signup form and presses "Sign Up". *)
Definition alice_signs_up : inputs :=
  {| pressed := is_button SignUp;
     login_username := [];
     login_password := [];
     signup_username := lit "alice";
     signup_password := lit "secret1";
     signup_confirm := lit "secret1";
     uploaded_file := None;
     code_area := [];
     language_select := lit "Python";
     clock := lit "2024-01-01T00:00:00" |}.

(** Alice fills the login form and presses "Login". *)
Definition alice_logs_in : inputs :=
  {| pressed := is_button Login;
     login_username := lit "alice";
     login_password := lit "secret1";
     signup_username := [];
     signup_password := [];
     signup_confirm := [];
     uploaded_file := None;
     code_area := [];
     language_select := lit "Python";
     clock := lit "2024-01-02T00:00:00" |}.

(** From the home page to the dashboard. *)
Definition alice_arrives : list inputs :=
  [click HomeSignUp; alice_signs_up; alice_logs_in].

(** Alice pastes code and presses "Analyze Code". *)
Definition alice_analyzes : inputs :=
  {| pressed := is_button Analyze;
     login_username := [];
     login_password := [];
     signup_username := [];
     signup_password := [];
     signup_confirm := [];
     uploaded_file := None;
     code_area := lit "x = 1";
     language_select := lit "Python";
     clock := lit "2024-01-03T00:00:00" |}.

(** ** Properties of the string operations *)

Lemma starts_with_app p s :
  starts_with p s = true → ∃ t, s = p ++ t.
Proof.
  revert s. induction p as [|a p IH]; intros s Hs; simpl in *.
  - by exists s.
  - destruct s as [|b s]; [done|].
    apply andb_true_iff in Hs as [Hab Hs].
    apply N.eqb_eq in Hab as ->.
    destruct (IH _ Hs) as [t ->]. by exists t.
Qed.

Lemma contains_app p s :
  contains p s = true → ∃ a b, s = a ++ p ++ b.
Proof.
  induction s as [|c s IH]; simpl; intros Hc.
  - rewrite orb_false_r in Hc.
    destruct (starts_with_app _ _ Hc) as [t ->]. by exists [], t.
  - apply orb_true_iff in Hc as [Hc|Hc].
    + destruct (starts_with_app _ _ Hc) as [t ->]. by exists [], t.
    + destruct (IH Hc) as (a & b & ->). by exists (c :: a), b.
Qed.

Lemma contains_not_blank p s :
  contains p s = true → blank p = false → blank s = false.
Proof.
  intros Hc Hp. destruct (contains_app _ _ Hc) as (a & b & ->).
  unfold blank in *. rewrite !forallb_app, Hp.
  by rewrite andb_false_r.
Qed.

Lemma lstrip_app x y :
  blank x = false → lstrip (x ++ y) = lstrip x ++ y.
Proof.
  induction x as [|c x IH]; simpl; [done|].
  destruct (is_space c); simpl; [exact IH|done].
Qed.

Lemma lstrip_not_blank x : blank x = false → blank (lstrip x) = false.
Proof.
  induction x as [|c x IH]; simpl; [done|].
  destruct (is_space c) eqn:Hc; simpl; [exact IH|].
  by rewrite Hc.
Qed.

Lemma rstrip_nil_blank s : rstrip s = [] → blank s = true.
Proof.
  induction s as [|c s IH]; simpl; [done|].
  destruct (rstrip s) eqn:Hr; [|done].
  destruct (is_space c); [|done]. intros _. by apply IH.
Qed.

Lemma rstrip_prefix_app a y : rstrip a `prefix_of` rstrip (a ++ y).
Proof.
  induction a as [|c a IH]; simpl.
  - apply prefix_nil.
  - destruct (rstrip (a ++ y)) as [|d r] eqn:Hay.
    + apply prefix_nil_inv in IH. by rewrite IH.
    + destruct (rstrip a) as [|e ra] eqn:Ha.
      * destruct (is_space c); [apply prefix_nil|].
        apply prefix_cons, prefix_nil.
      * by apply prefix_cons.
Qed.

Lemma strip_prefix_app x y :
  blank x = false → strip x `prefix_of` strip (x ++ y).
Proof.
  intros Hx. unfold strip. rewrite lstrip_app by done.
  apply rstrip_prefix_app.
Qed.

Lemma strip_not_nil x : blank x = false → strip x ≠ [].
Proof.
  intros Hx Hs. apply rstrip_nil_blank in Hs.
  by rewrite lstrip_not_blank in Hs.
Qed.

Lemma blank_strip_nil s : blank s = true → strip s = [].
Proof.
  unfold strip. induction s as [|c s IH]; simpl; [done|].
  intros [Hc Hs]%andb_true_iff. rewrite Hc. by apply IH.
Qed.

(** The test of line 515 holds exactly of the strings made of
    whitespace only, the empty one included. *)
Lemma blank_test code_input :
  negb (truthy code_input) || eqb (strip code_input) [] = blank code_input.
Proof.
  unfold eqb. destruct (blank code_input) eqn:Hb.
  - rewrite blank_strip_nil by done.
    rewrite bool_decide_eq_true_2 by done. apply orb_true_r.
  - destruct code_input as [|c s]; [done|]. simpl.
    apply bool_decide_eq_false_2. by apply strip_not_nil.
Qed.

(** [rstrip] is [lstrip] seen from the other end. *)
Lemma rstrip_snoc s c :
  rstrip (s ++ [c]) = if is_space c then rstrip s else s ++ [c].
Proof.
  induction s as [|d s IH]; simpl.
  - by destruct (is_space c).
  - rewrite IH. destruct (is_space c); [done|].
    by destruct s.
Qed.

Lemma rstrip_reverse s : rstrip s = reverse (lstrip (reverse s)).
Proof.
  induction s as [|c s IH] using rev_ind; [done|].
  rewrite rstrip_snoc, reverse_snoc. simpl.
  destruct (is_space c); [done|].
  by rewrite reverse_cons, reverse_involutive.
Qed.

Lemma split_not_nil sep s : split sep s ≠ [].
Proof.
  destruct s as [|c s]; simpl; [done|].
  destruct (c =? sep); [done|]. by destruct (split sep s).
Qed.

(** The lines of a text, joined by the separator, are the text. *)
Lemma join_split sep s : join sep (split sep s) = s.
Proof.
  induction s as [|c s IH]; [done|]. cbn [split].
  destruct (c =? sep) eqn:Hc.
  - apply N.eqb_eq in Hc as ->.
    pose proof (split_not_nil sep s) as Hne.
    destruct (split sep s) as [|l ls]; [done|].
    change (join sep ([] :: l :: ls)) with (sep :: join sep (l :: ls)).
    by rewrite IH.
  - destruct (split sep s) as [|l ls] eqn:Hs; [by destruct (split_not_nil sep s)|].
    rewrite <- IH. by destruct ls.
Qed.

Lemma split_lines_no_sep sep s :
  Forall (λ line, sep ∉ line) (split sep s).
Proof.
  induction s as [|c s IH]; cbn [split].
  - repeat constructor. apply not_elem_of_nil.
  - destruct (c =? sep) eqn:Hc.
    + constructor; [apply not_elem_of_nil|done].
    + apply N.eqb_neq in Hc.
      destruct (split sep s) as [|l ls] eqn:Hs;
        [by apply split_not_nil in Hs|].
      apply Forall_cons in IH as [Hl Hls]. constructor; [|done].
      intros [->|?]%elem_of_cons; done.
Qed.

(** ** The extractor *)

Lemma match_header_None items line current_section :
  match_header items line current_section =
  match match_header items line None with
  | Some key => Some key
  | None => current_section
  end.
Proof.
  induction items as [|[header key] items IH]; simpl; [done|].
  by destruct (contains header line).
Qed.

Lemma match_header_item items line (key : str) :
  match_header items line None = Some key →
  ∃ header, (header, key) ∈ items ∧ contains header line = true.
Proof.
  induction items as [|[header key'] items IH]; simpl; [done|].
  destruct (contains header line) eqn:Hc.
  - intros [= ->]. exists header. split; [apply list_elem_of_here|done].
  - intros (h & Hin & Hh)%IH. exists h. split; [by apply list_elem_of_further|done].
Qed.

Lemma sections_keys : sections.*2 = section_keys.
Proof. reflexivity. Qed.

Lemma sections_not_blank (header key : str) :
  (header, key) ∈ sections → blank header = false ∧ key ≠ [].
Proof.
  assert (Forall (λ hk, blank hk.1 = false ∧ hk.2 ≠ []) sections) as Hall.
  { unfold sections. repeat constructor; done. }
  intros Hin. by apply (proj1 (Forall_forall _ _) Hall (header, key)).
Qed.

Lemma header_of_inv (line key : str) :
  header_of line = Some key →
  key ∈ section_keys ∧ key ≠ [] ∧ blank line = false ∧
  ∃ header, (header, key) ∈ sections ∧ contains header line = true.
Proof.
  intros (header & Hin & Hc)%match_header_item.
  destruct (sections_not_blank _ _ Hin) as [Hb Hk].
  split_and!; [|done|by eapply contains_not_blank|by exists header].
  rewrite <- sections_keys. apply list_elem_of_fmap. by exists (header, key).
Qed.

Lemma section_keys_not_nil (key : str) : key ∈ section_keys → key ≠ [].
Proof.
  rewrite <- sections_keys. intros ([h k] & -> & Hin)%list_elem_of_fmap.
  by apply (sections_not_blank h k).
Qed.

(** The loop adds to each key's text what [body_of] says. *)
Lemma foldl_parse_line_lookup lines :
  ∀ current_section (result : gmap str str) (key v : str),
  key ≠ [] → result !! key = Some v →
  (foldl parse_line (current_section, result) lines).2 !! key
  = Some (v ++ body_of key current_section lines).
Proof.
  induction lines as [|line lines IH]; intros cur result key v Hk Hv;
    cbn [foldl body_of].
  - by rewrite app_nil_r.
  - unfold parse_line at 2. cbn [fst snd].
    destruct (match_header sections line cur) as [key'|] eqn:Hm.
    + destruct (decide (key' = key)) as [->|Hne].
      * rewrite bool_decide_eq_true_2 by done.
        assert (truthy key = true) as -> by by destruct key.
        rewrite app_assoc. apply IH; [done|].
        by rewrite lookup_alter_eq, Hv.
      * rewrite bool_decide_eq_false_2 by congruence.
        rewrite app_nil_l. apply IH; [done|].
        destruct (truthy key'); [|done].
        by rewrite lookup_alter_ne.
    + rewrite bool_decide_eq_false_2 by done. rewrite app_nil_l. by apply IH.
Qed.

(** A key that is no section key is left as it was. *)
Lemma foldl_parse_line_other lines :
  ∀ current_section (result : gmap str str) (key : str),
  key ∉ section_keys → current_section ≠ Some key →
  (foldl parse_line (current_section, result) lines).2 !! key
  = result !! key.
Proof.
  induction lines as [|line lines IH]; intros cur result key Hk Hcur;
    cbn [foldl]; [done|].
  unfold parse_line at 2. cbn [fst snd].
  assert (match_header sections line cur ≠ Some key) as Hne.
  { rewrite match_header_None.
    destruct (match_header sections line None) as [k|] eqn:Hm; [|done].
    intros [= ->]. by apply header_of_inv in Hm as [? _]. }
  rewrite IH by done.
  destruct (match_header sections line cur) as [key'|]; [|done].
  destruct (truthy key'); [|done].
  apply lookup_alter_ne. congruence.
Qed.

Lemma body_of_first_header (key : str) lines : ∀ current_section,
  current_section ≠ Some key →
  (Forall (λ l, header_of l ≠ Some key) lines
   ∧ body_of key current_section lines = [])
  ∨ ∃ pre hl post,
      lines = pre ++ hl :: post
      ∧ Forall (λ l, header_of l ≠ Some key) pre
      ∧ header_of hl = Some key
      ∧ body_of key current_section lines
        = (hl ++ [nl]) ++ body_of key (Some key) post.
Proof.
  induction lines as [|line lines IH]; intros cur Hcur; cbn [body_of].
  - by left.
  - rewrite match_header_None. fold (header_of line).
    destruct (decide (header_of line = Some key)) as [Hh|Hh].
    + right. exists [], line, lines. rewrite Hh.
      by rewrite bool_decide_eq_true_2.
    + set (cur' := match header_of line with
                   | Some k => Some k | None => cur end).
      assert (cur' ≠ Some key) as Hcur'.
      { unfold cur'. by destruct (header_of line). }
      rewrite bool_decide_eq_false_2 by done. rewrite app_nil_l.
      destruct (IH cur' Hcur') as [[Hall Hb]|(pre & hl & post & -> & Hall & Hhl & Hb)].
      * left. by split; [constructor|].
      * right. exists (line :: pre), hl, post. by split_and!; [|constructor| |].
Qed.

Lemma foldl_alter_lookup {A} (f : A → A) (keys : list str) :
  ∀ (m : gmap str A) (key : str),
    NoDup keys →
    foldl (λ r k, alter f k r) m keys !! key
    = if bool_decide (key ∈ keys) then f <$> m !! key else m !! key.
Proof.
  induction keys as [|k keys IH]; intros m key Hnd; cbn [foldl]; [done|].
  apply NoDup_cons in Hnd as [Hk Hnd]. rewrite IH by done.
  destruct (decide (k = key)) as [->|Hne].
  - rewrite (bool_decide_eq_true_2 (key ∈ key :: keys)) by apply list_elem_of_here.
    rewrite bool_decide_eq_false_2 by done. apply lookup_alter_eq.
  - rewrite lookup_alter_ne by done.
    destruct (decide (key ∈ keys)) as [Hin|Hin].
    + rewrite !bool_decide_eq_true_2; [done|by apply list_elem_of_further|done].
    + rewrite !bool_decide_eq_false_2; [done| |done].
      intros [->|?]%elem_of_cons; done.
Qed.

Lemma section_keys_NoDup : NoDup section_keys.
Proof. apply (bool_decide_unpack _). by vm_compute. Qed.

Lemma raw_analysis_no_section : lit "raw_analysis" ∉ section_keys.
Proof. apply (bool_decide_unpack _). by vm_compute. Qed.

Lemma accumulate_lookup_section text (key : str) :
  key ∈ section_keys →
  accumulate_sections text !! key
  = Some (body_of key None (split nl text)).
Proof.
  intros Hk. unfold accumulate_sections. cbv zeta.
  rewrite (foldl_parse_line_lookup _ _ _ key []);
    [done|by apply section_keys_not_nil|].
  unfold section_keys in Hk.
  repeat (apply elem_of_cons in Hk as [->|Hk]; [reflexivity|]).
  by apply elem_of_nil in Hk.
Qed.

Lemma accumulate_lookup_raw text :
  accumulate_sections text !! lit "raw_analysis" = Some text.
Proof.
  unfold accumulate_sections. cbv zeta.
  rewrite foldl_parse_line_other; [|apply raw_analysis_no_section|done].
  reflexivity.
Qed.

Lemma parse_lookup_section text (key : str) :
  key ∈ section_keys →
  parse_structured_response text !! key
  = Some (strip (body_of key None (split nl text))).
Proof.
  intros Hk. unfold parse_structured_response.
  rewrite foldl_alter_lookup by apply section_keys_NoDup.
  rewrite bool_decide_eq_true_2 by done.
  by rewrite accumulate_lookup_section.
Qed.

Lemma parse_lookup_raw text :
  parse_structured_response text !! lit "raw_analysis" = Some text.
Proof.
  unfold parse_structured_response.
  rewrite foldl_alter_lookup by apply section_keys_NoDup.
  rewrite bool_decide_eq_false_2 by apply raw_analysis_no_section.
  apply accumulate_lookup_raw.
Qed.

Lemma foldl_parse_line_no_header (lines : list str) (result : gmap str str) :
  Forall (λ l, header_of l = None) lines →
  foldl parse_line (None, result) lines = (None, result).
Proof.
  induction 1 as [|line lines Hl _ IH]; cbn [foldl]; [done|].
  unfold parse_line at 2. cbn [fst snd].
  unfold header_of in Hl. by rewrite Hl.
Qed.


(** C7: when no line of the reply holds one of the four headers, the
    result is the dict of line 175 itself: the four sections are empty
    strings and [raw_analysis] is the reply. *)
Theorem extractor_no_headers text :
  (∀ line header key,
     line ∈ split nl text → (header, key) ∈ sections →
     contains header line = false) →
  parse_structured_response text
  = <[lit "code_review" := []]>
    (<[lit "optimization" := []]>
    (<[lit "security" := []]>
    (<[lit "refactored_code" := []]>
    (<[lit "raw_analysis" := text]> ∅)))).
Proof.
  intros Hno.
  assert (Forall (λ l, header_of l = None) (split nl text)) as Hall.
  { apply Forall_forall. intros line Hin.
    destruct (header_of line) as [k|] eqn:Hh; [|done].
    apply header_of_inv in Hh as (_ & _ & _ & header & Hhk & Hc).
    by rewrite (Hno line header k) in Hc. }
  unfold parse_structured_response, accumulate_sections. cbv zeta.
  rewrite foldl_parse_line_no_header by done. cbn [snd].
  apply map_eq. intros k.
  rewrite foldl_alter_lookup by apply section_keys_NoDup.
  case_bool_decide as Hk; [|done].
  unfold section_keys in Hk.
  repeat (apply elem_of_cons in Hk as [->|Hk]; [reflexivity|]).
  by apply elem_of_nil in Hk.
Qed.

(** ** The stores *)

Lemma load_json_file_spec {A} `{Empty A} (fn : filename A) w :
  load_json_file fn w = (Returned (stored (file_get fn w)), w).
Proof.
  unfold load_json_file, bind, path_exists, try_catch, open_json_load, ret.
  destruct (file_get fn w) eqn:Hf; cbv beta iota; by rewrite ?Hf.
Qed.

Lemma stored_unusable {A} `{Empty A} (f : file A) :
  unusable f = true → stored f = ∅.
Proof. by destruct f. Qed.

Lemma register_user_spec username password now w :
  register_user username password now w
  = match users_of w !! username with
    | Some _ => (Returned (false, lit "Username already exists"), w)
    | None =>
        (Returned (true, lit "Registration successful"),
         file_set USERS_FILE
           (Stored (<[username :=
                        {| stored_password := hash_password password;
                           created_at := now |}]> (users_of w))) w)
    end.
Proof.
  unfold register_user, bind. rewrite load_json_file_spec.
  change (stored (file_get USERS_FILE w)) with (users_of w).
  by destruct (users_of w !! username).
Qed.

Lemma authenticate_user_spec username password w :
  authenticate_user username password w
  = (Returned
       match users_of w !! username with
       | None => (false, lit "Username not found")
       | Some record =>
           if bool_decide (stored_password record = hash_password password)
           then (true, lit "Login successful")
           else (false, lit "Incorrect password")
       end, w).
Proof.
  unfold authenticate_user, bind. rewrite load_json_file_spec.
  change (stored (file_get USERS_FILE w)) with (users_of w).
  destruct (users_of w !! username) as [record|]; [|done].
  unfold eqb. by case_bool_decide.
Qed.

Lemma alter_lookup_insert {A} (f : A → A) (m : gmap str A) (k : str) x :
  m !! k = Some x → alter f k m = <[k := f x]> m.
Proof.
  intros Hx. apply map_eq. intros j.
  destruct (decide (k = j)) as [->|Hne].
  - by rewrite lookup_alter_eq, lookup_insert_eq, Hx.
  - by rewrite lookup_alter_ne, lookup_insert_ne.
Qed.

Lemma save_analysis_to_history_spec username code language result now w :
  save_analysis_to_history username code language result now w
  = (Returned tt,
     file_set HISTORY_FILE
       (Stored (<[username :=
                    last_n 50 (history_of w username
                               ++ [history_entry_of code language result now])]>
                  (stored (history_json w)))) w).
Proof.
  unfold save_analysis_to_history, bind. rewrite load_json_file_spec.
  unfold save_json_file, history_of. cbn [file_get HISTORY_FILE].
  do 2 f_equal. f_equal.
  destruct (stored (history_json w) !! username) as [l|] eqn:Hl; cbn [default].
  - rewrite (alter_lookup_insert _ _ _ _ Hl).
    by rewrite alter_insert_eq.
  - by rewrite !alter_insert_eq.
Qed.

Lemma last_n_app_last_n {A} n (l m : list A) :
  last_n n (last_n n l ++ m) = last_n n (l ++ m).
Proof.
  unfold last_n. rewrite !length_app, length_drop.
  set (a := (length l - n)%nat).
  replace (length l + length m - n)%nat
    with (a + (length l - a + length m - n))%nat by lia.
  rewrite <- drop_drop. f_equal. rewrite drop_app_le by lia. done.
Qed.

Lemma last_n_length {A} n (l : list A) : (length (last_n n l) ≤ n)%nat.
Proof. unfold last_n. rewrite length_drop. lia. Qed.

Lemma last_n_short {A} n (l : list A) : (length l ≤ n)%nat → last_n n l = l.
Proof. unfold last_n. intros Hl. by replace (length l - n)%nat with O by lia. Qed.

Lemma users_of_file_set users w :
  users_of (file_set USERS_FILE (Stored users) w) = users.
Proof. done. Qed.

Lemma history_of_file_set history w username :
  history_of (file_set HISTORY_FILE (Stored history) w) username
  = default [] (history !! username).
Proof. done. Qed.


(** C3: [authenticate_user] reads and does not write. It succeeds
    exactly when the username is in the store and the hash of the
    password equals the stored one; it answers "Username not found" for
    an absent username and "Incorrect password" for another hash; and a
    second call with the same arguments gives what the first gave. *)
Theorem authenticate_user_outcome username password w :
  (authenticate_user username password w).2 = w
  ∧ ((∃ message, (authenticate_user username password w).1
                 = Returned (true, message))
     ↔ ∃ record, users_of w !! username = Some record
                 ∧ stored_password record = hash_password password)
  ∧ (users_of w !! username = None →
     (authenticate_user username password w).1
     = Returned (false, lit "Username not found"))
  ∧ (∀ record, users_of w !! username = Some record →
               stored_password record ≠ hash_password password →
     (authenticate_user username password w).1
     = Returned (false, lit "Incorrect password"))
  ∧ authenticate_user username password
      (authenticate_user username password w).2
    = authenticate_user username password w.
Proof.
  rewrite authenticate_user_spec. cbn [fst snd]. split_and!.
  - done.
  - split.
    + intros [message Hm].
      destruct (users_of w !! username) as [record|]; [|by inversion Hm].
      exists record. split; [done|]. by case_bool_decide; [|inversion Hm].
    + intros (record & -> & Hp). rewrite bool_decide_eq_true_2 by done. eauto.
  - by intros ->.
  - intros record -> Hp. by rewrite bool_decide_eq_false_2.
  - by rewrite authenticate_user_spec.
Qed.

(** C4: [register_user] with a username that is in the store answers
    "Username already exists" and leaves the world, the store with it,
    as it was. So a second registration of a username fails whatever
    the first one did, and the user's record is the same before and
    after it. *)
Theorem register_user_existing username password now w :
  (∀ record, users_of w !! username = Some record →
     register_user username password now w
     = (Returned (false, lit "Username already exists"), w))
  ∧ (∀ password' now',
       let w1 := (register_user username password now w).2 in
       ∃ record,
         users_of w1 !! username = Some record
         ∧ (users_of w !! username = None →
            record = {| stored_password := hash_password password;
                        created_at := now |})
         ∧ register_user username password' now' w1
           = (Returned (false, lit "Username already exists"), w1)
         ∧ users_of (register_user username password' now' w1).2 !! username
           = Some record).
Proof.
  split.
  - intros record Hr. by rewrite register_user_spec, Hr.
  - intros password' now'. cbv zeta.
    rewrite (register_user_spec username password now w).
    destruct (users_of w !! username) as [record|] eqn:Hu; cbn [snd].
    + exists record. rewrite register_user_spec, Hu. done.
    + set (r := {| stored_password := hash_password password;
                   created_at := now |}).
      set (w1 := file_set USERS_FILE (Stored (<[username := r]> (users_of w))) w).
      assert (users_of w1 !! username = Some r) as Hw1.
      { unfold w1. rewrite users_of_file_set. apply lookup_insert_eq. }
      exists r. by rewrite register_user_spec, Hw1.
Qed.

(** C10: an append for one user leaves every other user's list in the
    history file, and the users file, as they were; a registration
    leaves every record that was in the users file, and the history
    file, as they were. *)
Theorem stores_frame username w :
  (∀ code language result now,
     let w' := (save_analysis_to_history username code language result now w).2 in
     (∀ other, other ≠ username →
        stored (history_json w') !! other = stored (history_json w) !! other)
     ∧ users_json w' = users_json w)
  ∧ (∀ password now,
       let w' := (register_user username password now w).2 in
       (∀ other record, users_of w !! other = Some record →
          users_of w' !! other = Some record)
       ∧ history_json w' = history_json w).
Proof.
  split.
  - intros code language result now. cbv zeta.
    rewrite save_analysis_to_history_spec. cbn [snd]. split; [|done].
    intros other Hne. cbn [HISTORY_FILE file_set history_json stored].
    by rewrite lookup_insert_ne.
  - intros password now. cbv zeta. rewrite register_user_spec.
    destruct (users_of w !! username) as [r|] eqn:Hu; cbn [snd]; [done|].
    split; [|done]. intros other record Ho.
    rewrite users_of_file_set.
    rewrite lookup_insert_ne; [done|]. intros ->. congruence.
Qed.

Lemma history_of_save username code language result now w (u : str) :
  history_of (save_analysis_to_history username code language result now w).2 u
  = if bool_decide (username = u)
    then last_n 50 (history_of w u
                    ++ [history_entry_of code language result now])
    else history_of w u.
Proof.
  rewrite save_analysis_to_history_spec. cbn [snd].
  rewrite history_of_file_set. case_bool_decide as Hu.
  - subst u. by rewrite lookup_insert_eq.
  - by rewrite lookup_insert_ne.
Qed.

Lemma save_all_cons a calls w :
  save_all (a :: calls) w
  = save_all calls
      (save_analysis_to_history (a_username a) (a_code a) (a_language a)
                                (a_result a) (a_now a) w).2.
Proof.
  cbn [save_all]. unfold bind.
  by rewrite save_analysis_to_history_spec.
Qed.

Lemma save_all_history calls : ∀ w (u : str),
  (save_all calls w).1 = Returned tt
  ∧ history_of (save_all calls w).2 u
    = match entries_for u calls with
      | [] => history_of w u
      | es => last_n 50 (history_of w u ++ es)
      end.
Proof.
  induction calls as [|a calls IH]; intros w u; [done|].
  rewrite save_all_cons.
  destruct (IH (save_analysis_to_history (a_username a) (a_code a)
                  (a_language a) (a_result a) (a_now a) w).2 u) as [-> ->].
  split; [done|]. rewrite history_of_save.
  unfold entries_for. rewrite filter_cons.
  fold (entry_of a). case_bool_decide as Hu.
  - rewrite decide_True by done. rewrite fmap_cons.
    destruct (entry_of <$> filter (λ a0, a_username a0 = u) calls)
      as [|e es]; [done|].
    by rewrite last_n_app_last_n, <- app_assoc.
  - by rewrite decide_False by done.
Qed.

(** C2: the calls all return; for a user with at least one append among
    them, or whose list had at most 50 entries before, the list is then
    the last 50 entries (all of them when there are fewer) of the former
    list followed by the appended entries in the order of the calls, and
    it has at most 50 entries; 55 appends to an empty history leave the
    last 50 of the 55, in order. *)
Theorem history_keeps_last_50 calls w (username : str) :
  let w' := (save_all calls w).2 in
  (save_all calls w).1 = Returned tt
  ∧ (entries_for username calls ≠ [] ∨ (length (history_of w username) ≤ 50)%nat →
     history_of w' username
     = last_n 50 (history_of w username ++ entries_for username calls)
     ∧ (length (history_of w' username) ≤ 50)%nat)
  ∧ (history_of w username = [] →
     length (entries_for username calls) = 55%nat →
     history_of w' username = drop 5 (entries_for username calls)
     ∧ length (history_of w' username) = 50%nat).
Proof.
  cbv zeta. destruct (save_all_history calls w username) as [Hr Hh].
  split; [done|]. split.
  - intros Hor. rewrite Hh.
    destruct (entries_for username calls) as [|e es] eqn:He.
    + destruct Hor as [?|Hlen]; [done|]. rewrite app_nil_r.
      by rewrite last_n_short.
    + split; [done|apply last_n_length].
  - intros Hnil Hlen. rewrite Hh, Hnil.
    destruct (entries_for username calls) as [|e es] eqn:He; [done|].
    rewrite app_nil_l. unfold last_n. rewrite Hlen.
    split; [done|]. rewrite length_drop, Hlen. done.
Qed.

Lemma last_last_n_snoc {A} (n : nat) (l : list A) x :
  last (last_n (S n) (l ++ [x])) = Some x.
Proof.
  unfold last_n. rewrite length_app. cbn [length].
  rewrite drop_app_le by lia. apply last_snoc.
Qed.

(** C8: the entry an append puts at the end of the user's list has the
    code itself as its snippet when the code has at most 200
    characters, and its first 200 characters followed by "..." when it
    has more; [has_errors] says whether the result has no "error" key;
    the summary is the first 150 characters of the result's
    "code_review" (of the empty string when there is none). *)
Theorem history_entry_fields username code language result now w :
  let w' := (save_analysis_to_history username code language result now w).2 in
  ∃ e, last (history_of w' username) = Some e
       ∧ timestamp e = now
       ∧ entry_language e = language
       ∧ ((length code ≤ 200)%nat → code_snippet e = code)
       ∧ ((200 < length code)%nat →
          code_snippet e = take 200 code ++ lit "...")
       ∧ has_errors e = bool_decide (result !! lit "error" = None)
       ∧ analysis_summary e
         = take 150 (default [] (result !! lit "code_review")).
Proof.
  cbv zeta. exists (history_entry_of code language result now).
  rewrite history_of_save, bool_decide_eq_true_2 by done.
  split; [apply last_last_n_snoc|].
  unfold history_entry_of. cbn [timestamp entry_language code_snippet
                                has_errors analysis_summary].
  split_and!; try done.
  - intros Hl. by rewrite (proj2 (Nat.ltb_ge _ _)).
  - intros Hl. by rewrite (proj2 (Nat.ltb_lt _ _)).
  - by destruct (result !! lit "error").
Qed.

(** ** The analysis and its caller *)

Lemma analyze_code_with_ai_spec code language w :
  analyze_code_with_ai code language w
  = if api_key_missing then
      (Returned {[ lit "error" :=
                     lit "Groq API key not configured. Please set GROQ_API_KEY in .env file" ]},
       w)
    else
      (Returned
         match groq (chat_request code language) with
         | Raised e => {[ lit "error" := lit "AI Analysis Error: " ++ e ]}
         | Returned analysis_text => parse_structured_response analysis_text
         end,
       (chat_completion (chat_request code language) w).2).
Proof.
  unfold analyze_code_with_ai. destruct api_key_missing; [done|].
  unfold try_catch, bind, chat_completion, ret.
  by destruct (groq (chat_request code language)).
Qed.

Lemma error_no_section : lit "error" ∉ section_keys.
Proof. apply (bool_decide_unpack _). by vm_compute. Qed.

Lemma parse_lookup_error text :
  parse_structured_response text !! lit "error" = None.
Proof.
  unfold parse_structured_response.
  rewrite foldl_alter_lookup by apply section_keys_NoDup.
  rewrite bool_decide_eq_false_2 by apply error_no_section.
  unfold accumulate_sections. cbv zeta.
  rewrite foldl_parse_line_other; [|apply error_no_section|done].
  reflexivity.
Qed.

Lemma analysis_execution_spec code_input selected_language now w :
  analysis_execution code_input selected_language now w
  = if blank code_input then
      st_error (lit "Please enter or upload code to analyze") w
    else if api_key_missing then
      st_error (lit "Groq API key not configured. Please set GROQ_API_KEY in .env file") w
    else
      let w1 := (chat_completion (chat_request code_input selected_language) w).2 in
      match groq (chat_request code_input selected_language) with
      | Raised e => st_error (lit "AI Analysis Error: " ++ e) w1
      | Returned analysis_text =>
          let result := parse_structured_response analysis_text in
          (set_analysis_result result ;;;
           let* username := get_username in
           save_analysis_to_history username code_input selected_language
                                    result now ;;;
           set_page (lit "results")) w1
      end.
Proof.
  unfold analysis_execution. rewrite blank_test.
  destruct (blank code_input); [done|].
  unfold bind at 1. rewrite analyze_code_with_ai_spec.
  destruct api_key_missing; [by rewrite lookup_singleton_eq|].
  destruct (groq (chat_request code_input selected_language)) as [e|text].
  - by rewrite lookup_singleton_eq.
  - by rewrite parse_lookup_error.
Qed.

(** What the branch taken after a reply does to the world. *)
Lemma analysis_execution_reply code_input selected_language now w text :
  blank code_input = false → api_key_missing = false →
  groq (chat_request code_input selected_language) = Returned text →
  let w' := (analysis_execution code_input selected_language now w).2 in
  let result := parse_structured_response text in
  session_analysis_result w' = Some result
  ∧ session_page w' = lit "results"
  ∧ errors_shown w' = errors_shown w
  ∧ llm_calls w' = llm_calls w ++ [chat_request code_input selected_language]
  ∧ users_json w' = users_json w
  ∧ history_json w'
    = Stored (<[session_username w :=
                  last_n 50 (history_of w (session_username w)
                             ++ [history_entry_of code_input selected_language
                                                  result now])]>
                (stored (history_json w))).
Proof.
  intros Hb Hk Hg. cbv zeta.
  rewrite analysis_execution_spec, Hb, Hk, Hg. cbv zeta.
  unfold bind, set_analysis_result, get_username, set_page, chat_completion.
  cbn [snd session_username]. rewrite save_analysis_to_history_spec.
  done.
Qed.

(** C5, as amended: when the provider raises, [analyze_code_with_ai]
    returns the dict whose only key is "error", with "AI Analysis
    Error: " followed by the exception's message; when the API key is
    not configured it returns the dict whose only key is "error" with
    the message "Groq API key not configured. Please set GROQ_API_KEY in
    .env file", and sends nothing. In both cases the caller leaves the
    history file, the stored result and the page as they were, and the
    history file changes only when the provider replied. *)
Theorem provider_fault_gives_error_only code language now w :
  (api_key_missing = true →
   analyze_code_with_ai code language w
   = (Returned {[ lit "error" :=
                    lit "Groq API key not configured. Please set GROQ_API_KEY in .env file" ]},
      w))
  ∧ (∀ e, api_key_missing = false →
          groq (chat_request code language) = Raised e →
     (analyze_code_with_ai code language w).1
     = Returned {[ lit "error" := lit "AI Analysis Error: " ++ e ]}
     ∧ llm_calls (analyze_code_with_ai code language w).2
       = llm_calls w ++ [chat_request code language])
  ∧ (api_key_missing = true
     ∨ (∃ e, groq (chat_request code language) = Raised e) →
     let w' := (analysis_execution code language now w).2 in
     history_json w' = history_json w
     ∧ session_analysis_result w' = session_analysis_result w
     ∧ session_page w' = session_page w)
  ∧ (history_json (analysis_execution code language now w).2 ≠ history_json w →
     ∃ text,
       blank code = false ∧ api_key_missing = false
       ∧ groq (chat_request code language) = Returned text
       ∧ (analyze_code_with_ai code language w).1
         = Returned (parse_structured_response text)
       ∧ parse_structured_response text !! lit "error" = None).
Proof.
  rewrite analyze_code_with_ai_spec, analysis_execution_spec. split_and!.
  - by intros ->.
  - intros e -> ->. done.
  - intros Hor. cbv zeta. destruct (blank code); [done|].
    destruct api_key_missing; [done|].
    destruct Hor as [?|[e ->]]; done.
  - destruct (blank code); [done|].
    destruct api_key_missing; [done|]. cbv zeta.
    destruct (groq (chat_request code language)) as [e|text]; [done|].
    intros _. exists text. split_and!; try done. apply parse_lookup_error.
Qed.

(** C6, as amended: blank code is turned away by the caller alone. The
    analysis block of the dashboard, given code that is empty or all
    whitespace, shows "Please enter or upload code to analyze" and does
    nothing else: no request is sent and the history file is not
    written. [analyze_code_with_ai] has no such test: with the API key
    configured it sends the request whose prompt holds the code, blank
    or not, and parses whatever reply comes back. *)
Theorem blank_code_rejected_by_caller_only code language now w :
  blank code = true →
  (analysis_execution code language now w
   = st_error (lit "Please enter or upload code to analyze") w
   ∧ llm_calls (analysis_execution code language now w).2 = llm_calls w
   ∧ history_json (analysis_execution code language now w).2 = history_json w
   ∧ errors_shown (analysis_execution code language now w).2
     = errors_shown w ++ [lit "Please enter or upload code to analyze"])
  ∧ (api_key_missing = false →
     llm_calls (analyze_code_with_ai code language w).2
     = llm_calls w ++ [chat_request code language]
     ∧ user_content (chat_request code language)
       = prompt_before language ++ code ++ prompt_after
     ∧ ∀ text, groq (chat_request code language) = Returned text →
         (analyze_code_with_ai code language w).1
         = Returned (parse_structured_response text)).
Proof.
  intros Hb. rewrite analysis_execution_spec, Hb.
  split; [done|]. intros Hk.
  rewrite analyze_code_with_ai_spec, Hk. split_and!; try done.
  by intros text ->.
Qed.

(** ** More on the string operations *)

Lemma starts_with_intro p t : starts_with p (p ++ t) = true.
Proof.
  induction p as [|a p IH]; [done|]. simpl.
  by rewrite N.eqb_refl, IH.
Qed.

Lemma contains_starts_with p s : starts_with p s = true → contains p s = true.
Proof. destruct s; cbn [contains]; by intros ->. Qed.

Lemma contains_intro p a b : contains p (a ++ p ++ b) = true.
Proof.
  induction a as [|c a IH]; cbn [app contains].
  - apply contains_starts_with, starts_with_intro.
  - rewrite IH. apply orb_true_r.
Qed.

(** [p in s] holds exactly when [p] is a substring of [s]. *)
Lemma contains_iff p s : contains p s = true ↔ ∃ a b, s = a ++ p ++ b.
Proof.
  split; [apply contains_app|].
  intros (a & b & ->). apply contains_intro.
Qed.

Lemma lstrip_suffix s : lstrip s `suffix_of` s.
Proof.
  induction s as [|c s IH]; simpl; [done|].
  destruct (is_space c); [by apply suffix_cons_r|done].
Qed.

Lemma rstrip_prefix s : rstrip s `prefix_of` s.
Proof.
  rewrite <- (app_nil_r s) at 2.
  replace (rstrip s) with (rstrip (s ++ [])) at 1 by by rewrite app_nil_r.
  induction s as [|c s IH]; simpl; [done|].
  rewrite app_nil_r in *.
  destruct (rstrip s) as [|d r]; [|by apply prefix_cons].
  destruct (is_space c); [apply prefix_nil|apply prefix_cons, prefix_nil].
Qed.

Lemma lstrip_head s c : head (lstrip s) = Some c → is_space c = false.
Proof.
  induction s as [|d s IH]; simpl; [done|].
  destruct (is_space d) eqn:Hd; [done|]. by intros [= <-].
Qed.

Lemma rstrip_last s c : last (rstrip s) = Some c → is_space c = false.
Proof.
  induction s as [|d s IH]; simpl; [done|].
  destruct (rstrip s) as [|e r] eqn:Hr.
  - destruct (is_space d) eqn:Hd; [done|]. by intros [= <-].
  - rewrite last_cons_cons. apply IH.
Qed.

(** A stripped string has no whitespace at either end. *)
Lemma strip_ends s :
  (∀ c, head (strip s) = Some c → is_space c = false)
  ∧ (∀ c, last (strip s) = Some c → is_space c = false).
Proof.
  unfold strip. split; intros c Hc; [|by eapply rstrip_last].
  apply (lstrip_head s).
  destruct (rstrip_prefix (lstrip s)) as [k Hk].
  rewrite Hk. by destruct (rstrip (lstrip s)).
Qed.

Lemma split_app_nl a b : split nl (a ++ nl :: b) = split nl a ++ split nl b.
Proof.
  induction a as [|c a IH]; cbn [split app].
  - rewrite N.eqb_refl. by destruct b.
  - rewrite IH. destruct (c =? nl); [done|].
    pose proof (split_not_nil nl a) as Hne.
    by destruct (split nl a).
Qed.

(** ** More on the extractor *)

Lemma foldl_parse_line_dom lines : ∀ current_section (result : gmap str str),
  dom (foldl parse_line (current_section, result) lines).2 = dom result.
Proof.
  induction lines as [|line lines IH]; intros cur result; cbn [foldl]; [done|].
  unfold parse_line at 2. cbn [fst snd]. rewrite IH.
  destruct (match_header sections line cur) as [key|]; [|done].
  destruct (truthy key); [|done]. apply dom_alter_L.
Qed.

Lemma foldl_alter_dom {A} (f : A → A) (keys : list str) : ∀ m : gmap str A,
  dom (foldl (λ r k, alter f k r) m keys) = dom m.
Proof.
  induction keys as [|k keys IH]; intros m; cbn [foldl]; [done|].
  rewrite IH. apply dom_alter_L.
Qed.

(** X1: a parsed reply has the five keys of line 175 and no other,
    whatever the reply. *)
Theorem parsed_reply_keys text :
  dom (parse_structured_response text)
  = {[ lit "code_review"; lit "optimization"; lit "security";
       lit "refactored_code"; lit "raw_analysis" ]}.
Proof.
  unfold parse_structured_response, accumulate_sections. cbv zeta.
  rewrite foldl_alter_dom, foldl_parse_line_dom.
  rewrite !dom_insert_L, dom_empty_L. set_solver.
Qed.

(** X2: a section of the result neither begins nor ends with a
    whitespace character. *)
Theorem parsed_sections_stripped text (key body : str) :
  key ∈ section_keys →
  parse_structured_response text !! key = Some body →
  (∀ c, head body = Some c → is_space c = false)
  ∧ (∀ c, last body = Some c → is_space c = false).
Proof.
  intros Hk. rewrite parse_lookup_section by done.
  intros [= <-]. apply strip_ends.
Qed.

Lemma match_header_first items line (key : str) :
  match_header items line None = Some key
  ↔ ∃ i header,
      items !! i = Some (header, key)
      ∧ contains header line = true
      ∧ ∀ j hk, (j < i)%nat → items !! j = Some hk →
                contains hk.1 line = false.
Proof.
  induction items as [|[h k] items IH]; cbn [match_header].
  - split; [done|]. by intros (i & header & Hi & _).
  - destruct (contains h line) eqn:Hc.
    + split.
      * intros [= ->]. exists O, h. split_and!; [done|done|]. lia.
      * intros (i & header & Hi & Hh & Hlt).
        destruct i as [|i]; [by injection Hi as _ ->|].
        specialize (Hlt O (h, k) ltac:(lia) eq_refl). cbn in Hlt. congruence.
    + rewrite IH. split.
      * intros (i & header & Hi & Hh & Hlt). exists (S i), header.
        split_and!; [done|done|].
        intros [|j] hk Hj Hjk; [by injection Hjk as <-|].
        apply (Hlt j); [lia|done].
      * intros (i & header & Hi & Hh & Hlt).
        destruct i as [|i]; [injection Hi as -> ->; congruence|].
        exists i, header. split_and!; [done|done|].
        intros j hk Hj Hjk. apply (Hlt (S j)); [lia|done].
Qed.

Lemma match_header_none items line :
  match_header items line None = None
  ↔ ∀ hk : str * str, hk ∈ items → contains hk.1 line = false.
Proof.
  induction items as [|[h k] items IH]; cbn [match_header].
  - split; [|done]. intros _ hk Hin. by apply elem_of_nil in Hin.
  - destruct (contains h line) eqn:Hc.
    + split; [done|]. intros Hall.
      specialize (Hall (h, k) (list_elem_of_here _ _)). cbn in Hall. congruence.
    + rewrite IH. split.
      * intros Hall hk [->|Hin]%elem_of_cons; [done|by apply Hall].
      * intros Hall hk Hin. by apply Hall, list_elem_of_further.
Qed.

Lemma not_contains_iff p s :
  contains p s = false ↔ ¬ ∃ a b, s = a ++ p ++ b.
Proof.
  rewrite <- contains_iff. by destruct (contains p s).
Qed.

(** X3: a line opens the section of the first header of the table that
    occurs in it as a substring, and opens none when none occurs. *)
Theorem header_of_first_substring line :
  (∀ key : str,
     header_of line = Some key
     ↔ ∃ i header,
         sections !! i = Some (header, key)
         ∧ (∃ a b, line = a ++ header ++ b)
         ∧ ∀ j hk, (j < i)%nat → sections !! j = Some hk →
                   ¬ ∃ a b, line = a ++ hk.1 ++ b)
  ∧ (header_of line = None
     ↔ ∀ hk, hk ∈ sections → ¬ ∃ a b, line = a ++ hk.1 ++ b).
Proof.
  split.
  - intros key. unfold header_of. rewrite match_header_first.
    split; intros (i & header & Hi & Hh & Hlt); exists i, header;
      (split_and!; [done|by apply contains_iff|]); intros j hk Hj Hjk;
      apply not_contains_iff; by apply (Hlt j).
  - unfold header_of. rewrite match_header_none.
    split; intros Hall hk Hin; apply not_contains_iff; by apply Hall.
Qed.

Lemma unlines_cons line lines :
  unlines (line :: lines) = (line ++ [nl]) ++ unlines lines.
Proof. done. Qed.

(** Lines without a header go where the loop already is. *)
Lemma body_of_no_header_app (key : str) lines rest : ∀ current_section,
  Forall (λ l, header_of l = None) lines →
  body_of key current_section (lines ++ rest)
  = (if bool_decide (current_section = Some key) then unlines lines else [])
      ++ body_of key current_section rest.
Proof.
  induction lines as [|line lines IH]; intros cur Hall; cbn [app body_of].
  - by case_bool_decide.
  - apply Forall_cons in Hall as [Hl Hall].
    rewrite match_header_None. fold (header_of line). rewrite Hl.
    rewrite IH by done. rewrite unlines_cons.
    case_bool_decide; [by rewrite <- !app_assoc|done].
Qed.

Lemma body_of_blocks (key : str) blocks : ∀ current_section,
  Forall is_block blocks →
  body_of key current_section (concat (block_lines <$> blocks))
  = blocks_text key blocks.
Proof.
  induction blocks as [|b blocks IH]; intros cur Hall; [done|].
  apply Forall_cons in Hall as [[Hh Hb] Hall].
  rewrite fmap_cons. cbn [concat]. unfold block_lines at 1.
  cbn [app body_of]. rewrite match_header_None. fold (header_of (block_header b)).
  rewrite Hh. rewrite body_of_no_header_app by done. rewrite IH by done.
  unfold blocks_text. rewrite filter_cons.
  destruct (decide (block_key b = key)) as [Hk|Hk].
  - rewrite bool_decide_eq_true_2 by congruence.
    rewrite fmap_cons. cbn [concat].
    change (unlines (block_lines b))
      with ((block_header b ++ [nl]) ++ unlines (block_body b)).
    by rewrite <- !app_assoc.
  - rewrite bool_decide_eq_false_2 by congruence. done.
Qed.

Lemma lines_into_blocks lines :
  ∃ pre blocks,
    lines = pre ++ concat (block_lines <$> blocks)
    ∧ Forall (λ l, header_of l = None) pre
    ∧ Forall is_block blocks.
Proof.
  induction lines as [|line lines (pre & blocks & -> & Hpre & Hb)].
  - by exists [], [].
  - destruct (header_of line) as [key|] eqn:Hh.
    + exists [], ({| block_key := key; block_header := line;
                     block_body := pre |} :: blocks).
      split_and!; [done|done|]. by constructor.
    + exists (line :: pre), blocks. split_and!; [done| |done]. by constructor.
Qed.

Lemma loop_after_lookup text lines (key : str) :
  key ∈ section_keys →
  (loop_after text lines).2 !! key = Some (body_of key None lines).
Proof.
  intros Hk. unfold loop_after. cbv zeta.
  rewrite (foldl_parse_line_lookup _ _ _ key []);
    [done|by apply section_keys_not_nil|].
  unfold section_keys in Hk.
  repeat (apply elem_of_cons in Hk as [->|Hk]; [reflexivity|]).
  by apply elem_of_nil in Hk.
Qed.

Lemma loop_after_snoc text lines line :
  loop_after text (lines ++ [line])
  = parse_line (loop_after text lines) line.
Proof. unfold loop_after. cbv zeta. by rewrite foldl_app. Qed.

(** A header line of [key] puts itself under [key], wherever the loop
    was. *)
Lemma body_of_app_header (key : str) pre hl post : ∀ current_section,
  header_of hl = Some key →
  body_of key current_section (pre ++ hl :: post)
  = body_of key current_section pre
      ++ (hl ++ [nl]) ++ body_of key (Some key) post.
Proof.
  induction pre as [|line pre IH]; intros cur Hh; cbn [app body_of].
  - rewrite match_header_None. fold (header_of hl). rewrite Hh.
    by rewrite bool_decide_eq_true_2.
  - rewrite IH by done. by rewrite <- !app_assoc.
Qed.

(** C1, as amended: [raw_analysis] is the reply as it came, and each
    section is what [strip] leaves of the text the loop gathered under
    its key. Every line that holds a header of [key], the first as much
    as one that opens the section again, makes [key] the current section
    and is appended whole, with a newline, to the text gathered under
    [key] so far; what was there then and what comes later stay around
    it. So for every cut of the reply into a preamble without headers
    and blocks, the text gathered under [key] is exactly the blocks
    opened for [key], header lines included. A section that no line
    opens is the empty string; one that is opened is not empty and
    starts with its first header line as [strip] leaves it, so with the
    line itself when it has no surrounding whitespace. *)
Theorem extractor_sections_start_with_header text (key : str) :
  key ∈ section_keys →
  parse_structured_response text !! lit "raw_analysis" = Some text
  ∧ accumulate_sections text = (loop_after text (split nl text)).2
  ∧ parse_structured_response text !! key
    = strip <$> accumulate_sections text !! key
  ∧ (∀ pre hl post,
       split nl text = pre ++ hl :: post →
       header_of hl = Some key →
       ∃ before,
         (loop_after text pre).2 !! key = Some before
         ∧ loop_after text (pre ++ [hl])
           = (Some key,
              alter (λ v, v ++ (hl ++ [nl])) key (loop_after text pre).2)
         ∧ (loop_after text (pre ++ [hl])).2 !! key
           = Some (before ++ (hl ++ [nl]))
         ∧ accumulate_sections text !! key
           = Some (before ++ (hl ++ [nl]) ++ body_of key (Some key) post))
  ∧ (∀ pre blocks,
       split nl text = pre ++ concat (block_lines <$> blocks) →
       Forall (λ l, header_of l = None) pre →
       Forall is_block blocks →
       accumulate_sections text !! key = Some (blocks_text key blocks)
       ∧ parse_structured_response text !! key
         = Some (strip (blocks_text key blocks)))
  ∧ ((Forall (λ l, header_of l ≠ Some key) (split nl text)
      ∧ parse_structured_response text !! key = Some [])
     ∨ ∃ pre hl post body,
         split nl text = pre ++ hl :: post
         ∧ Forall (λ l, header_of l ≠ Some key) pre
         ∧ header_of hl = Some key
         ∧ (∃ header, (header, key) ∈ sections
                      ∧ contains header hl = true)
         ∧ accumulate_sections text !! key
           = Some ((hl ++ [nl]) ++ body_of key (Some key) post)
         ∧ parse_structured_response text !! key = Some body
         ∧ body ≠ []
         ∧ strip hl `prefix_of` body
         ∧ (strip hl = hl → hl `prefix_of` body)).
Proof.
  intros Hk. split_and!.
  - apply parse_lookup_raw.
  - reflexivity.
  - by rewrite parse_lookup_section, accumulate_lookup_section.
  - intros pre hl post Hs Hh. exists (body_of key None pre).
    assert (loop_after text (pre ++ [hl])
            = (Some key, alter (λ v, v ++ (hl ++ [nl])) key
                               (loop_after text pre).2)) as Hstep.
    { rewrite loop_after_snoc. unfold parse_line.
      rewrite match_header_None. fold (header_of hl). rewrite Hh.
      assert (truthy key = true) as ->; [|done].
      apply section_keys_not_nil in Hk. by destruct key. }
    split_and!.
    + by apply loop_after_lookup.
    + exact Hstep.
    + rewrite Hstep. cbn [snd].
      by rewrite lookup_alter_eq, loop_after_lookup.
    + rewrite accumulate_lookup_section, Hs by done.
      by rewrite body_of_app_header.
  - intros pre blocks Hs Hpre Hb.
    rewrite parse_lookup_section, accumulate_lookup_section, Hs by done.
    rewrite body_of_no_header_app by done.
    rewrite bool_decide_eq_false_2 by done.
    by rewrite body_of_blocks.
  - rewrite parse_lookup_section, accumulate_lookup_section by done.
    destruct (body_of_first_header key (split nl text) None)
      as [[Hall ->]|(pre & hl & post & Hs & Hall & Hh & ->)];
      [done|by left|].
    right. destruct (header_of_inv _ _ Hh) as (_ & _ & Hb & Hhdr).
    exists pre, hl, post,
      (strip ((hl ++ [nl]) ++ body_of key (Some key) post)).
    assert (strip hl `prefix_of`
              strip ((hl ++ [nl]) ++ body_of key (Some key) post)) as Hp.
    { rewrite <- app_assoc. by apply strip_prefix_app. }
    split_and!; try done.
    + intros Hnil. rewrite Hnil in Hp. apply prefix_nil_inv in Hp.
      by apply strip_not_nil in Hp.
    + intros Heq. by rewrite Heq in Hp.
Qed.

(** X4: the lines of a reply can always be cut into a preamble without
    headers followed by blocks, each a header line with the header-free
    lines after it; and for every such cut, each section is what
    [strip] leaves of the blocks opened for its key, taken in order,
    every line followed by a newline. So the preamble is dropped, a
    header that comes back adds to its section, and the order of the
    headers in the reply does not matter. *)
Theorem sections_are_their_blocks text :
  (∃ pre blocks,
     split nl text = pre ++ concat (block_lines <$> blocks)
     ∧ Forall (λ l, header_of l = None) pre
     ∧ Forall is_block blocks)
  ∧ ∀ pre blocks (key : str),
      key ∈ section_keys →
      split nl text = pre ++ concat (block_lines <$> blocks) →
      Forall (λ l, header_of l = None) pre →
      Forall is_block blocks →
      parse_structured_response text !! key
      = Some (strip (blocks_text key blocks)).
Proof.
  split; [apply lines_into_blocks|].
  intros pre blocks key Hk Hs Hpre Hb.
  rewrite parse_lookup_section, Hs by done.
  rewrite body_of_no_header_app by done.
  rewrite bool_decide_eq_false_2 by done.
  by rewrite body_of_blocks.
Qed.

(** X5: text put before a reply, on lines of its own that hold no
    header, changes no section. *)
Theorem preamble_changes_no_section preamble text (key : str) :
  key ∈ section_keys →
  Forall (λ l, header_of l = None) (split nl preamble) →
  parse_structured_response (preamble ++ nl :: text) !! key
  = parse_structured_response text !! key.
Proof.
  intros Hk Hpre. rewrite !parse_lookup_section by done.
  rewrite split_app_nl, body_of_no_header_app by done.
  by rewrite bool_decide_eq_false_2.
Qed.

(** ** More on the analysis and its caller *)

(** X6: [analyze_code_with_ai] always returns a dict, whatever the
    provider does; it leaves both files and the session as they were;
    it sends no request when the API key is missing and exactly one
    otherwise, to the model of line 167 with the system message of
    line 160, temperature 0.3 and 4000 tokens at most; for a language
    written in ASCII that request is the one of lines 156-170, its user
    message the prompt of lines 116-153. *)
Theorem analyze_only_sends_the_request code language w :
  let w' := (analyze_code_with_ai code language w).2 in
  (∃ result, (analyze_code_with_ai code language w).1 = Returned result)
  ∧ users_json w' = users_json w
  ∧ history_json w' = history_json w
  ∧ session_username w' = session_username w
  ∧ session_analysis_result w' = session_analysis_result w
  ∧ session_page w' = session_page w
  ∧ errors_shown w' = errors_shown w
  ∧ (api_key_missing = true → llm_calls w' = llm_calls w)
  ∧ (api_key_missing = false →
     ∃ sent,
       llm_calls w' = llm_calls w ++ [sent]
       ∧ system_content sent
         = lit "You are an expert " ++ language ++
           lit " developer and security analyst specializing in code review, optimization, and refactoring."
       ∧ model sent = lit "llama-3.3-70b-versatile"
       ∧ temperature sent = lit "0.3"
       ∧ max_tokens sent = 4000
       ∧ (is_ascii language = true →
          user_content sent = prompt code language
          ∧ sent = chat_request code language)).
Proof.
  cbv zeta. rewrite analyze_code_with_ai_spec.
  destruct api_key_missing; split_and!; eauto; try done.
  intros _. exists (chat_request code language). by split_and!.
Qed.

(** X7: the dict returned is of one of two shapes, told apart by the
    key "error": either "error" is its only key, and then the API key
    was missing or the provider raised; or its keys are the five of a
    parsed reply, and then the provider replied and [raw_analysis] is
    the reply. *)
Theorem analysis_result_shape (code language : str) (w : world)
    (result : gmap str str) :
  (analyze_code_with_ai code language w).1 = Returned result →
  (dom result = {[ lit "error" ]}
   ∧ (api_key_missing = true
      ∨ ∃ e, groq (chat_request code language) = Raised e))
  ∨ (dom result
     = {[ lit "code_review"; lit "optimization"; lit "security";
          lit "refactored_code"; lit "raw_analysis" ]}
     ∧ result !! lit "error" = None
     ∧ api_key_missing = false
     ∧ ∃ text, groq (chat_request code language) = Returned text
               ∧ result = parse_structured_response text
               ∧ result !! lit "raw_analysis" = Some text).
Proof.
  rewrite analyze_code_with_ai_spec.
  destruct api_key_missing; cbn [fst].
  - intros [= <-]. left. split; [apply dom_singleton_L|by left].
  - destruct (groq (chat_request code language)) as [e|text]; intros [= <-].
    + left. split; [apply dom_singleton_L|right; by exists e].
    + right. split_and!; [apply parsed_reply_keys|apply parse_lookup_error|done|].
      exists text. split_and!; [done|done|apply parse_lookup_raw].
Qed.

Lemma analysis_cases code_input selected_language :
  (blank code_input = true ∨ api_key_missing = true
   ∨ ∃ e, groq (chat_request code_input selected_language) = Raised e)
  ∨ (blank code_input = false ∧ api_key_missing = false
     ∧ ∃ text, groq (chat_request code_input selected_language)
               = Returned text).
Proof.
  destruct (blank code_input); [by left; left|].
  destruct api_key_missing; [by left; right; left|].
  destruct (groq (chat_request code_input selected_language)) as [e|text];
    [left; right; right|right]; eauto.
Qed.

(** What the branches that show an error do to the world. *)
Lemma analysis_execution_error code_input selected_language now w :
  (blank code_input = true ∨ api_key_missing = true
   ∨ ∃ e, groq (chat_request code_input selected_language) = Raised e) →
  let w' := (analysis_execution code_input selected_language now w).2 in
  (analysis_execution code_input selected_language now w).1 = Returned tt
  ∧ (∃ message, errors_shown w' = errors_shown w ++ [message])
  ∧ users_json w' = users_json w
  ∧ history_json w' = history_json w
  ∧ session_username w' = session_username w
  ∧ session_analysis_result w' = session_analysis_result w
  ∧ session_page w' = session_page w.
Proof.
  intros Hor. cbv zeta. rewrite analysis_execution_spec.
  destruct (blank code_input); [split_and!; eauto|].
  destruct api_key_missing; [split_and!; eauto|].
  destruct Hor as [?|[?|[e ->]]]; [done|done|].
  split_and!; eauto.
Qed.

Lemma analysis_execution_returns code_input selected_language now w :
  (analysis_execution code_input selected_language now w).1 = Returned tt
  ∧ session_username (analysis_execution code_input selected_language now w).2
    = session_username w.
Proof.
  rewrite analysis_execution_spec.
  destruct (blank code_input); [done|].
  destruct api_key_missing; [done|]. cbv zeta.
  destruct (groq (chat_request code_input selected_language)); [done|].
  unfold bind, set_analysis_result, get_username, set_page, chat_completion.
  cbn [snd session_username]. by rewrite save_analysis_to_history_spec.
Qed.


Lemma elem_of_last_n {A} n (l : list A) x : x ∈ last_n n l → x ∈ l.
Proof.
  unfold last_n. intros Hx.
  rewrite <- (take_drop (length l - n) l). apply elem_of_app. by right.
Qed.

(** X9: the dashboard writes flagged entries only: when every entry of
    the history says [has_errors] before the analysis block runs, every
    entry does after it. *)
Theorem analysis_block_keeps_flags code_input selected_language now w :
  all_flagged w →
  all_flagged (analysis_execution code_input selected_language now w).2.
Proof.
  intros Hall username e.
  destruct (analysis_cases code_input selected_language)
    as [Herr|(Hb & Hk & text & Hg)].
  - destruct (analysis_execution_error _ _ now w Herr)
      as (_ & _ & _ & Hh & _).
    unfold history_of. cbv zeta in Hh. rewrite Hh. apply Hall.
  - destruct (analysis_execution_reply _ _ now w text Hb Hk Hg)
      as (_ & _ & _ & _ & _ & Hh).
    unfold history_of at 1. cbv zeta in Hh. rewrite Hh. cbn [stored].
    destruct (decide (session_username w = username)) as [<-|Hne].
    + rewrite lookup_insert_eq. cbn [default].
      intros Hin%elem_of_last_n.
      apply elem_of_app in Hin as [Hin|Hin%list_elem_of_singleton].
      * by eapply Hall.
      * subst e. unfold history_entry_of. cbn [has_errors].
        by rewrite parse_lookup_error.
    + rewrite lookup_insert_ne by done. apply Hall.
Qed.

(** ** More on the stores *)

(** X10: an append makes the user's list one longer until it has 50
    entries and keeps it at 50 from then on; below 50 nothing is
    dropped, and at 50 or more only the oldest entries go, the new
    entry coming last. *)
Theorem append_evicts_oldest_when_full username code language result now w :
  let h := history_of w username in
  let h' := history_of
              (save_analysis_to_history username code language result now w).2
              username in
  let e := history_entry_of code language result now in
  length h' = (S (length h) `min` 50)%nat
  ∧ ((length h < 50)%nat → h' = h ++ [e])
  ∧ ((50 ≤ length h)%nat → h' = drop (length h - 49) h ++ [e]).
Proof.
  cbv zeta. rewrite history_of_save, bool_decide_eq_true_2 by done.
  unfold last_n. rewrite length_drop, length_app. cbn [length].
  split_and!.
  - lia.
  - intros Hlt.
    by replace (length (history_of w username) + 1 - 50)%nat with O by lia.
  - intros Hge. rewrite drop_app_le by lia. do 2 f_equal. lia.
Qed.

(** X11: the entry made for a call holds at most 203 characters of
    snippet, beginning with the first 200 characters of the code, and a
    summary of at most 150 characters that is the beginning of the
    result's "code_review". *)
Theorem history_entry_bounded (code language : str)
    (result : gmap str str) (now : str) :
  let e := history_entry_of code language result now in
  (length (code_snippet e) ≤ 203)%nat
  ∧ take 200 code `prefix_of` code_snippet e
  ∧ (length (analysis_summary e) ≤ 150)%nat
  ∧ analysis_summary e `prefix_of` default [] (result !! lit "code_review").
Proof.
  cbv zeta. unfold history_entry_of.
  cbn [code_snippet analysis_summary]. split_and!.
  - destruct (200 <? length code)%nat eqn:Hl.
    + rewrite length_app, length_take.
      change (length (lit "...")) with 3%nat. lia.
    + apply Nat.ltb_ge in Hl. lia.
  - destruct (200 <? length code)%nat eqn:Hl.
    + by apply prefix_app_r.
    + apply Nat.ltb_ge in Hl. by rewrite take_ge.
  - rewrite length_take. lia.
  - apply prefix_take.
Qed.


(** X13: a username that was free can log in with the password it
    registered with, and with another password exactly when that
    password has the same hash. *)
Theorem register_then_authenticate username password now w :
  users_of w !! username = None →
  let w1 := (register_user username password now w).2 in
  (register_user username password now w).1
  = Returned (true, lit "Registration successful")
  ∧ authenticate_user username password w1
    = (Returned (true, lit "Login successful"), w1)
  ∧ ∀ password',
      (∃ message, (authenticate_user username password' w1).1
                  = Returned (true, message))
      ↔ hash_password password' = hash_password password.
Proof.
  intros Hfree. cbv zeta. rewrite register_user_spec, Hfree. cbn [fst snd].
  split; [done|].
  set (r := {| stored_password := hash_password password; created_at := now |}).
  set (w1 := file_set USERS_FILE (Stored (<[username := r]> (users_of w))) w).
  assert (users_of w1 !! username = Some r) as Hw1.
  { unfold w1. rewrite users_of_file_set. apply lookup_insert_eq. }
  split.
  - rewrite authenticate_user_spec, Hw1.
    by rewrite bool_decide_eq_true_2.
  - intros password'. rewrite authenticate_user_spec, Hw1. cbn [fst].
    case_bool_decide as Hp.
    + split; [by intros _|eauto].
    + split; [by intros [message [=]]|]. intros Heq. by destruct Hp.
Qed.


(** X15: registering a username changes the answer to no login under
    another username. *)
Theorem register_keeps_other_logins username password now other password' w :
  other ≠ username →
  (authenticate_user other password'
     (register_user username password now w).2).1
  = (authenticate_user other password' w).1.
Proof.
  intros Hne. rewrite !authenticate_user_spec, register_user_spec.
  destruct (users_of w !! username) as [r|] eqn:Hu; cbn [fst snd]; [done|].
  rewrite users_of_file_set. by rewrite lookup_insert_ne.
Qed.

(** ** The session and the pages *)

Lemma lift_returned {A} (c : py A) b a w :
  c (disk b) = (Returned a, w) →
  lift c b = (Finished a, {| disk := w; session_state := session_state b;
                             shown := shown b |}).
Proof. unfold lift. by intros ->. Qed.

Lemma login_pressed_spec username password b :
  login_pressed username password b
  = if truthy username && truthy password then
      match users_of (disk b) !! username with
      | None =>
          (Finished tt,
           {| disk := disk b; session_state := session_state b;
              shown := shown b ++ [(LError, lit "Username not found")] |})
      | Some record =>
          if bool_decide (stored_password record = hash_password password)
          then
            (Rerun,
             {| disk := disk b;
                session_state :=
                  <[lit "page" := VStr (lit "dashboard")]>
                  (<[lit "username" := VStr username]>
                  (<[lit "authenticated" := VBool true]> (session_state b)));
                shown := shown b ++ [(LSuccess, lit "Login successful")] |})
          else
            (Finished tt,
             {| disk := disk b; session_state := session_state b;
                shown := shown b ++ [(LError, lit "Incorrect password")] |})
      end
    else
      (Finished tt,
       {| disk := disk b; session_state := session_state b;
          shown := shown b
                   ++ [(LWarning, lit "Please enter both username and password")] |}).
Proof.
  unfold login_pressed.
  destruct (truthy username && truthy password); [|done].
  unfold ui_bind at 1.
  rewrite (lift_returned _ _ _ _ (authenticate_user_spec username password (disk b))).
  destruct (users_of (disk b) !! username) as [record|]; [|done].
  by case_bool_decide.
Qed.

Lemma signup_pressed_spec username password confirm_password now b :
  signup_pressed username password confirm_password now b
  = if truthy username && truthy password && truthy confirm_password then
      if negb (eqb password confirm_password) then
        (Finished tt,
         {| disk := disk b; session_state := session_state b;
            shown := shown b ++ [(LError, lit "Passwords do not match")] |})
      else if (length password <? 6)%nat then
        (Finished tt,
         {| disk := disk b; session_state := session_state b;
            shown := shown b
                     ++ [(LError, lit "Password must be at least 6 characters")] |})
      else
        match users_of (disk b) !! username with
        | Some _ =>
            (Finished tt,
             {| disk := disk b; session_state := session_state b;
                shown := shown b ++ [(LError, lit "Username already exists")] |})
        | None =>
            (Rerun,
             {| disk :=
                  file_set USERS_FILE
                    (Stored (<[username :=
                                 {| stored_password := hash_password password;
                                    created_at := now |}]>
                               (users_of (disk b)))) (disk b);
                session_state :=
                  <[lit "page" := VStr (lit "login")]> (session_state b);
                shown := shown b
                         ++ [(LSuccess, lit "Registration successful")]
                         ++ [(LInfo, lit "Please login with your credentials")] |})
        end
    else
      (Finished tt,
       {| disk := disk b; session_state := session_state b;
          shown := shown b ++ [(LWarning, lit "Please fill in all fields")] |}).
Proof.
  unfold signup_pressed.
  destruct (truthy username && truthy password && truthy confirm_password);
    [|done].
  destruct (negb (eqb password confirm_password)); [done|].
  destruct (length password <? 6)%nat; [done|].
  unfold ui_bind at 1. unfold lift. rewrite register_user_spec.
  destruct (users_of (disk b) !! username) as [record|]; [done|].
  cbn [fst snd]. unfold go_to, ui_bind, show, set_attr, st_rerun.
  cbn [disk session_state shown]. by rewrite <- app_assoc.
Qed.

Lemma analyze_pressed_spec code_input selected_language now b :
  analyze_pressed code_input selected_language now b
  = if blank code_input then
      (Finished tt,
       {| disk := disk b; session_state := session_state b;
          shown := shown b
                   ++ [(LError, lit "Please enter or upload code to analyze")] |})
    else if api_key_missing then
      (Finished tt,
       {| disk := disk b; session_state := session_state b;
          shown := shown b
                   ++ [(LError,
                        lit "Groq API key not configured. Please set GROQ_API_KEY in .env file")] |})
    else
      let w1 := (chat_completion (chat_request code_input selected_language)
                                 (disk b)).2 in
      match groq (chat_request code_input selected_language) with
      | Raised e =>
          (Finished tt,
           {| disk := w1; session_state := session_state b;
              shown := shown b ++ [(LError, lit "AI Analysis Error: " ++ e)] |})
      | Returned text =>
          let result := parse_structured_response text in
          let session :=
            <[lit "analysis_result" := VDict result]> (session_state b) in
          match session_state b !! lit "username" with
          | None =>
              (Failed (lit "AttributeError"),
               {| disk := w1; session_state := session; shown := shown b |})
          | Some (VStr username) =>
              (Rerun,
               {| disk := (save_analysis_to_history username code_input
                             selected_language result now w1).2;
                  session_state :=
                    <[lit "page" := VStr (lit "results")]> session;
                  shown := shown b |})
          | Some _ =>
              (Unmodelled,
               {| disk := w1; session_state := session; shown := shown b |})
          end
      end.
Proof.
  unfold analyze_pressed. rewrite blank_test.
  destruct (blank code_input); [done|].
  unfold ui_bind at 1. unfold lift at 1. rewrite analyze_code_with_ai_spec.
  destruct api_key_missing; [by rewrite lookup_singleton_eq|].
  destruct (groq (chat_request code_input selected_language)) as [e|text].
  { by rewrite lookup_singleton_eq. }
  rewrite parse_lookup_error. cbv zeta.
  unfold ui_bind, set_attr, get_attr, go_to, st_rerun, unmodelled.
  cbn [disk session_state shown].
  rewrite lookup_insert_ne by (by vm_compute).
  destruct (session_state b !! lit "username") as [[| | username|]|]; try done.
  unfold lift. cbn [disk session_state shown].
  by rewrite save_analysis_to_history_spec.
Qed.

Lemma init_attr_spec name v b :
  init_attr name v b
  = (Finished tt,
     {| disk := disk b;
        session_state := session_state b ∪ {[ name := v ]};
        shown := shown b |}).
Proof.
  destruct b as [w s m].
  unfold init_attr, ui_bind, has_attr, when, set_attr, ui_ret.
  cbn [disk session_state shown].
  destruct (s !! name) as [v'|] eqn:Hs.
  - rewrite bool_decide_eq_true_2 by eauto. cbn [negb]. do 2 f_equal.
    apply map_eq. intros k. rewrite lookup_union.
    destruct (decide (name = k)) as [<-|Hne].
    + by rewrite Hs, lookup_singleton_eq.
    + rewrite lookup_singleton_ne by done. by destruct (s !! k).
  - rewrite bool_decide_eq_false_2 by (by intros [? ?]). cbn [negb].
    do 2 f_equal. by apply insert_union_singleton_r.
Qed.

Lemma initialize_session_state_spec b :
  initialize_session_state b
  = (Finished tt,
     {| disk := disk b;
        session_state := session_state b ∪ session_defaults;
        shown := shown b |}).
Proof.
  unfold initialize_session_state, ui_bind.
  rewrite !init_attr_spec. cbn [disk session_state shown].
  do 2 f_equal. rewrite <- !(assoc_L (∪)).
  unfold session_defaults. rewrite !insert_union_singleton_l.
  by rewrite (right_id_L ∅ (∪)).
Qed.

Lemma session_defaults_keys (name : str) :
  is_Some (session_defaults !! name)
  ↔ name ∈ [lit "authenticated"; lit "username"; lit "page";
            lit "analysis_result"; lit "language"].
Proof.
  clear. rewrite <- elem_of_dom. unfold session_defaults.
  rewrite !dom_insert_L, dom_empty_L. set_solver.
Qed.

(** X16: [initialize_session_state] gives each of its five keys its
    default when the session has no such key and changes nothing else:
    the session afterwards is the session before, completed by the
    defaults. A value that is in the session is kept, so a login
    survives the runs of the script; and a second call changes
    nothing. *)
Theorem initialize_session_state_completes b :
  let b' := (initialize_session_state b).2 in
  (initialize_session_state b).1 = Finished tt
  ∧ disk b' = disk b
  ∧ shown b' = shown b
  ∧ session_state b' = session_state b ∪ session_defaults
  ∧ (∀ name v, session_state b !! name = Some v →
               session_state b' !! name = Some v)
  ∧ (∀ name, is_Some (session_state b' !! name)
             ↔ is_Some (session_state b !! name)
               ∨ name ∈ [lit "authenticated"; lit "username"; lit "page";
                         lit "analysis_result"; lit "language"])
  ∧ (initialize_session_state b').2 = b'.
Proof.
  cbv zeta. rewrite !initialize_session_state_spec.
  cbn [fst snd disk session_state shown]. split_and!; try done.
  - intros name v Hv. by apply lookup_union_Some_l.
  - intros name. rewrite <- session_defaults_keys.
    rewrite lookup_union. destruct (session_state b !! name) as [v|] eqn:Hs;
      destruct (session_defaults !! name) as [d|] eqn:Hd; cbn;
      split; eauto; intros [[? [=]]|[? [=]]].
  - f_equal. rewrite <- (assoc_L (∪)).
    by rewrite (idemp_L (∪) session_defaults).
Qed.

Lemma truthy_true (s : str) : truthy s = true ↔ s ≠ [].
Proof. by destruct s. Qed.

(** X17: the login block never writes to the world. With both fields
    filled and a password whose hash is the stored one it marks the
    session authenticated under the username given, goes to the
    dashboard and reruns; in every other case it leaves the session as
    it was and shows one message that is no success. *)
Theorem login_block_lets_in_verified_only username password b :
  disk (login_pressed username password b).2 = disk b
  ∧ (verified (disk b) username password →
     (login_pressed username password b).1 = Rerun
     ∧ session_state (login_pressed username password b).2
       = <[lit "page" := VStr (lit "dashboard")]>
         (<[lit "username" := VStr username]>
         (<[lit "authenticated" := VBool true]> (session_state b)))
     ∧ shown (login_pressed username password b).2
       = shown b ++ [(LSuccess, lit "Login successful")])
  ∧ (¬ verified (disk b) username password →
     (login_pressed username password b).1 = Finished tt
     ∧ session_state (login_pressed username password b).2 = session_state b
     ∧ ∃ l message,
         shown (login_pressed username password b).2
         = shown b ++ [(l, message)]
         ∧ l ≠ LSuccess).
Proof.
  rewrite login_pressed_spec. unfold verified.
  destruct (truthy username) eqn:Hu; cbn [andb].
  2:{ split_and!; [done| |].
      - intros [Hne _]. apply truthy_true in Hne. congruence.
      - intros _. split_and!; [done|done|]. by eexists _, _. }
  destruct (truthy password) eqn:Hp.
  2:{ split_and!; [done| |].
      - intros (_ & Hne & _). apply truthy_true in Hne. congruence.
      - intros _. split_and!; [done|done|]. by eexists _, _. }
  apply truthy_true in Hu, Hp.
  destruct (users_of (disk b) !! username) as [record|] eqn:Hr.
  2:{ split_and!; [done| |].
      - by intros (_ & _ & r & [=] & _).
      - intros _. split_and!; [done|done|]. by eexists _, _. }
  case_bool_decide as Hh.
  - split_and!; [done|done|]. intros []. split_and!; [done|done|]. eauto.
  - split_and!; [done| |].
    + intros (_ & _ & r & [= <-] & Hr'). done.
    + intros _. split_and!; [done|done|]. by eexists _, _.
Qed.

(** X18: the signup block calls [register_user] only with a username
    and a password that are not empty, a confirmation equal to the
    password and a password of at least six characters. With such
    fields and a free username it stores the user, goes to the login
    page and reruns, without authenticating the session; in every other
    case it leaves the world and the session as they were and shows one
    error or warning. *)
Theorem signup_block_registers_acceptable_only
    username password confirm_password now b :
  (acceptable username password confirm_password →
   users_of (disk b) !! username = None →
   (signup_pressed username password confirm_password now b).1 = Rerun
   ∧ disk (signup_pressed username password confirm_password now b).2
     = file_set USERS_FILE
         (Stored (<[username := {| stored_password := hash_password password;
                                   created_at := now |}]>
                    (users_of (disk b)))) (disk b)
   ∧ session_state (signup_pressed username password confirm_password now b).2
     = <[lit "page" := VStr (lit "login")]> (session_state b)
   ∧ shown (signup_pressed username password confirm_password now b).2
     = shown b ++ [(LSuccess, lit "Registration successful");
                   (LInfo, lit "Please login with your credentials")])
  ∧ (¬ (acceptable username password confirm_password
        ∧ users_of (disk b) !! username = None) →
     (signup_pressed username password confirm_password now b).1 = Finished tt
     ∧ disk (signup_pressed username password confirm_password now b).2
       = disk b
     ∧ session_state (signup_pressed username password confirm_password now b).2
       = session_state b
     ∧ ∃ l message,
         shown (signup_pressed username password confirm_password now b).2
         = shown b ++ [(l, message)]
         ∧ (l = LError ∨ l = LWarning)).
Proof.
  rewrite signup_pressed_spec. unfold acceptable, eqb.
  destruct (truthy username) eqn:Hu; cbn [andb].
  2:{ split.
      - intros [Hne _]. apply truthy_true in Hne. congruence.
      - intros _. split_and!; [done|done|done|]. eexists _, _. eauto. }
  destruct (truthy password) eqn:Hp; cbn [andb].
  2:{ split.
      - intros (_ & Hne & _). apply truthy_true in Hne. congruence.
      - intros _. split_and!; [done|done|done|]. eexists _, _. eauto. }
  apply truthy_true in Hu, Hp.
  destruct (truthy confirm_password) eqn:Hc.
  2:{ split.
      - intros (_ & _ & <- & _). apply truthy_true in Hp. congruence.
      - intros _. split_and!; [done|done|done|]. eexists _, _. eauto. }
  case_bool_decide as Heq; cbn [negb].
  2:{ split.
      - by intros (_ & _ & ? & _).
      - intros _. split_and!; [done|done|done|]. eexists _, _. eauto. }
  destruct (length password <? 6)%nat eqn:Hl.
  { apply Nat.ltb_lt in Hl. split.
    - intros (_ & _ & _ & ?). lia.
    - intros _. split_and!; [done|done|done|]. eexists _, _. eauto. }
  apply Nat.ltb_ge in Hl.
  destruct (users_of (disk b) !! username) as [record|] eqn:Hr.
  - split; [done|].
    intros _. split_and!; [done|done|done|]. eexists _, _. eauto.
  - split; [done|]. intros []. done.
Qed.

(** *** What the pages keep *)

Ltac keys :=
  repeat (rewrite lookup_insert_eq
          || rewrite lookup_insert_ne by (by vm_compute)).

Ltac initialized_by Hi :=
  let k := fresh "k" in
  let Hk := fresh "Hk" in
  intros k Hk; cbn [session_state];
  repeat (apply lookup_insert_is_Some'; right); by apply Hi.

Lemma ready_page w s m m' v :
  ready {| disk := w; session_state := s; shown := m |} →
  ready {| disk := w; session_state := <[lit "page" := v]> s; shown := m' |}.
Proof.
  intros (Hi & Ha & Hr). split; [initialized_by Hi|]. split.
  - intros x. cbn [session_state disk]. keys. apply Ha.
  - intros x. cbn [session_state]. keys. apply Hr.
Qed.

Lemma ready_login w s m m' v (u : str) :
  ready {| disk := w; session_state := s; shown := m |} →
  is_Some (users_of w !! u) →
  ready {| disk := w;
           session_state :=
             <[lit "page" := v]>
             (<[lit "username" := VStr u]>
             (<[lit "authenticated" := VBool true]> s));
           shown := m' |}.
Proof.
  intros (Hi & Ha & Hr) Hu. split; [initialized_by Hi|]. split.
  - intros x. cbn [session_state disk]. keys. intros _ _. by exists u.
  - intros x. cbn [session_state]. keys. apply Hr.
Qed.

Lemma ready_logout w s m m' v :
  ready {| disk := w; session_state := s; shown := m |} →
  ready {| disk := w;
           session_state :=
             <[lit "analysis_result" := VNone]>
             (<[lit "page" := v]>
             (<[lit "username" := VNone]>
             (<[lit "authenticated" := VBool false]> s)));
           shown := m' |}.
Proof.
  intros (Hi & Ha & Hr). split; [initialized_by Hi|]. split.
  - intros x. cbn [session_state disk]. keys. by intros [= <-].
  - intros x. cbn [session_state]. keys. intros [= <-]. by left.
Qed.

Lemma ready_signup w s m m' v (u : str) r :
  ready {| disk := w; session_state := s; shown := m |} →
  ready {| disk := file_set USERS_FILE (Stored (<[u := r]> (users_of w))) w;
           session_state := <[lit "page" := v]> s;
           shown := m' |}.
Proof.
  intros (Hi & Ha & Hr). split; [initialized_by Hi|]. split.
  - intros x. cbn [session_state disk]. keys. intros Hx Ht.
    destruct (Ha x Hx Ht) as (u' & Hu' & Hs). exists u'. split; [done|].
    rewrite users_of_file_set. apply lookup_insert_is_Some'. by right.
  - intros x. cbn [session_state]. keys. apply Hr.
Qed.

Lemma ready_calls w s m m' req :
  ready {| disk := w; session_state := s; shown := m |} →
  ready {| disk := (chat_completion req w).2; session_state := s;
           shown := m' |}.
Proof. done. Qed.

Lemma ready_analysis (w : world) (s : gmap str value)
    (m m' : list (level * str)) (v : value) (u code language : str)
    (d : gmap str str) (now : str) (req : request) :
  ready {| disk := w; session_state := s; shown := m |} →
  d !! lit "error" = None →
  ready {| disk := (save_analysis_to_history u code language d now
                      (chat_completion req w).2).2;
           session_state :=
             <[lit "page" := v]> (<[lit "analysis_result" := VDict d]> s);
           shown := m' |}.
Proof.
  intros (Hi & Ha & Hr) Hd. split; [initialized_by Hi|].
  rewrite save_analysis_to_history_spec. cbn [snd]. split.
  - intros x. cbn [session_state disk]. keys. apply Ha.
  - intros x. cbn [session_state]. keys. intros [= <-]. right. eauto.
Qed.

Lemma grows_refl b : grows b b.
Proof. split; [done|]. apply union_subseteq_l. Qed.

Lemma grows_same_disk b0 b : disk b = disk b0 → grows b0 b.
Proof. intros Hd. unfold grows. rewrite Hd. apply grows_refl. Qed.

Lemma grows_trans b0 b1 b2 : grows b0 b1 → grows b1 b2 → grows b0 b2.
Proof.
  intros [Hu1 Hh1] [Hu2 Hh2]. split; [by etrans|].
  etrans; [exact Hh2|]. apply union_subseteq. split; [|apply union_subseteq_r].
  etrans; [exact Hh1|]. apply union_subseteq.
  split; [apply union_subseteq_l|]. etrans; [exact Hu2|apply union_subseteq_r].
Qed.

Lemma grows_signup w s m s' m' (u : str) r :
  grows {| disk := w; session_state := s; shown := m |}
        {| disk := file_set USERS_FILE (Stored (<[u := r]> (users_of w))) w;
           session_state := s'; shown := m' |}.
Proof.
  split; cbn [disk].
  - rewrite users_of_file_set, dom_insert_L. apply union_subseteq_r.
  - apply union_subseteq_l.
Qed.

Lemma grows_analysis (w : world) (s s' : gmap str value)
    (m m' : list (level * str)) (u code language : str)
    (d : gmap str str) (now : str) (req : request) :
  is_Some (users_of w !! u) →
  grows {| disk := w; session_state := s; shown := m |}
        {| disk := (save_analysis_to_history u code language d now
                      (chat_completion req w).2).2;
           session_state := s'; shown := m' |}.
Proof.
  intros Hu. rewrite save_analysis_to_history_spec. split; cbn [disk snd].
  - done.
  - cbn [HISTORY_FILE file_set history_json stored]. rewrite dom_insert_L.
    apply union_subseteq. split; [|apply union_subseteq_l].
    etrans; [|apply union_subseteq_r].
    by apply singleton_subseteq_l, elem_of_dom.
Qed.

Ltac ui_unfold :=
  unfold ui_bind, when, go_to, get_attr, set_attr, show, st_rerun, ui_ret,
    ui_raise, unmodelled, logout;
  cbn [disk session_state shown fst snd].

Ltac ready_by Hr :=
  first [ exact Hr
        | exact (ready_page _ _ _ _ _ Hr)
        | exact (ready_logout _ _ _ _ _ Hr)
        | exact (ready_calls _ _ _ _ _ Hr) ].

(** Two statements in a row, a statement under a condition and a
    statement that binds a value, for a property of the way a run ends
    and of the state it ends in. *)
Lemma ui_seq_post (Q : ran unit → browser → Prop) (c1 c2 : ui unit) b :
  Q (c1 b).1 (c1 b).2 →
  (∀ b1, Q (Finished tt) b1 → Q (c2 b1).1 (c2 b1).2) →
  Q ((c1 ;+ c2) b).1 ((c1 ;+ c2) b).2.
Proof.
  unfold ui_bind. destruct (c1 b) as [[[]| | |] b1]; cbn [fst snd]; eauto.
Qed.

Lemma ui_when_post (Q : ran unit → browser → Prop) cond (c : ui unit) b :
  Q (Finished tt) b →
  (cond = true → Q (c b).1 (c b).2) →
  Q (when cond c b).1 (when cond c b).2.
Proof. destruct cond; cbn; eauto. Qed.

Lemma ui_bind_post {A} (Q : ran unit → browser → Prop) (c : ui A)
    (k : A → ui unit) b :
  match (c b).1 with
  | Finished a => Q (k a (c b).2).1 (k a (c b).2).2
  | Rerun => Q Rerun (c b).2
  | Failed msg => Q (Failed msg) (c b).2
  | Unmodelled => Q Unmodelled (c b).2
  end →
  Q (ui_bind c k b).1 (ui_bind c k b).2.
Proof. unfold ui_bind. by destruct (c b) as [[a| | |] b1]. Qed.

Lemma get_attr_post {A} (Q : ran A → browser → Prop) name (k : value → ui A)
    b v :
  session_state b !! name = Some v →
  Q (k v b).1 (k v b).2 →
  Q ((let+ x := get_attr name in k x) b).1
    ((let+ x := get_attr name in k x) b).2.
Proof. intros Hv. unfold ui_bind, get_attr. by rewrite Hv. Qed.

Lemma kept_well inp b0 r b : kept inp b0 r b → well inp b0 r b.
Proof. intros (? & ? & ?). split_and!; [done|done|by apply grows_same_disk]. Qed.

Lemma well_trans inp b0 b1 r b2 :
  grows b0 b1 → well inp b1 r b2 → well inp b0 r b2.
Proof. intros Hg (? & ? & ?). split_and!; [done|done|by eapply grows_trans]. Qed.

Lemma go_to_kept inp b0 page b :
  kept inp b0 (Finished tt) b →
  kept inp b0 (go_to page b).1 (go_to page b).2.
Proof.
  destruct b as [w s m]. intros (Hr & _ & Hd). ui_unfold.
  split_and!; [ready_by Hr|done|done].
Qed.

Lemma when_go_to_kept inp b0 cond page b :
  kept inp b0 (Finished tt) b →
  kept inp b0 (when cond (go_to page) b).1 (when cond (go_to page) b).2.
Proof.
  intros Hk. apply (ui_when_post (kept inp b0)); [done|].
  intros _. by apply go_to_kept.
Qed.

Lemma initialized_lookup b (name : str) :
  initialized b → is_Some (session_defaults !! name) →
  ∃ v, session_state b !! name = Some v.
Proof. intros Hi Hn. by apply Hi. Qed.

Lemma render_home_page_kept inp b :
  ready b →
  kept inp b (render_home_page inp b).1 (render_home_page inp b).2.
Proof.
  intros Hr.
  destruct (initialized_lookup _ (lit "authenticated") (proj1 Hr))
    as [v Hv]; [vm_compute; eauto|].
  unfold render_home_page. apply (get_attr_post _ _ _ _ v Hv).
  assert (kept inp b (Finished tt) b) as Hk by done.
  destruct (value_truthy v); cbn [negb].
  - by apply when_go_to_kept.
  - apply (ui_seq_post (kept inp b)); [by apply when_go_to_kept|].
    intros b1 Hk1. by apply when_go_to_kept.
Qed.

Lemma login_pressed_kept inp username password b :
  ready b →
  kept inp b (login_pressed username password b).1
       (login_pressed username password b).2.
Proof.
  destruct b as [w s m]. intros Hr. rewrite login_pressed_spec.
  cbn [disk session_state shown].
  destruct (truthy username && truthy password);
    [|split_and!; [ready_by Hr|done|done]].
  destruct (users_of w !! username) as [record|] eqn:Hu;
    [|split_and!; [ready_by Hr|done|done]].
  case_bool_decide; (split_and!; [|done|done]); [|ready_by Hr].
  apply (ready_login _ _ _ _ _ _ Hr). by rewrite Hu.
Qed.

Lemma render_login_page_kept inp b :
  ready b →
  kept inp b (render_login_page inp b).1 (render_login_page inp b).2.
Proof.
  intros Hr. unfold render_login_page.
  apply (ui_seq_post (kept inp b)).
  - apply (ui_when_post (kept inp b)); [done|].
    intros _. by apply login_pressed_kept.
  - intros b1 Hk1. apply (ui_seq_post (kept inp b)).
    + by apply when_go_to_kept.
    + intros b2 Hk2. by apply when_go_to_kept.
Qed.

Lemma render_results_page_kept inp b :
  ready b →
  kept inp b (render_results_page inp b).1 (render_results_page inp b).2.
Proof.
  intros Hr. unfold render_results_page.
  apply (ui_seq_post (kept inp b)); [by apply when_go_to_kept|].
  intros b1 (Hr1 & _ & Hd1).
  destruct (initialized_lookup _ (lit "analysis_result") (proj1 Hr1))
    as [v Hv]; [vm_compute; eauto|].
  apply (get_attr_post _ _ _ _ v Hv).
  assert (kept inp b (Finished tt) b1) as Hk1 by done.
  destruct (proj2 (proj2 Hr1) v Hv) as [->|(d & -> & _)].
  - cbn [value_truthy]. apply (ui_seq_post (kept inp b)).
    + destruct b1. by ui_unfold.
    + intros b2 Hk2. by apply when_go_to_kept.
  - destruct (value_truthy (VDict d)); [done|].
    apply (ui_seq_post (kept inp b)).
    + destruct b1. by ui_unfold.
    + intros b2 Hk2. by apply when_go_to_kept.
Qed.

Lemma when_go_to_well inp b0 cond page b :
  well inp b0 (Finished tt) b →
  well inp b0 (when cond (go_to page) b).1 (when cond (go_to page) b).2.
Proof.
  intros (Hr & _ & Hg). apply (well_trans _ _ b); [done|].
  by apply kept_well, when_go_to_kept.
Qed.

Lemma signup_pressed_well inp username password confirm_password now b :
  ready b →
  well inp b (signup_pressed username password confirm_password now b).1
       (signup_pressed username password confirm_password now b).2.
Proof.
  destruct b as [w s m]. intros Hr. rewrite signup_pressed_spec.
  cbn [disk session_state shown].
  destruct (truthy username && truthy password && truthy confirm_password);
    [|apply kept_well; split_and!; [ready_by Hr|done|done]].
  destruct (negb (eqb password confirm_password));
    [apply kept_well; split_and!; [ready_by Hr|done|done]|].
  destruct (length password <? 6)%nat;
    [apply kept_well; split_and!; [ready_by Hr|done|done]|].
  destruct (users_of w !! username);
    [apply kept_well; split_and!; [ready_by Hr|done|done]|].
  split_and!; [apply (ready_signup _ _ _ _ _ _ _ Hr)|done|apply grows_signup].
Qed.

Lemma render_signup_page_well inp b :
  ready b →
  well inp b (render_signup_page inp b).1 (render_signup_page inp b).2.
Proof.
  intros Hr. unfold render_signup_page.
  apply (ui_seq_post (well inp b)).
  - apply (ui_when_post (well inp b)).
    + by apply kept_well.
    + intros _. by apply signup_pressed_well.
  - intros b1 Hw1. by apply when_go_to_well.
Qed.

Lemma analyze_pressed_well inp code_input selected_language now b :
  ready b → authenticated b →
  well inp b (analyze_pressed code_input selected_language now b).1
       (analyze_pressed code_input selected_language now b).2.
Proof.
  destruct b as [w s m]. intros Hr (v & Hv & Ht).
  destruct (proj1 (proj2 Hr) v Hv Ht) as (u & Hu & Hreg).
  cbn [disk session_state] in Hu, Hreg.
  rewrite analyze_pressed_spec. cbn [disk session_state shown].
  destruct (blank code_input);
    [apply kept_well; split_and!; [ready_by Hr|done|done]|].
  destruct api_key_missing;
    [apply kept_well; split_and!; [ready_by Hr|done|done]|]. cbv zeta.
  destruct (groq (chat_request code_input selected_language)) as [e|text].
  { split_and!; [ready_by Hr|done|]. by split; [|apply union_subseteq_l]. }
  rewrite Hu. split_and!; [|done|by apply grows_analysis].
  apply (ready_analysis _ _ _ _ _ _ _ _ _ _ _ Hr).
  apply parse_lookup_error.
Qed.

(** The dashboard, rendered for an authenticated session. *)
Lemma render_dashboard_well inp b :
  ready b → authenticated b →
  well inp b (render_dashboard inp b).1 (render_dashboard inp b).2.
Proof.
  intros Hr Ha.
  destruct (initialized_lookup _ (lit "username") (proj1 Hr))
    as [v Hv]; [vm_compute; eauto|].
  unfold render_dashboard. apply (get_attr_post _ _ _ _ v Hv).
  set (Q := λ (r : ran unit) b', well inp b r b'
                                 ∧ (r = Finished tt → authenticated b')).
  enough (Q ((when (pressed inp Logout) (logout;+ st_rerun);+
              let+ code_input :=
                match uploaded_file inp with
                | Some (name, Raised msg) => ui_raise msg
                | Some (name, Returned content) =>
                    show LInfo (lit "Loaded code from: " ++ name);+
                    ui_ret content
                | None => ui_ret (code_area inp)
                end in
              when (pressed inp Analyze)
                   (analyze_pressed code_input (language_select inp)
                                    (clock inp))) b).1
            ((when (pressed inp Logout) (logout;+ st_rerun);+
              let+ code_input :=
                match uploaded_file inp with
                | Some (name, Raised msg) => ui_raise msg
                | Some (name, Returned content) =>
                    show LInfo (lit "Loaded code from: " ++ name);+
                    ui_ret content
                | None => ui_ret (code_area inp)
                end in
              when (pressed inp Analyze)
                   (analyze_pressed code_input (language_select inp)
                                    (clock inp))) b).2) as [HQ _]; [done|].
  assert (Q (Finished tt) b) as HQ0.
  { split; [|done]. by apply kept_well. }
  apply (ui_seq_post Q).
  - apply (ui_when_post Q); [done|]. intros _.
    destruct b as [w s m]. ui_unfold.
    split; [|done]. apply kept_well. split_and!; [ready_by Hr|done|done].
  - intros b1 [(Hr1 & _ & Hg1) Ha1]. specialize (Ha1 eq_refl).
    apply (ui_bind_post Q).
    assert (∀ code_input b2, ready b2 → authenticated b2 → grows b b2 →
              Q (when (pressed inp Analyze)
                      (analyze_pressed code_input (language_select inp)
                                       (clock inp)) b2).1
                (when (pressed inp Analyze)
                      (analyze_pressed code_input (language_select inp)
                                       (clock inp)) b2).2) as Hblock.
    { intros code_input b2 Hr2 Ha2 Hg2.
      destruct (pressed inp Analyze); cbn [when].
      2:{ split; [|done]. split_and!; done. }
      pose proof (analyze_pressed_well inp code_input (language_select inp)
                    (clock inp) b2 Hr2 Ha2) as Hw.
      split; [by eapply well_trans|]. intros Hf.
      destruct b2 as [w s m]. revert Hf. rewrite analyze_pressed_spec.
      cbn [disk session_state shown].
      destruct (blank code_input); [done|].
      destruct api_key_missing; [done|]. cbv zeta.
      destruct (groq (chat_request code_input (language_select inp)));
        [done|].
      by destruct (s !! lit "username") as [[]|]. }
    destruct (uploaded_file inp) as [[name [msg|content]]|] eqn:Hup.
    + cbn [ui_raise fst snd]. split; [|done]. split_and!; [done| |done].
      cbn [ends_well]. eauto.
    + destruct b1 as [w s m]. ui_unfold. by apply Hblock.
    + cbn [ui_ret fst snd]. by apply Hblock.
Qed.

Lemma warn_go_to_kept inp b message page :
  ready b →
  kept inp b ((show LWarning message ;+ go_to page) b).1
       ((show LWarning message ;+ go_to page) b).2.
Proof.
  destruct b as [w s m]. intros Hr. ui_unfold.
  split_and!; [ready_by Hr|done|done].
Qed.

Lemma route_well inp b :
  ready b → well inp b (route inp b).1 (route inp b).2.
Proof.
  intros Hr.
  destruct (initialized_lookup _ (lit "page") (proj1 Hr))
    as [page Hpage]; [vm_compute; eauto|].
  destruct (initialized_lookup _ (lit "authenticated") (proj1 Hr))
    as [a Ha]; [vm_compute; eauto|].
  unfold route. apply (get_attr_post _ _ _ _ page Hpage).
  destruct (value_is page (lit "home"));
    [by apply kept_well, render_home_page_kept|].
  destruct (value_is page (lit "login"));
    [by apply kept_well, render_login_page_kept|].
  destruct (value_is page (lit "signup"));
    [by apply render_signup_page_well|].
  destruct (value_is page (lit "dashboard")).
  { apply (get_attr_post _ _ _ _ a Ha).
    destruct (value_truthy a) eqn:Ht.
    - apply render_dashboard_well; [done|]. by exists a.
    - by apply kept_well, warn_go_to_kept. }
  destruct (value_is page (lit "results")).
  { apply (get_attr_post _ _ _ _ a Ha).
    destruct (value_truthy a) eqn:Ht.
    - by apply kept_well, render_results_page_kept.
    - by apply kept_well, warn_go_to_kept. }
  by apply kept_well.
Qed.

Lemma initialize_ready b :
  sound b → ready (initialize_session_state b).2.
Proof.
  intros [Ha Hr]. rewrite initialize_session_state_spec. cbn [snd].
  split; [|split].
  - intros name Hn. cbn [session_state]. rewrite lookup_union.
    destruct Hn as [d ->]. by destruct (session_state b !! name).
  - intros v. cbn [session_state disk]. rewrite lookup_union.
    destruct (session_state b !! lit "authenticated") as [a|] eqn:Hb.
    + intros Hv Ht. assert (v = a) as -> by (by destruct (session_defaults !! lit "authenticated"); injection Hv).
      destruct (Ha a Hb Ht) as (u & Hu & Hreg). exists u. split; [|done].
      rewrite lookup_union, Hu. by destruct (session_defaults !! lit "username").
    + intros Hv. vm_compute in Hv. by injection Hv as <-.
  - intros v. cbn [session_state]. rewrite lookup_union.
    destruct (session_state b !! lit "analysis_result") as [a|] eqn:Hb.
    + intros Hv. assert (v = a) as -> by (by destruct (session_defaults !! lit "analysis_result"); injection Hv).
      by apply Hr.
    + intros Hv. vm_compute in Hv. injection Hv as <-. by left.
Qed.

Lemma main_well inp b :
  sound b → well inp b (main inp b).1 (main inp b).2.
Proof.
  intros Hs. pose proof (initialize_ready b Hs) as Hr.
  unfold main, ui_bind.
  rewrite initialize_session_state_spec in *. cbn [snd] in Hr.
  eapply well_trans; [|by apply route_well]. by apply grows_same_disk.
Qed.

Lemma fresh_sound w : sound (fresh w).
Proof.
  split; intros v Hv; unfold fresh in Hv; cbn [session_state] in Hv;
    by rewrite lookup_empty in Hv.
Qed.

Lemma runs_snoc inps inp b :
  runs (inps ++ [inp]) b = (main inp (runs inps b)).2.
Proof. unfold runs. by rewrite foldl_app. Qed.

Lemma runs_well inps b :
  sound b → sound (runs inps b) ∧ grows b (runs inps b).
Proof.
  intros Hs. induction inps as [|inp inps [IHs IHg]] using rev_ind.
  - split; [done|apply grows_refl].
  - rewrite runs_snoc.
    destruct (main_well inp (runs inps b) IHs) as ([_ Hs'] & _ & Hg').
    split; [done|by eapply grows_trans].
Qed.

(** X19: in every state the script reaches from a fresh session,
    whatever the files hold and whatever the widgets give, a session
    marked authenticated carries the name of a user of the users
    file. *)
Theorem authenticated_session_names_a_user inps w v :
  session_state (runs inps (fresh w)) !! lit "authenticated" = Some v →
  value_truthy v = true →
  ∃ u, session_state (runs inps (fresh w)) !! lit "username" = Some (VStr u)
       ∧ is_Some (users_of (disk (runs inps (fresh w))) !! u).
Proof.
  destruct (runs_well inps (fresh w) (fresh_sound w)) as [[Ha _] _].
  apply Ha.
Qed.

(** X20: with both files stores that load and save as the program
    expects, a run of the script from a state that runs of it reach
    from a fresh session never comes to save history under a username
    that is no string, the one statement left undescribed here. *)
Theorem reachable_runs_end_well inps inp w :
  (main inp (runs inps (fresh w))).1 ≠ Unmodelled.
Proof.
  destruct (runs_well inps (fresh w) (fresh_sound w)) as [Hs _].
  destruct (main_well inp _ Hs) as (_ & He & _).
  by destruct (main inp (runs inps (fresh w))).1.
Qed.

(** X21: over the runs of the script no user leaves the users file, and
    every user the history file gains is a user of the users file. *)
Theorem runs_keep_users_and_history inps w :
  dom (users_of w) ⊆ dom (users_of (disk (runs inps (fresh w))))
  ∧ dom (stored (history_json (disk (runs inps (fresh w)))))
    ⊆ dom (stored (history_json w))
      ∪ dom (users_of (disk (runs inps (fresh w)))).
Proof.
  by destruct (runs_well inps (fresh w) (fresh_sound w)) as [_ Hg].
Qed.

(** *** What the pages write *)

Lemma ui_bind_state {A B} (Q : browser → Prop) (c : ui A) (k : A → ui B) b :
  Q (c b).2 →
  (∀ a b1, Q b1 → Q (k a b1).2) →
  Q (ui_bind c k b).2.
Proof.
  intros Hc Hk. unfold ui_bind.
  destruct (c b) as [[a| | |] b1]; cbn [snd] in *; eauto.
Qed.

Lemma get_attr_disk name b : disk (get_attr name b).2 = disk b.
Proof. unfold get_attr. by destruct (session_state b !! name). Qed.

Lemma when_go_to_disk cond page b :
  disk (when cond (go_to page) b).2 = disk b.
Proof. by destruct cond. Qed.

Lemma login_pressed_disk username password b :
  disk (login_pressed username password b).2 = disk b.
Proof.
  rewrite login_pressed_spec.
  destruct (truthy username && truthy password); [|done].
  destruct (users_of (disk b) !! username); [|done]. by case_bool_decide.
Qed.

Lemma render_home_page_disk inp b : disk (render_home_page inp b).2 = disk b.
Proof.
  unfold render_home_page.
  apply (ui_bind_state (λ b', disk b' = disk b)); [apply get_attr_disk|].
  intros v b1 Hb1. destruct (negb (value_truthy v)).
  - apply (ui_bind_state (λ b', disk b' = disk b)).
    + by rewrite when_go_to_disk.
    + intros _ b2 Hb2. by rewrite when_go_to_disk.
  - by rewrite when_go_to_disk.
Qed.

Lemma render_login_page_disk inp b : disk (render_login_page inp b).2 = disk b.
Proof.
  unfold render_login_page.
  apply (ui_bind_state (λ b', disk b' = disk b)).
  - destruct (pressed inp Login); [apply login_pressed_disk|done].
  - intros _ b1 Hb1. apply (ui_bind_state (λ b', disk b' = disk b)).
    + by rewrite when_go_to_disk.
    + intros _ b2 Hb2. by rewrite when_go_to_disk.
Qed.

Lemma render_results_page_disk inp b :
  disk (render_results_page inp b).2 = disk b.
Proof.
  unfold render_results_page.
  apply (ui_bind_state (λ b', disk b' = disk b)).
  - by rewrite when_go_to_disk.
  - intros _ b1 Hb1. apply (ui_bind_state (λ b', disk b' = disk b)).
    + by rewrite get_attr_disk.
    + intros v b2 Hb2. destruct (value_truthy v).
      * by destruct v.
      * apply (ui_bind_state (λ b', disk b' = disk b)); [done|].
        intros _ b3 Hb3. by rewrite when_go_to_disk.
Qed.

Lemma warn_go_to_disk message page b :
  disk ((show LWarning message ;+ go_to page) b).2 = disk b.
Proof. done. Qed.

(** The signup page writes through [register_user] or not at all. *)
Lemma render_signup_page_disk inp b :
  disk (render_signup_page inp b).2 = disk b
  ∨ (pressed inp SignUp = true
     ∧ acceptable (signup_username inp) (signup_password inp)
                  (signup_confirm inp)
     ∧ users_of (disk b) !! signup_username inp = None
     ∧ disk (render_signup_page inp b).2
       = (register_user (signup_username inp) (signup_password inp)
                        (clock inp) (disk b)).2).
Proof.
  unfold render_signup_page.
  set (Q := λ b', disk b' = disk b
                  ∨ (pressed inp SignUp = true
                     ∧ acceptable (signup_username inp) (signup_password inp)
                                  (signup_confirm inp)
                     ∧ users_of (disk b) !! signup_username inp = None
                     ∧ disk b'
                       = (register_user (signup_username inp)
                            (signup_password inp) (clock inp) (disk b)).2)).
  apply (ui_bind_state Q).
  - destruct (pressed inp SignUp) eqn:Hp; [|by left]. cbn [when].
    unfold Q, acceptable. rewrite signup_pressed_spec, register_user_spec.
    unfold eqb.
    destruct (truthy (signup_username inp)) eqn:Hu; [|by left].
    destruct (truthy (signup_password inp)) eqn:Hw; [|by left].
    destruct (truthy (signup_confirm inp)) eqn:Hc; [|by left]. cbn [andb].
    case_bool_decide as Heq; [|by left]. cbn [negb].
    destruct (length (signup_password inp) <? 6)%nat eqn:Hl; [by left|].
    destruct (users_of (disk b) !! signup_username inp) eqn:Hf; [by left|].
    right. apply truthy_true in Hu, Hw. apply Nat.ltb_ge in Hl. done.
  - intros _ b1 Hb1. unfold Q. by rewrite when_go_to_disk.
Qed.

Lemma analyze_pressed_users code_input selected_language now b :
  users_json (disk (analyze_pressed code_input selected_language now b).2)
  = users_json (disk b).
Proof.
  rewrite analyze_pressed_spec.
  destruct (blank code_input); [done|].
  destruct api_key_missing; [done|]. cbv zeta.
  destruct (groq (chat_request code_input selected_language)); [done|].
  destruct (session_state b !! lit "username") as [[| | u|]|]; try done.
  by rewrite save_analysis_to_history_spec.
Qed.

(** The dashboard never writes the users file, and writes anything at
    all only under the "Analyze" button, with "Logout" not pressed. *)
Lemma render_dashboard_disk inp b :
  disk (render_dashboard inp b).2 = disk b
  ∨ (pressed inp Analyze = true ∧ pressed inp Logout = false
     ∧ users_json (disk (render_dashboard inp b).2) = users_json (disk b)).
Proof.
  unfold render_dashboard.
  set (Q := λ b', disk b' = disk b
                  ∨ (pressed inp Analyze = true ∧ pressed inp Logout = false
                     ∧ users_json (disk b') = users_json (disk b))).
  apply (ui_bind_state Q); [left; apply get_attr_disk|].
  intros _ b1 Hb1.
  destruct (pressed inp Logout) eqn:Hlo.
  { destruct Hb1 as [Hb1|(_ & [=] & _)]. left.
    unfold ui_bind at 1. cbn [when]. by destruct b1. }
  cbn [when]. unfold ui_bind at 1. cbn [ui_ret].
  apply (ui_bind_state Q).
  - destruct (uploaded_file inp) as [[name [msg|content]]|]; done.
  - intros code_input b2 Hb2.
    destruct (pressed inp Analyze) eqn:Han; [|done]. cbn [when].
    right. split_and!; [done|done|]. rewrite analyze_pressed_users.
    by destruct Hb2 as [->|(_ & _ & ?)].
Qed.

Lemma value_is_true v (s : str) : value_is v s = true → v = VStr s.
Proof.
  destruct v as [| |s'|]; try done. cbn. unfold eqb.
  by intros ->%bool_decide_eq_true.
Qed.

(** The page [route] renders for a value of [page]. *)
Lemma route_spec inp b :
  route inp b
  = match session_state b !! lit "page" with
    | None => (Failed (lit "AttributeError"), b)
    | Some page =>
        if value_is page (lit "home") then render_home_page inp b
        else if value_is page (lit "login") then render_login_page inp b
        else if value_is page (lit "signup") then render_signup_page inp b
        else if value_is page (lit "dashboard") then
          match session_state b !! lit "authenticated" with
          | None => (Failed (lit "AttributeError"), b)
          | Some a =>
              if value_truthy a then render_dashboard inp b
              else (show LWarning (lit "Please login to access the dashboard") ;+
                    go_to "login") b
          end
        else if value_is page (lit "results") then
          match session_state b !! lit "authenticated" with
          | None => (Failed (lit "AttributeError"), b)
          | Some a =>
              if value_truthy a then render_results_page inp b
              else (show LWarning (lit "Please login to view results") ;+
                    go_to "login") b
          end
        else (Finished tt, b)
    end.
Proof.
  unfold route. unfold ui_bind at 1. unfold get_attr at 1.
  destruct (session_state b !! lit "page") as [page|]; [|done].
  destruct (value_is page (lit "home")); [done|].
  destruct (value_is page (lit "login")); [done|].
  destruct (value_is page (lit "signup")); [done|].
  destruct (value_is page (lit "dashboard")).
  { unfold ui_bind at 1. unfold get_attr at 1.
    destruct (session_state b !! lit "authenticated") as [a|]; [|done].
    by destruct (value_truthy a). }
  destruct (value_is page (lit "results")); [|done].
  unfold ui_bind at 1. unfold get_attr at 1.
  destruct (session_state b !! lit "authenticated") as [a|]; [|done].
  by destruct (value_truthy a).
Qed.

Lemma route_disk inp b :
  disk (route inp b).2 = disk b
  ∨ (session_state b !! lit "page" = Some (VStr (lit "signup"))
     ∧ pressed inp SignUp = true
     ∧ acceptable (signup_username inp) (signup_password inp)
                  (signup_confirm inp)
     ∧ users_of (disk b) !! signup_username inp = None
     ∧ disk (route inp b).2
       = (register_user (signup_username inp) (signup_password inp)
                        (clock inp) (disk b)).2)
  ∨ (session_state b !! lit "page" = Some (VStr (lit "dashboard"))
     ∧ authenticated b
     ∧ pressed inp Analyze = true ∧ pressed inp Logout = false
     ∧ users_json (disk (route inp b).2) = users_json (disk b)).
Proof.
  rewrite route_spec.
  destruct (session_state b !! lit "page") as [page|] eqn:Hpage; [|by left].
  destruct (value_is page (lit "home"));
    [left; apply render_home_page_disk|].
  destruct (value_is page (lit "login"));
    [left; apply render_login_page_disk|].
  destruct (value_is page (lit "signup")) eqn:Hs.
  { apply value_is_true in Hs as ->.
    destruct (render_signup_page_disk inp b) as [?|?]; [by left|].
    right. left. by split. }
  destruct (value_is page (lit "dashboard")) eqn:Hd.
  { apply value_is_true in Hd as ->.
    destruct (session_state b !! lit "authenticated") as [a|] eqn:Ha;
      [|by left].
    destruct (value_truthy a) eqn:Ht; [|by left].
    destruct (render_dashboard_disk inp b) as [?|?]; [by left|].
    right. right. split; [done|]. split; [by exists a|done]. }
  destruct (value_is page (lit "results")); [|by left].
  destruct (session_state b !! lit "authenticated") as [a|]; [|by left].
  destruct (value_truthy a); [|by left]. left. apply render_results_page_disk.
Qed.

Lemma main_route inp b :
  main inp b = route inp (initialize_session_state b).2.
Proof. unfold main, ui_bind. by rewrite initialize_session_state_spec. Qed.

(** X22: a run of the script writes the users file only on the signup
    page, under "Sign Up", with fields the signup block accepts and a
    free username; and it sends a request to the provider or writes the
    history file only on the dashboard of an authenticated session,
    under "Analyze Code", with "Logout" not pressed. This holds of
    every state, reachable or not. *)
Theorem main_writes_only_when_allowed inp b :
  (users_json (disk (main inp b).2) ≠ users_json (disk b) →
   session_state (initialize_session_state b).2 !! lit "page"
   = Some (VStr (lit "signup"))
   ∧ pressed inp SignUp = true
   ∧ acceptable (signup_username inp) (signup_password inp)
                (signup_confirm inp)
   ∧ users_of (disk b) !! signup_username inp = None)
  ∧ (history_json (disk (main inp b).2) ≠ history_json (disk b)
     ∨ llm_calls (disk (main inp b).2) ≠ llm_calls (disk b) →
     session_state (initialize_session_state b).2 !! lit "page"
     = Some (VStr (lit "dashboard"))
     ∧ authenticated (initialize_session_state b).2
     ∧ pressed inp Analyze = true
     ∧ pressed inp Logout = false).
Proof.
  rewrite main_route.
  assert (disk (initialize_session_state b).2 = disk b) as Hd
    by by rewrite initialize_session_state_spec.
  destruct (route_disk inp (initialize_session_state b).2)
    as [Hsame|[(Hp & Hs & Ha & Hf & Hr)|(Hp & Ha & Han & Hlo & Hu)]];
    rewrite Hd in *.
  - rewrite Hsame. split; [done|]. by intros [?|?].
  - split; [done|]. rewrite Hr, register_user_spec, Hf. cbn [snd].
    by intros [?|?].
  - split; [by rewrite Hu|]. done.
Qed.

Lemma get_attr_bind {A} name (k : value → ui A) b v :
  session_state b !! name = Some v →
  (let+ x := get_attr name in k x) b = k v b.
Proof. intros Hv. unfold ui_bind, get_attr. by rewrite Hv. Qed.

Lemma ui_bind_rerun {A B} (c : ui A) (k : A → ui B) b b' :
  c b = (Rerun, b') → ui_bind c k b = (Rerun, b').
Proof. intros Hc. unfold ui_bind. by rewrite Hc. Qed.

Lemma render_dashboard_logout inp b u :
  session_state b !! lit "username" = Some u →
  pressed inp Logout = true →
  render_dashboard inp b
  = (Rerun,
     {| disk := disk b;
        session_state :=
          <[lit "analysis_result" := VNone]>
          (<[lit "page" := VStr (lit "home")]>
          (<[lit "username" := VNone]>
          (<[lit "authenticated" := VBool false]> (session_state b))));
        shown := shown b |}).
Proof.
  intros Hu Hlo. unfold render_dashboard.
  rewrite (get_attr_bind _ _ _ _ Hu), Hlo. cbn [when].
  by apply ui_bind_rerun.
Qed.

(** X23: "Logout" on the dashboard of an authenticated session ends the
    run at once: the session is marked not authenticated, loses its
    username and its stored result and goes back to the home page, and
    the world is not touched, even with "Analyze Code" pressed in the
    same run. *)
Theorem logout_ends_the_session inp b :
  session_state b !! lit "page" = Some (VStr (lit "dashboard")) →
  authenticated b →
  pressed inp Logout = true →
  (main inp b).1 = Rerun
  ∧ disk (main inp b).2 = disk b
  ∧ shown (main inp b).2 = shown b
  ∧ session_state (main inp b).2
    = <[lit "analysis_result" := VNone]>
      (<[lit "page" := VStr (lit "home")]>
      (<[lit "username" := VNone]>
      (<[lit "authenticated" := VBool false]>
         (session_state b ∪ session_defaults))))
  ∧ ¬ authenticated (main inp b).2.
Proof.
  intros Hpage (a & Ha & Ht) Hlo. rewrite main_route, route_spec.
  rewrite initialize_session_state_spec. cbn [snd session_state].
  rewrite (lookup_union_Some_l _ _ _ _ Hpage).
  rewrite (lookup_union_Some_l _ _ _ _ Ha), Ht.
  change (value_is (VStr (lit "dashboard")) (lit "home")) with false.
  change (value_is (VStr (lit "dashboard")) (lit "login")) with false.
  change (value_is (VStr (lit "dashboard")) (lit "signup")) with false.
  change (value_is (VStr (lit "dashboard")) (lit "dashboard")) with true.
  cbv iota.
  assert (is_Some ((session_state b ∪ session_defaults) !! lit "username"))
    as [u Hu].
  { rewrite lookup_union. by destruct (session_state b !! lit "username"). }
  rewrite (render_dashboard_logout _ _ u); [|done|done].
  cbn [fst snd disk session_state shown]. split_and!; try done.
  intros (v & Hv & Hvt). revert Hv. cbn [session_state]. keys.
  intros [= <-]. done.
Qed.

(** ** The files as Python finds them *)

Lemma raw_load_json_file_spec p :
  raw_load_json_file p = (Returned (loaded p), p).
Proof. by destruct p as [c|[] w [|data]]. Qed.

Lemma raw_save_json_file_spec data p :
  raw_save_json_file data p
  = if can_write p then (Returned tt, written data p)
    else (Raised (lit "OSError"), p).
Proof. by destruct p as [[]|r [] c]. Qed.

Lemma loads_empty_loaded p : loads_empty p = true → loaded p = JDict [].
Proof. by destruct p as [c|[] w [|data]]. Qed.

Lemma dict_set_fresh (key : str) v items :
  dict_get key items = None → dict_set key v items = items ++ [(key, v)].
Proof.
  induction items as [|[k v'] items IH]; cbn [dict_get dict_set app]; [done|].
  destruct (eqb k key); [done|]. intros Hg. by rewrite IH.
Qed.

Lemma dict_get_set_eq (key : str) v items :
  dict_get key (dict_set key v items) = Some v.
Proof.
  induction items as [|[k v'] items IH]; cbn [dict_get dict_set].
  - unfold eqb. by rewrite bool_decide_eq_true_2.
  - destruct (eqb k key) eqn:Hk; cbn [dict_get]; by rewrite Hk.
Qed.

Lemma dict_get_set_ne (key other : str) v items :
  other ≠ key →
  dict_get other (dict_set key v items) = dict_get other items.
Proof.
  intros Hne.
  induction items as [|[k v'] items IH]; cbn [dict_get dict_set].
  - unfold eqb. by rewrite bool_decide_eq_false_2 by done.
  - destruct (eqb k key) eqn:Hk; cbn [dict_get]; [|by rewrite IH].
    apply bool_decide_eq_true_1 in Hk as ->.
    unfold eqb. by rewrite bool_decide_eq_false_2 by done.
Qed.

Lemma dict_set_set (key : str) v v' items :
  dict_set key v (dict_set key v' items) = dict_set key v items.
Proof.
  induction items as [|[k v''] items IH]; cbn [dict_set].
  - unfold eqb. by rewrite bool_decide_eq_true_2.
  - destruct (eqb k key) eqn:Hk; cbn [dict_set]; rewrite Hk; [done|].
    by rewrite IH.
Qed.

(** The three functions, as what they do with the value loaded. *)
Lemma raw_register_user_spec username password now p :
  raw_register_user username password now p
  = match py_in username (loaded p) with
    | Raised e => (Raised e, p)
    | Returned true => (Returned (false, lit "Username already exists"), p)
    | Returned false =>
        match raw_hash_password password with
        | Raised e => (Raised e, p)
        | Returned hashed =>
            match py_setitem (loaded p) username
                    (user_json {| stored_password := hashed;
                                  created_at := now |}) with
            | Raised e => (Raised e, p)
            | Returned users =>
                if can_write p then
                  (Returned (true, lit "Registration successful"),
                   written users p)
                else (Raised (lit "OSError"), p)
            end
        end
    end.
Proof.
  unfold raw_register_user, io_bind at 1. rewrite raw_load_json_file_spec.
  unfold io_bind at 1, io_of at 1.
  destruct (py_in username (loaded p)) as [e|[]]; [done|done|].
  unfold io_bind at 1, io_of at 1.
  destruct (raw_hash_password password) as [e|hashed]; [done|].
  unfold io_bind at 1, io_of at 1.
  destruct (py_setitem _ _ _) as [e|users]; [done|].
  unfold io_bind. rewrite raw_save_json_file_spec.
  by destruct (can_write p).
Qed.

Lemma raw_authenticate_user_spec username password p :
  raw_authenticate_user username password p
  = (match py_in username (loaded p) with
     | Raised e => Raised e
     | Returned false => Returned (false, lit "Username not found")
     | Returned true =>
         match py_getitem (loaded p) username with
         | Raised e => Raised e
         | Returned record =>
             match py_getitem record (lit "password") with
             | Raised e => Raised e
             | Returned stored_hash =>
                 match raw_hash_password password with
                 | Raised e => Raised e
                 | Returned hashed =>
                     if py_eq_str stored_hash hashed then
                       Returned (true, lit "Login successful")
                     else Returned (false, lit "Incorrect password")
                 end
             end
         end
     end, p).
Proof.
  unfold raw_authenticate_user, io_bind at 1. rewrite raw_load_json_file_spec.
  unfold io_bind at 1, io_of at 1.
  destruct (py_in username (loaded p)) as [e|[]]; [done| |done].
  cbn [negb]. unfold io_bind at 1, io_of at 1.
  destruct (py_getitem (loaded p) username) as [e|record]; [done|].
  unfold io_bind at 1, io_of at 1.
  destruct (py_getitem record _) as [e|stored_hash]; [done|].
  unfold io_bind, io_of.
  destruct (raw_hash_password password) as [e|hashed]; [done|].
  by destruct (py_eq_str stored_hash hashed).
Qed.

Lemma raw_save_analysis_to_history_spec username code language result now p :
  raw_save_analysis_to_history username code language result now p
  = match loaded p with
    | JDict items =>
        match default (JList []) (dict_get username items) with
        | JList analyses =>
            if can_write p then
              (Returned tt,
               written
                 (JDict (dict_set username
                           (JList (last_n 50
                                     (analyses
                                      ++ [entry_json
                                            (history_entry_of code language
                                                              result now)])))
                           items)) p)
            else (Raised (lit "OSError"), p)
        | _ => (Raised (lit "AttributeError"), p)
        end
    | _ => (Raised (lit "TypeError"), p)
    end.
Proof.
  unfold raw_save_analysis_to_history, io_bind at 1.
  rewrite raw_load_json_file_spec.
  destruct (loaded p) as [|b|n|s|elements|items].
  - done.
  - done.
  - done.
  - unfold io_bind, io_of, io_ret. cbn [py_in].
    by destruct (contains username s).
  - unfold io_bind, io_of, io_ret. cbn [py_in].
    by destruct (existsb _ elements).
  - unfold io_bind, io_of, io_ret. cbn [py_in].
    destruct (dict_get username items) as [v|] eqn:Hg;
      cbn [negb py_getitem py_setitem default].
    + rewrite Hg. destruct v; try done.
      cbn [py_append py_setitem py_getitem].
      rewrite dict_get_set_eq. cbn [py_last_50].
      rewrite dict_set_set, raw_save_json_file_spec. done.
    + rewrite dict_get_set_eq. cbn [py_append py_setitem py_getitem].
      rewrite dict_get_set_eq. cbn [py_last_50 py_setitem].
      rewrite !dict_set_set, raw_save_json_file_spec. done.
Qed.

(** C9, as amended: [load_json_file] returns for every state of the
    path and leaves it as it is. A file that is missing, cannot be
    opened for reading or does not parse is loaded as the empty dict; a
    file that parses is loaded as the value it holds, of whatever
    shape. When the file is loaded as the empty dict, login answers
    that the username is not found; and when moreover the file can be
    opened for writing the other two go on from the empty store:
    registration, of a password that encodes, leaves the one new user
    in it and an append the one new entry. When it cannot be opened for
    writing they raise [OSError] and leave it. *)
Theorem broken_files_load_as_empty (p : path) :
  (∃ data, raw_load_json_file p = (Returned data, p))
  ∧ (loads_empty p = true →
     raw_load_json_file p = (Returned (JDict []), p))
  ∧ (∀ writable data,
       p = Present true writable (Json data) →
       raw_load_json_file p = (Returned data, p))
  ∧ (loads_empty p = true →
     ∀ (username password now code language : str) (result : gmap str str),
       raw_authenticate_user username password p
       = (Returned (false, lit "Username not found"), p)
       ∧ (can_write p = true →
          (existsb is_surrogate password = false →
           raw_register_user username password now p
           = (Returned (true, lit "Registration successful"),
              written
                (JDict [(username,
                         user_json
                           {| stored_password := hash_password password;
                              created_at := now |})]) p))
          ∧ raw_save_analysis_to_history username code language result now p
            = (Returned tt,
               written
                 (JDict [(username,
                          JList [entry_json
                                   (history_entry_of code language
                                                     result now)])]) p))
       ∧ (can_write p = false →
          (existsb is_surrogate password = false →
           raw_register_user username password now p
           = (Raised (lit "OSError"), p))
          ∧ raw_save_analysis_to_history username code language result now p
            = (Raised (lit "OSError"), p))).
Proof.
  split_and!.
  - exists (loaded p). apply raw_load_json_file_spec.
  - intros He. by rewrite raw_load_json_file_spec, loads_empty_loaded.
  - intros writable data ->. apply raw_load_json_file_spec.
  - intros He username password now code language result.
    rewrite raw_authenticate_user_spec, raw_register_user_spec,
      raw_save_analysis_to_history_spec.
    rewrite (loads_empty_loaded _ He). unfold raw_hash_password.
    cbn [py_in dict_get py_setitem dict_set default].
    split_and!; [done|..].
    + intros ->. split; [by intros ->|done].
    + intros ->. split; [by intros ->|done].
Qed.

(** X14: [register_user] on any state of the users file. A call that
    raises leaves the file as it was, and raises [TypeError] (the value
    loaded is no dict), [UnicodeEncodeError] (the password does not
    encode) or [OSError] (the file cannot be opened for writing). A
    call that answers False leaves the file as it was: the username is
    in the value loaded. A call that answers True found a dict without
    the username and leaves in the file that dict, every item as it
    was and in its place, with the new record at the end. On a dict the
    answer is decided by the username, the password and the file being
    writable; on another value no call answers True. *)
Theorem register_user_outcomes username password now (p : path) :
  let out := raw_register_user username password now p in
  let record :=
    user_json {| stored_password := hash_password password;
                 created_at := now |} in
  (∀ e, out.1 = Raised e →
        out.2 = p
        ∧ (e = lit "TypeError" ∨ e = lit "UnicodeEncodeError"
           ∨ e = lit "OSError"))
  ∧ (∀ message, out.1 = Returned (false, message) →
        out.2 = p
        ∧ message = lit "Username already exists"
        ∧ py_in username (loaded p) = Returned true)
  ∧ (∀ message, out.1 = Returned (true, message) →
        message = lit "Registration successful"
        ∧ can_write p = true
        ∧ existsb is_surrogate password = false
        ∧ ∃ items, loaded p = JDict items
                   ∧ dict_get username items = None
                   ∧ out.2 = written (JDict (items ++ [(username, record)])) p)
  ∧ (∀ items, loaded p = JDict items →
        (is_Some (dict_get username items) →
         out = (Returned (false, lit "Username already exists"), p))
        ∧ (dict_get username items = None →
           out.1 = if existsb is_surrogate password
                   then Raised (lit "UnicodeEncodeError")
                   else if can_write p
                        then Returned (true, lit "Registration successful")
                        else Raised (lit "OSError")))
  ∧ ((∀ items, loaded p ≠ JDict items) →
     out = (Returned (false, lit "Username already exists"), p)
     ∨ ∃ e, out = (Raised e, p)).
Proof.
  cbv zeta. rewrite raw_register_user_spec. unfold raw_hash_password.
  destruct (loaded p) as [|b|n|s|elements|items] eqn:Hl; cbn [py_in py_setitem].
  1-3: by split_and!; [intros e [= <-]; auto|try done..|intros _; right; eauto].
  - destruct (contains username s); [|destruct (existsb is_surrogate password)].
    all: split_and!; [intros e; try done; intros [= <-]; auto
                     |intros m; try done; by intros [= <-]
                     |done|done|intros _; eauto].
  - destruct (existsb _ elements); [|destruct (existsb is_surrogate password)].
    all: split_and!; [intros e; try done; intros [= <-]; auto
                     |intros m; try done; by intros [= <-]
                     |done|done|intros _; eauto].
  - destruct (dict_get username items) as [v|] eqn:Hg.
    + split_and!; [done|by intros m [= <-]|done| |by intros H; destruct (H items)].
      intros items' [= <-]. rewrite Hg. by split.
    + destruct (existsb is_surrogate password) eqn:Hs;
        [|destruct (can_write p) eqn:Hw]; cbn [fst snd];
        rewrite ?(dict_set_fresh _ _ _ Hg).
      all: split_and!;
        [intros e; try done; intros [= <-]; auto
        |try done
        |intros m; try done; intros [= <-]; split_and!; try done; by exists items
        |intros items' [= <-]; rewrite Hg; split; [by intros [? ?]|done]
        |by intros H; destruct (H items)].
Qed.

Lemma last_n_nil {A} (n : nat) : last_n n (@nil A) = [].
Proof. done. Qed.

(** X12: [save_analysis_to_history] on any state of the history file.
    A call that raises leaves the file as it was, and raises
    [TypeError] (the value loaded is no dict), [AttributeError] (the
    dict holds under the username something that is no list) or
    [OSError] (the file cannot be opened for writing). It returns
    exactly when the file can be opened for writing and the value
    loaded is a dict that holds a list under the username, or nothing.
    The file then holds that dict with, under the username, the last 50
    of the list and the new entry; every other user has what they had,
    and no key is lost or moved. *)
Theorem append_outcomes username code language result now (p : path) :
  let out := raw_save_analysis_to_history username code language result now p in
  let entry := entry_json (history_entry_of code language result now) in
  (∀ e, out.1 = Raised e →
        out.2 = p
        ∧ (e = lit "TypeError" ∨ e = lit "AttributeError"
           ∨ e = lit "OSError"))
  ∧ (out.1 = Returned tt
     ↔ can_write p = true
       ∧ ∃ items, loaded p = JDict items
                  ∧ (dict_get username items = None
                     ∨ ∃ analyses,
                         dict_get username items = Some (JList analyses)))
  ∧ (out.1 = Returned tt →
     ∃ items analyses items',
       loaded p = JDict items
       ∧ default (JList []) (dict_get username items) = JList analyses
       ∧ items' = dict_set username
                    (JList (last_n 50 (analyses ++ [entry]))) items
       ∧ out.2 = written (JDict items') p
       ∧ dict_get username items'
         = Some (JList (last_n 50 (analyses ++ [entry])))
       ∧ (∀ other, other ≠ username →
                   dict_get other items' = dict_get other items)
       ∧ (dict_get username items = None →
          items' = items ++ [(username, JList [entry])])
       ∧ (is_Some (dict_get username items) → items'.*1 = items.*1)).
Proof.
  cbv zeta. rewrite raw_save_analysis_to_history_spec.
  destruct (loaded p) as [|b|n|s|elements|items] eqn:Hl.
  1-5: by split_and!;
         [intros e [= <-]; auto
         |split; [done|intros (_ & items & ? & _); done]
         |done].
  destruct (default (JList []) (dict_get username items))
    as [|b|n|s|analyses|d] eqn:Hd.
  1-4,6: split_and!;
         [intros e [= <-]; auto
         |split; [done|]; intros (_ & items' & [= <-] & [Hg|[a Hg]]);
            by rewrite Hg in Hd
         |done].
  destruct (can_write p) eqn:Hw; cbn [fst snd].
  - split_and!; [done| |].
    + split; [intros _|done]. split; [done|]. exists items. split; [done|].
      destruct (dict_get username items) as [v|]; [right|by left].
      simpl in Hd. subst v. by exists analyses.
    + intros _. exists items, analyses. eexists. split_and!; try done.
      * apply dict_get_set_eq.
      * intros other Hne. by apply dict_get_set_ne.
      * intros Hg. rewrite Hg in Hd. injection Hd as <-.
        by rewrite (dict_set_fresh _ _ _ Hg).
      * intros Hs. clear Hl Hd.
        induction items as [|[k v] items IH]; cbn [dict_get dict_set] in *.
        { by destruct Hs. }
        destruct (eqb k username); [done|].
        rewrite !fmap_cons. by rewrite IH.
  - split_and!; [intros e [= <-]; auto| |done].
    split; [done|by intros [? _]].
Qed.

Lemma raw_save_analysis_to_history_raised username code language result now
    p e :
  (raw_save_analysis_to_history username code language result now p).1
  = Raised e →
  (raw_save_analysis_to_history username code language result now p).2 = p.
Proof.
  rewrite raw_save_analysis_to_history_spec.
  destruct (loaded p); try done.
  destruct (default _ _); try done.
  by destruct (can_write p).
Qed.

Lemma raw_analysis_execution_spec code_input selected_language now w p :
  raw_analysis_execution code_input selected_language now (w, p)
  = if blank code_input then
      (Returned tt,
       ((st_error (lit "Please enter or upload code to analyze") w).2, p))
    else if api_key_missing then
      (Returned tt,
       ((st_error (lit "Groq API key not configured. Please set GROQ_API_KEY in .env file") w).2,
        p))
    else
      let w1 := (chat_completion (chat_request code_input selected_language)
                                 w).2 in
      match groq (chat_request code_input selected_language) with
      | Raised e =>
          (Returned tt, ((st_error (lit "AI Analysis Error: " ++ e) w1).2, p))
      | Returned text =>
          let result := parse_structured_response text in
          let w2 := (set_analysis_result result w1).2 in
          let saved :=
            raw_save_analysis_to_history (session_username w) code_input
              selected_language result now p in
          match saved.1 with
          | Raised e => (Raised e, (w2, saved.2))
          | Returned _ =>
              (Returned tt, ((set_page (lit "results") w2).2, saved.2))
          end
      end.
Proof.
  unfold raw_analysis_execution. rewrite blank_test.
  destruct (blank code_input); [done|].
  unfold rpy_bind at 1, in_world at 1. cbn [fst snd].
  rewrite analyze_code_with_ai_spec.
  destruct api_key_missing; [by rewrite lookup_singleton_eq|].
  destruct (groq (chat_request code_input selected_language)) as [e|text].
  { by rewrite lookup_singleton_eq. }
  rewrite parse_lookup_error. cbv zeta.
  unfold rpy_bind, in_world, in_history, set_analysis_result, get_username,
    set_page, chat_completion.
  cbn [fst snd session_username].
  by destruct (raw_save_analysis_to_history _ _ _ _ _ p) as [[e|[]] p'].
Qed.

(** X8: the analysis block of the dashboard, whatever the history file
    holds. It never touches the users file or the session's username,
    and ends in one of three ways. It returns having shown exactly one
    error, with the history file, the stored result and the page as
    they were: the code was blank, the API key missing, or the provider
    raised. Or the provider replied: then no error is shown and the
    parsed reply, which has no "error", is stored in the session before
    the history is saved under the session's username; when that save
    returns, the block goes to the results page; when it raises, its
    exception escapes the block with the result already stored, the
    page as it was and the history file untouched. *)
Theorem analysis_block_three_ways code_input selected_language now w p :
  let out := raw_analysis_execution code_input selected_language now (w, p) in
  let w' := out.2.1 in
  let p' := out.2.2 in
  users_json w' = users_json w
  ∧ session_username w' = session_username w
  ∧ ((out.1 = Returned tt
      ∧ (blank code_input = true ∨ api_key_missing = true
         ∨ ∃ e, groq (chat_request code_input selected_language) = Raised e)
      ∧ (∃ message, errors_shown w' = errors_shown w ++ [message])
      ∧ p' = p
      ∧ session_analysis_result w' = session_analysis_result w
      ∧ session_page w' = session_page w)
     ∨ (∃ text result,
          blank code_input = false
          ∧ api_key_missing = false
          ∧ groq (chat_request code_input selected_language) = Returned text
          ∧ result = parse_structured_response text
          ∧ result !! lit "error" = None
          ∧ errors_shown w' = errors_shown w
          ∧ session_analysis_result w' = Some result
          ∧ let saved :=
              raw_save_analysis_to_history (session_username w) code_input
                selected_language result now p in
            p' = saved.2
            ∧ ((saved.1 = Returned tt
                ∧ out.1 = Returned tt
                ∧ session_page w' = lit "results")
               ∨ (∃ e, saved.1 = Raised e
                       ∧ out.1 = Raised e
                       ∧ session_page w' = session_page w
                       ∧ p' = p)))).
Proof.
  cbv zeta. rewrite raw_analysis_execution_spec.
  destruct (blank code_input) eqn:Hb.
  { split_and!; [done|done|]. left. split_and!; eauto. }
  destruct api_key_missing eqn:Hk.
  { split_and!; [done|done|]. left. split_and!; eauto. }
  cbv zeta.
  destruct (groq (chat_request code_input selected_language)) as [e|text]
    eqn:Hg.
  { split_and!; [done|done|]. left. split_and!; eauto. }
  pose proof (raw_save_analysis_to_history_raised (session_username w)
                code_input selected_language (parse_structured_response text)
                now p) as Hraised.
  destruct (raw_save_analysis_to_history _ _ _ _ _ p) as [[e|[]] p1] eqn:Hs;
    cbn [fst snd] in *.
  - split_and!; [done|done|]. right.
    exists text, (parse_structured_response text). rewrite Hs. cbn [fst snd].
    split_and!; try done; [apply parse_lookup_error|].
    right. exists e. split_and!; try done. by apply (Hraised e).
  - split_and!; [done|done|]. right.
    exists text, (parse_structured_response text). rewrite Hs. cbn [fst snd].
    split_and!; try done; [apply parse_lookup_error|]. by left.
Qed.

(** ** The two models of the stores agree on working stores *)

Lemma map_of_items_lookup {A} (decode : json → option A) items :
  ∀ (m : gmap str A) (key : str),
  map_of_items decode items = Some m →
  match dict_get key items with
  | None => m !! key = None
  | Some v => ∃ a, decode v = Some a ∧ m !! key = Some a
  end.
Proof.
  induction items as [|[k v] items IH]; intros m key; cbn [map_of_items dict_get].
  - by intros [= <-].
  - destruct (decode v) as [a|] eqn:Hv; [|done].
    destruct (map_of_items decode items) as [m'|]; [|done].
    case_bool_decide as Hk; [|done]. intros [= <-].
    unfold eqb. case_bool_decide as Heq.
    + subst k. exists a. by rewrite lookup_insert_eq.
    + rewrite lookup_insert_ne by done. by apply IH.
Qed.

Lemma map_of_items_set {A} (decode : json → option A) items :
  ∀ (m : gmap str A) (key : str) v a,
  map_of_items decode items = Some m →
  decode v = Some a →
  map_of_items decode (dict_set key v items) = Some (<[key := a]> m).
Proof.
  induction items as [|[k v'] items IH]; intros m key v a;
    cbn [map_of_items dict_set].
  - intros [= <-] ->. by rewrite bool_decide_eq_true_2.
  - destruct (decode v') as [a'|] eqn:Hv'; [|done].
    destruct (map_of_items decode items) as [m'|] eqn:Hm'; [|done].
    case_bool_decide as Hk; [|done]. intros [= <-] Hv.
    unfold eqb. case_bool_decide as Heq; cbn [map_of_items].
    + subst k. rewrite Hv, Hm'. rewrite bool_decide_eq_true_2 by done.
      by rewrite insert_insert_eq.
    + rewrite Hv', (IH m' key v a eq_refl Hv).
      rewrite bool_decide_eq_true_2 by by rewrite lookup_insert_ne.
      by rewrite insert_insert_ne.
Qed.

Lemma file_of_loaded {A} (decode : json → option A) (p : path)
    (f : file (gmap str A)) :
  file_of decode p = Some f →
  can_write p = true
  ∧ ∃ items, loaded p = JDict items
             ∧ map_of_items decode items = Some (stored f)
             ∧ ∀ items' m,
                 map_of_items decode items' = Some m →
                 file_of decode (written (JDict items') p) = Some (Stored m).
Proof.
  destruct p as [[]|[] [] [|data]]; try done.
  - intros [= <-]. split; [done|]. exists []. split_and!; [done|done|].
    intros items' m Hm. cbn [written file_of]. by rewrite Hm.
  - intros [= <-]. split; [done|]. exists []. split_and!; [done|done|].
    intros items' m Hm. cbn [written file_of]. by rewrite Hm.
  - destruct data as [| | | | |items]; try done. cbn [file_of].
    destruct (map_of_items decode items) as [m|] eqn:Hm; [|done].
    intros [= <-]. split; [done|]. exists items. split_and!; [done|done|].
    intros items' m' Hm'. cbn [written file_of]. by rewrite Hm'.
Qed.

Lemma user_of_json_password v r :
  user_of_json v = Some r →
  py_getitem v (lit "password") = Returned (JStr (stored_password r)).
Proof.
  destruct v as [| | | | |items]; try done.
  destruct items as [|[k1 [| | |hashed| |]] items]; try done.
  destruct items as [|[k2 [| | |now| |]] items]; try done.
  destruct items; [|done]. cbn [user_of_json].
  destruct (eqb k1 (lit "password")) eqn:H1; [|done].
  destruct (eqb k2 (lit "created_at")); [|done].
  intros [= <-]. cbn [py_getitem dict_get]. by rewrite H1.
Qed.

Lemma entries_of_json_inv v l :
  entries_of_json v = Some l →
  ∃ elements, v = JList elements ∧ mapM entry_of_json elements = Some l.
Proof. destruct v; try done. intros Hm. by eexists. Qed.

Lemma entry_of_json_entry e : entry_of_json (entry_json e) = Some e.
Proof. by destruct e. Qed.

Lemma entries_of_json_append elements l e :
  mapM entry_of_json elements = Some l →
  entries_of_json (JList (last_n 50 (elements ++ [entry_json e])))
  = Some (last_n 50 (l ++ [e])).
Proof.
  intros Hm. cbn [entries_of_json]. apply mapM_Some in Hm.
  apply mapM_Some. unfold last_n.
  assert (Forall2 (λ x y, entry_of_json x = Some y)
            (elements ++ [entry_json e]) (l ++ [e])) as Hall.
  { apply Forall2_app; [done|]. constructor; [apply entry_of_json_entry|done]. }
  rewrite (Forall2_length _ _ _ Hall). by apply Forall2_drop.
Qed.

Lemma user_of_json_user r : user_of_json (user_json r) = Some r.
Proof. by destruct r. Qed.

(** X24: on a users file that is a working store, and for a password
    that encodes, the two models of the store agree: login answers the
    same in both and leaves the file; registration answers the same in
    both, and the file it leaves is again a working store, the one the
    first model says. *)
Theorem users_models_agree username password now (p : path) (w : world) :
  users_file_of p = Some (users_json w) →
  existsb is_surrogate password = false →
  raw_authenticate_user username password p
  = ((authenticate_user username password w).1, p)
  ∧ (raw_register_user username password now p).1
    = (register_user username password now w).1
  ∧ users_file_of (raw_register_user username password now p).2
    = Some (users_json (register_user username password now w).2).
Proof.
  intros Hp Hs.
  destruct (file_of_loaded _ _ _ Hp) as (Hw & items & Hl & Hm & Hwritten).
  pose proof (map_of_items_lookup _ _ _ username Hm) as Hu.
  rewrite raw_authenticate_user_spec, raw_register_user_spec,
    authenticate_user_spec, register_user_spec.
  unfold raw_hash_password. rewrite Hs, Hl, Hw. unfold users_of.
  cbn [py_in py_getitem py_setitem].
  destruct (dict_get username items) as [v|] eqn:Hg.
  - destruct Hu as (r & Hv & ->). cbn [fst snd].
    rewrite (user_of_json_password _ _ Hv). cbn [py_eq_str]. unfold eqb.
    split_and!; [by case_bool_decide|done|done].
  - rewrite Hu. cbn [fst snd]. split_and!; [done|done|].
    apply Hwritten. apply map_of_items_set; [done|apply user_of_json_user].
Qed.

(** X25: on a history file that is a working store the two models of
    the store agree on an append: it returns in both, and the file it
    leaves is again a working store, the one the first model says. *)
Theorem history_models_agree username code language result now
    (p : path) (w : world) :
  history_file_of p = Some (history_json w) →
  (raw_save_analysis_to_history username code language result now p).1
  = (save_analysis_to_history username code language result now w).1
  ∧ history_file_of
      (raw_save_analysis_to_history username code language result now p).2
    = Some (history_json
              (save_analysis_to_history username code language result now
                                        w).2).
Proof.
  intros Hp.
  destruct (file_of_loaded _ _ _ Hp) as (Hw & items & Hl & Hm & Hwritten).
  pose proof (map_of_items_lookup _ _ _ username Hm) as Hu.
  rewrite raw_save_analysis_to_history_spec, save_analysis_to_history_spec.
  rewrite Hl, Hw. unfold history_of.
  destruct (dict_get username items) as [v|] eqn:Hg; cbn [default].
  - destruct Hu as (l & Hv & ->).
    apply entries_of_json_inv in Hv as (elements & -> & Hv).
    cbn [fst snd default]. split; [done|].
    apply Hwritten. apply map_of_items_set; [done|].
    by apply entries_of_json_append.
  - rewrite Hu. cbn [fst snd default]. split; [done|].
    apply Hwritten. apply map_of_items_set; [done|].
    by apply (entries_of_json_append []).
Qed.

End App.

(** ** Concrete runs *)

(** The scenario of the three calls: alice registers, a wrong password
    is refused, the right one is accepted. *)
Example scenario_alice :
  register_user toy_digest (lit "alice") (lit "secret1")
                (lit "2024-01-01T00:00:00") world0
  = (Returned (true, lit "Registration successful"), world_alice)
  ∧ authenticate_user toy_digest (lit "alice") (lit "wrong") world_alice
    = (Returned (false, lit "Incorrect password"), world_alice)
  ∧ authenticate_user toy_digest (lit "alice") (lit "secret1") world_alice
    = (Returned (true, lit "Login successful"), world_alice).
Proof. split_and!; reflexivity. Qed.

(** The four sections of [sample_reply], each under its header. *)
Example sample_reply_parsed :
  parse_structured_response sample_reply
  = <[lit "code_review" := lit "## Code Review" ++ nl :: lit "- the loop never ends"]>
    (<[lit "optimization" :=
         lit "## Optimization Suggestions" ++ nl :: lit "- cache the length"]>
    (<[lit "security" := lit "## Security Issues" ++ nl :: lit "- none"]>
    (<[lit "refactored_code" := lit "## Refactored Code" ++ nl :: lit "x = 1"]>
    (<[lit "raw_analysis" := sample_reply]> ∅)))).
Proof. by vm_compute. Qed.

(** A header inside a longer line opens its section, and the first
    header of the table wins. *)
Example header_inside_line :
  header_of (lit "Section: ## Code Review details") = Some (lit "code_review")
  ∧ header_of (lit "## Security Issues and ## Code Review")
    = Some (lit "code_review").
Proof. split; reflexivity. Qed.


Lemma extractor_sections_start_with_header_witness :
  lit "security" ∈ section_keys
  ∧ header_of (lit "## Security Issues") = Some (lit "security")
  ∧ (loop_after sample_reply
       [lit "## Code Review"; lit "- the loop never ends";
        lit "## Optimization Suggestions"; lit "- cache the length";
        lit "## Security Issues"]).1
    = Some (lit "security")
  ∧ accumulate_sections sample_reply !! lit "security"
    = Some (ln "## Security Issues" ++ ln "- none").
Proof.
  assert (lit "security" ∈ section_keys) as Hk.
  { apply (bool_decide_unpack _). by vm_compute. }
  assert (header_of (lit "## Security Issues") = Some (lit "security"))
    as Hh by reflexivity.
  split; [exact Hk|]. split; [exact Hh|].
  destruct (extractor_sections_start_with_header sample_reply _ Hk)
    as (_ & _ & _ & Hline & _).
  destruct (Hline [lit "## Code Review"; lit "- the loop never ends";
                   lit "## Optimization Suggestions";
                   lit "- cache the length"]
                  (lit "## Security Issues")
                  [lit "- none"; lit "## Refactored Code"; lit "x = 1"]
                  eq_refl Hh)
    as (before & Hbefore & Hstep & _ & Hall).
  split.
  - exact (f_equal fst Hstep).
  - rewrite Hall. vm_compute in Hbefore. injection Hbefore as <-.
    reflexivity.
Defined.

(** The statement of C1 as it stands fails on a header line that begins
    with a space: the section starts with the header, not with the
    line. *)
Lemma indented_header_line_is_no_prefix :
  ¬ (∀ (text key : str) pre hl post body,
       key ∈ section_keys →
       split nl text = pre ++ hl :: post →
       Forall (λ l, header_of l ≠ Some key) pre →
       header_of hl = Some key →
       parse_structured_response text !! key = Some body →
       body ≠ [] →
       hl `prefix_of` body).
Proof.
  intros Hall.
  destruct (Hall (lit " ## Code Review") (lit "code_review")
                 [] (lit " ## Code Review") [] (lit "## Code Review"))
    as [k Hk].
  - apply list_elem_of_here.
  - reflexivity.
  - constructor.
  - reflexivity.
  - by vm_compute.
  - done.
  - by vm_compute in Hk.
Qed.

Lemma extractor_no_headers_witness :
  parse_structured_response (lit "nothing to report") !! lit "code_review"
  = Some [].
Proof.
  rewrite (extractor_no_headers (lit "nothing to report")); [reflexivity|].
  intros line header key Hl Hs.
  change (split nl (lit "nothing to report"))
    with [lit "nothing to report"] in Hl.
  apply list_elem_of_singleton in Hl as ->.
  unfold sections in Hs.
  repeat (apply elem_of_cons in Hs as [[= -> ->]|Hs]; [reflexivity|]).
  by apply elem_of_nil in Hs.
Defined.

Lemma history_keeps_last_50_witness :
  history_of world0 (lit "alice") = []
  ∧ length (entries_for (lit "alice") calls55) = 55%nat
  ∧ history_of (save_all calls55 world0).2 (lit "alice")
    = drop 5 (entries_for (lit "alice") calls55)
  ∧ length (history_of (save_all calls55 world0).2 (lit "alice")) = 50%nat.
Proof.
  assert (history_of world0 (lit "alice") = []) as H0 by reflexivity.
  assert (length (entries_for (lit "alice") calls55) = 55%nat) as H55
    by (by vm_compute).
  split; [exact H0|]. split; [exact H55|].
  exact (proj2 (proj2 (history_keeps_last_50 calls55 world0 (lit "alice")))
           H0 H55).
Defined.

Lemma authenticate_user_outcome_witness :
  (authenticate_user toy_digest (lit "alice") (lit "wrong") world_alice).1
  = Returned (false, lit "Incorrect password").
Proof.
  refine (proj1 (proj2 (proj2 (proj2
            (authenticate_user_outcome toy_digest (lit "alice") (lit "wrong")
                                       world_alice))))
            {| stored_password := toy_digest (lit "secret1");
               created_at := lit "2024-01-01T00:00:00" |} _ _).
  - reflexivity.
  - by vm_compute.
Defined.

Lemma register_user_existing_witness :
  register_user toy_digest (lit "alice") (lit "other")
                (lit "2024-02-02T00:00:00") world_alice
  = (Returned (false, lit "Username already exists"), world_alice).
Proof.
  refine (proj1 (register_user_existing toy_digest (lit "alice") (lit "other")
                   (lit "2024-02-02T00:00:00") world_alice)
            {| stored_password := toy_digest (lit "secret1");
               created_at := lit "2024-01-01T00:00:00" |} _).
  reflexivity.
Defined.


Lemma stores_frame_witness :
  users_of (register_user toy_digest (lit "bob") (lit "hunter2")
              (lit "2024-03-03T00:00:00") world_alice).2 !! lit "alice"
  = users_of world_alice !! lit "alice".
Proof.
  refine (proj1 (proj2 (stores_frame toy_digest (lit "bob") world_alice)
                   (lit "hunter2") (lit "2024-03-03T00:00:00"))
            (lit "alice")
            {| stored_password := toy_digest (lit "secret1");
               created_at := lit "2024-01-01T00:00:00" |} _).
  reflexivity.
Defined.

Lemma history_entry_fields_witness :
  ∃ e, last (history_of
               (save_analysis_to_history (lit "alice") (lit "x = 1")
                  (lit "Python") (parse_structured_response sample_reply)
                  (lit "2024-01-01T00:00:00") world0).2 (lit "alice"))
       = Some e
       ∧ code_snippet e = lit "x = 1".
Proof.
  destruct (history_entry_fields (lit "alice") (lit "x = 1") (lit "Python")
              (parse_structured_response sample_reply)
              (lit "2024-01-01T00:00:00") world0)
    as (e & Hlast & _ & _ & Hshort & _).
  exists e. split; [exact Hlast|]. apply Hshort. vm_compute. lia.
Defined.

Lemma provider_fault_gives_error_only_witness :
  (analyze_code_with_ai (Some (lit "gsk")) provider_down
     (lit "x = 1") (lit "Python") world0).1
  = Returned {[ lit "error" := lit "AI Analysis Error: Connection error." ]}.
Proof.
  refine (proj1 (proj1 (proj2
            (provider_fault_gives_error_only (Some (lit "gsk")) provider_down
               (lit "x = 1") (lit "Python") (lit "2024-01-01T00:00:00")
               world0))
            (lit "Connection error.") _ _)); reflexivity.
Defined.

(** The statement of C5 as it stands fails when the API key is not
    configured: the message then has no "AI Analysis Error: " before
    it. *)
Lemma missing_api_key_error_has_no_prefix :
  ¬ (∀ (GROQ_API_KEY : option str) groq code language w,
       api_key_missing GROQ_API_KEY = true
       ∨ (∃ e, groq (chat_request code language) = Raised e) →
       ∃ message,
         (analyze_code_with_ai GROQ_API_KEY groq code language w).1
         = Returned {[ lit "error" := lit "AI Analysis Error: " ++ message ]}).
Proof.
  intros Hall.
  destruct (Hall None provider_replies (lit "x = 1") (lit "Python") world0)
    as [message Hm]; [by left|].
  rewrite analyze_code_with_ai_spec in Hm.
  change (api_key_missing None) with true in Hm. cbn [fst] in Hm.
  apply (f_equal (λ o : outcome (gmap str str),
                    match o with
                    | Returned m => m !! lit "error"
                    | Raised _ => None
                    end)) in Hm.
  rewrite !lookup_singleton_eq in Hm. by vm_compute in Hm.
Qed.

Lemma blank_code_rejected_by_caller_only_witness :
  blank (lit "   ") = true
  ∧ analysis_execution (Some (lit "gsk")) provider_replies (lit "   ")
      (lit "Python") (lit "2024-01-01T00:00:00") world0
    = st_error (lit "Please enter or upload code to analyze") world0.
Proof.
  assert (blank (lit "   ") = true) as Hb by reflexivity.
  split; [exact Hb|].
  exact (proj1 (proj1 (blank_code_rejected_by_caller_only (Some (lit "gsk"))
                         provider_replies (lit "   ") (lit "Python")
                         (lit "2024-01-01T00:00:00") world0 Hb))).
Defined.

(** The statement of C6 as it stands fails: called with blank code and
    a configured key, [analyze_code_with_ai] sends the request and
    returns the parsed reply, with no "error" key. *)
Lemma core_forwards_blank_code :
  ¬ (∀ (GROQ_API_KEY : option str) groq code language w,
       blank code = true →
       llm_calls (analyze_code_with_ai GROQ_API_KEY groq code language w).2
       = llm_calls w
       ∧ ∃ result,
           (analyze_code_with_ai GROQ_API_KEY groq code language w).1
           = Returned result
           ∧ is_Some (result !! lit "error")).
Proof.
  intros Hall.
  destruct (Hall (Some (lit "gsk")) provider_replies (lit "   ")
                 (lit "Python") world0) as [Hcalls _]; [reflexivity|].
  by vm_compute in Hcalls.
Qed.

(** ** Concrete runs of the further properties *)

Lemma parsed_sections_stripped_witness :
  parse_structured_response sample_reply !! lit "security"
  = Some (lit "## Security Issues" ++ nl :: lit "- none")
  ∧ is_space 35 = false.
Proof.
  assert (parse_structured_response sample_reply !! lit "security"
          = Some (lit "## Security Issues" ++ nl :: lit "- none")) as Hs
    by (by vm_compute).
  split; [exact Hs|].
  refine (proj1 (parsed_sections_stripped sample_reply (lit "security")
                   (lit "## Security Issues" ++ nl :: lit "- none") _ Hs)
            35 eq_refl).
  apply (bool_decide_unpack _). by vm_compute.
Defined.

Lemma header_of_first_substring_witness :
  header_of (lit "see ## Security Issues below") = Some (lit "security").
Proof.
  apply (proj1 (header_of_first_substring _)).
  exists 2%nat, (lit "## Security Issues"). split; [reflexivity|]. split.
  - by exists (lit "see "), (lit " below").
  - intros j hk Hj Hjk.
    apply (proj1 (not_contains_iff _ _)).
    destruct j as [|[|j]]; [injection Hjk as <-|injection Hjk as <-|lia];
      reflexivity.
Defined.

Lemma sections_are_their_blocks_witness :
  parse_structured_response sample_reply !! lit "security"
  = Some (strip (blocks_text (lit "security")
                   [ {| block_key := lit "code_review";
                        block_header := lit "## Code Review";
                        block_body := [lit "- the loop never ends"] |};
                     {| block_key := lit "optimization";
                        block_header := lit "## Optimization Suggestions";
                        block_body := [lit "- cache the length"] |};
                     {| block_key := lit "security";
                        block_header := lit "## Security Issues";
                        block_body := [lit "- none"] |};
                     {| block_key := lit "refactored_code";
                        block_header := lit "## Refactored Code";
                        block_body := [lit "x = 1"] |} ])).
Proof.
  apply (proj2 (sections_are_their_blocks sample_reply) []).
  - apply (bool_decide_unpack _). by vm_compute.
  - by vm_compute.
  - constructor.
  - repeat constructor.
Defined.

Lemma preamble_changes_no_section_witness :
  parse_structured_response (lit "Sure, here it is:" ++ nl :: sample_reply)
    !! lit "code_review"
  = parse_structured_response sample_reply !! lit "code_review".
Proof.
  apply preamble_changes_no_section.
  - apply (bool_decide_unpack _). by vm_compute.
  - repeat constructor.
Defined.

Lemma analysis_result_shape_witness :
  dom (parse_structured_response sample_reply)
  = {[ lit "error" ]}
    ∧ (api_key_missing (Some (lit "gsk")) = true
       ∨ ∃ e, provider_replies (chat_request (lit "x = 1") (lit "Python"))
              = Raised e)
  ∨ dom (parse_structured_response sample_reply)
    = {[ lit "code_review"; lit "optimization"; lit "security";
         lit "refactored_code"; lit "raw_analysis" ]}
    ∧ parse_structured_response sample_reply !! lit "error" = None
    ∧ api_key_missing (Some (lit "gsk")) = false
    ∧ ∃ text, provider_replies (chat_request (lit "x = 1") (lit "Python"))
              = Returned text
              ∧ parse_structured_response sample_reply
                = parse_structured_response text
              ∧ parse_structured_response sample_reply !! lit "raw_analysis"
                = Some text.
Proof.
  apply (analysis_result_shape (Some (lit "gsk")) provider_replies
           (lit "x = 1") (lit "Python") world0).
  reflexivity.
Defined.

Lemma all_flagged_world0 : all_flagged world0.
Proof. intros username e Hin. by apply elem_of_nil in Hin. Defined.

Lemma analysis_block_keeps_flags_witness :
  all_flagged
    (analysis_execution (Some (lit "gsk")) provider_replies (lit "x = 1")
       (lit "Python") (lit "2024-01-01T00:00:00") world0).2.
Proof.
  exact (analysis_block_keeps_flags (Some (lit "gsk")) provider_replies
           (lit "x = 1") (lit "Python") (lit "2024-01-01T00:00:00") world0
           all_flagged_world0).
Defined.

Lemma append_evicts_oldest_when_full_witness :
  history_of
    (save_analysis_to_history (lit "alice") (lit "x = 1") (lit "Python")
       (parse_structured_response sample_reply) (lit "2024-01-01T00:00:00")
       world0).2 (lit "alice")
  = history_of world0 (lit "alice")
    ++ [history_entry_of (lit "x = 1") (lit "Python")
          (parse_structured_response sample_reply)
          (lit "2024-01-01T00:00:00")].
Proof.
  apply (proj1 (proj2 (append_evicts_oldest_when_full (lit "alice")
                         (lit "x = 1") (lit "Python")
                         (parse_structured_response sample_reply)
                         (lit "2024-01-01T00:00:00") world0))).
  vm_compute. lia.
Defined.

Lemma register_then_authenticate_witness :
  authenticate_user toy_digest (lit "alice") (lit "secret1")
    (register_user toy_digest (lit "alice") (lit "secret1")
       (lit "2024-01-01T00:00:00") world0).2
  = (Returned (true, lit "Login successful"),
     (register_user toy_digest (lit "alice") (lit "secret1")
        (lit "2024-01-01T00:00:00") world0).2).
Proof.
  apply (proj1 (proj2 (register_then_authenticate toy_digest (lit "alice")
                         (lit "secret1") (lit "2024-01-01T00:00:00") world0
                         eq_refl))).
Defined.


Lemma register_keeps_other_logins_witness :
  (authenticate_user toy_digest (lit "alice") (lit "secret1")
     (register_user toy_digest (lit "bob") (lit "hunter2")
        (lit "2024-03-03T00:00:00") world_alice).2).1
  = (authenticate_user toy_digest (lit "alice") (lit "secret1") world_alice).1.
Proof.
  apply register_keeps_other_logins. by vm_compute.
Defined.

Lemma initialize_session_state_completes_witness :
  session_state (initialize_session_state
                   {| disk := world_alice;
                      session_state := {[ lit "authenticated" := VBool true ]};
                      shown := [] |}).2 !! lit "authenticated"
  = Some (VBool true).
Proof.
  apply (proj1 (proj2 (proj2 (proj2 (proj2
           (initialize_session_state_completes
              {| disk := world_alice;
                 session_state := {[ lit "authenticated" := VBool true ]};
                 shown := [] |})))))).
  reflexivity.
Defined.

Lemma verified_alice :
  verified toy_digest world_alice (lit "alice") (lit "secret1").
Proof.
  split_and!; [by vm_compute|by vm_compute|].
  exists {| stored_password := toy_digest (lit "secret1");
            created_at := lit "2024-01-01T00:00:00" |}.
  split; reflexivity.
Defined.

Lemma login_block_lets_in_verified_only_witness :
  (login_pressed toy_digest (lit "alice") (lit "secret1") (fresh world_alice)).1
  = Rerun.
Proof.
  exact (proj1 (proj1 (proj2 (login_block_lets_in_verified_only toy_digest
                                (lit "alice") (lit "secret1")
                                (fresh world_alice))) verified_alice)).
Defined.

Lemma signup_block_registers_acceptable_only_witness :
  (signup_pressed toy_digest (lit "alice") (lit "secret1") (lit "secret1")
     (lit "2024-01-01T00:00:00") (fresh world0)).1
  = Rerun.
Proof.
  refine (proj1 (proj1 (signup_block_registers_acceptable_only toy_digest
                          (lit "alice") (lit "secret1") (lit "secret1")
                          (lit "2024-01-01T00:00:00") (fresh world0)) _ _)).
  - split_and!; [by vm_compute|by vm_compute|reflexivity|vm_compute; lia].
  - reflexivity.
Defined.

Lemma authenticated_session_names_a_user_witness :
  ∃ u, session_state
         (runs (Some (lit "gsk")) toy_digest provider_replies alice_arrives
               (fresh world0)) !! lit "username" = Some (VStr u)
       ∧ is_Some (users_of
                    (disk (runs (Some (lit "gsk")) toy_digest provider_replies
                                alice_arrives (fresh world0))) !! u).
Proof.
  apply (authenticated_session_names_a_user (Some (lit "gsk")) toy_digest
           provider_replies alice_arrives world0 (VBool true)).
  - by vm_compute.
  - reflexivity.
Defined.

Lemma reachable_runs_end_well_witness :
  (main (Some (lit "gsk")) toy_digest provider_replies alice_analyzes
        (runs (Some (lit "gsk")) toy_digest provider_replies alice_arrives
              (fresh world0))).1 ≠ Unmodelled.
Proof.
  exact (reachable_runs_end_well (Some (lit "gsk")) toy_digest
           provider_replies alice_arrives alice_analyzes world0).
Defined.

Lemma main_writes_only_when_allowed_witness :
  pressed alice_analyzes Analyze = true
  ∧ pressed alice_analyzes Logout = false.
Proof.
  refine (proj2 (proj2 (proj2 (main_writes_only_when_allowed
            (Some (lit "gsk")) toy_digest provider_replies alice_analyzes
            (runs (Some (lit "gsk")) toy_digest provider_replies
                  alice_arrives (fresh world0))) _))).
  right. by vm_compute.
Defined.

Lemma logout_ends_the_session_witness :
  (main (Some (lit "gsk")) toy_digest provider_replies (click Logout)
        (runs (Some (lit "gsk")) toy_digest provider_replies alice_arrives
              (fresh world0))).1 = Rerun.
Proof.
  refine (proj1 (logout_ends_the_session (Some (lit "gsk")) toy_digest
                   provider_replies (click Logout)
                   (runs (Some (lit "gsk")) toy_digest provider_replies
                         alice_arrives (fresh world0)) _ _ _)).
  - by vm_compute.
  - exists (VBool true). split; [by vm_compute|reflexivity].
  - reflexivity.
Defined.

Lemma broken_files_load_as_empty_witness :
  loads_empty (Present true true Garbage) = true
  ∧ can_write (Present true true Garbage) = true
  ∧ existsb is_surrogate (lit "secret1") = false
  ∧ raw_register_user toy_digest (lit "alice") (lit "secret1")
      (lit "2024-01-01T00:00:00") (Present true true Garbage)
    = (Returned (true, lit "Registration successful"),
       Present true true
         (Json (JDict [(lit "alice",
                        JDict [(lit "password",
                                JStr (toy_digest (lit "secret1")));
                               (lit "created_at",
                                JStr (lit "2024-01-01T00:00:00"))])]))).
Proof.
  split; [reflexivity|]. split; [reflexivity|]. split; [reflexivity|].
  destruct (broken_files_load_as_empty toy_digest (Present true true Garbage))
    as (_ & _ & _ & Hops).
  destruct (Hops eq_refl (lit "alice") (lit "secret1")
                 (lit "2024-01-01T00:00:00") [] [] ∅)
    as (_ & Hwrite & _).
  destruct (Hwrite eq_refl) as [Hregister _].
  exact (Hregister eq_refl).
Defined.

(** The statement of C9 as it stands fails twice. A users file that
    holds the JSON list [[]] is not loaded as the empty dict, and
    registration raises [TypeError] on it; a users file that can be
    opened neither for reading nor for writing is loaded as the empty
    dict, and registration raises [OSError]. *)
Lemma broken_files_stop_registration :
  ¬ (∀ (p : path) (username password now : str),
       (∀ readable writable items,
          p ≠ Present readable writable (Json (JDict items))) →
       raw_load_json_file p = (Returned (JDict []), p)
       ∧ ∃ p', raw_register_user toy_digest username password now p
               = (Returned (true, lit "Registration successful"), p'))
  ∧ ¬ (∀ (p : path) (username password now : str),
         loads_empty p = true →
         ∃ p', raw_register_user toy_digest username password now p
               = (Returned (true, lit "Registration successful"), p')).
Proof.
  split.
  - intros Hall.
    destruct (Hall (Present true true (Json (JList [])))
                   (lit "alice") (lit "secret1") (lit "2024-01-01T00:00:00"))
      as [Hload _]; [done|].
    discriminate Hload.
  - intros Hall.
    destruct (Hall (Present false false Garbage)
                   (lit "alice") (lit "secret1") (lit "2024-01-01T00:00:00")
                   eq_refl) as [p' Hp'].
    discriminate Hp'.
Qed.

Example list_in_users_file :
  raw_load_json_file (Present true true (Json (JList [])))
  = (Returned (JList []), Present true true (Json (JList [])))
  ∧ raw_register_user toy_digest (lit "alice") (lit "secret1")
      (lit "2024-01-01T00:00:00") (Present true true (Json (JList [])))
    = (Raised (lit "TypeError"), Present true true (Json (JList [])))
  ∧ raw_authenticate_user toy_digest (lit "alice") (lit "secret1")
      (Present true true (Json JNone))
    = (Raised (lit "TypeError"), Present true true (Json JNone))
  ∧ raw_save_analysis_to_history (lit "alice") (lit "x = 1") (lit "Python")
      ∅ (lit "2024-01-01T00:00:00") (Present true true (Json (JList [])))
    = (Raised (lit "TypeError"), Present true true (Json (JList []))).
Proof. split_and!; reflexivity. Qed.

Example locked_users_file :
  raw_register_user toy_digest (lit "alice") (lit "secret1")
    (lit "2024-01-01T00:00:00") (Present false false Garbage)
  = (Raised (lit "OSError"), Present false false Garbage).
Proof. reflexivity. Qed.

Lemma register_user_outcomes_witness :
  loaded (Absent true) = JDict []
  ∧ dict_get (lit "alice") [] = None
  ∧ (raw_register_user toy_digest (lit "alice") (lit "secret1")
       (lit "2024-01-01T00:00:00") (Absent true)).1
    = Returned (true, lit "Registration successful").
Proof.
  split; [reflexivity|]. split; [reflexivity|].
  destruct (register_user_outcomes toy_digest (lit "alice") (lit "secret1")
              (lit "2024-01-01T00:00:00") (Absent true))
    as (_ & _ & _ & Hdict & _).
  destruct (Hdict [] eq_refl) as [_ Hfree].
  exact (Hfree eq_refl).
Defined.

Lemma append_outcomes_witness :
  can_write (Absent true) = true
  ∧ loaded (Absent true) = JDict []
  ∧ (raw_save_analysis_to_history (lit "alice") (lit "x = 1") (lit "Python")
       ∅ (lit "2024-01-01T00:00:00") (Absent true)).1
    = Returned tt.
Proof.
  split; [reflexivity|]. split; [reflexivity|].
  destruct (append_outcomes (lit "alice") (lit "x = 1") (lit "Python")
              ∅ (lit "2024-01-01T00:00:00") (Absent true))
    as (_ & [_ Hreturns] & _).
  apply Hreturns. split; [reflexivity|].
  exists []. split; [reflexivity|]. left. reflexivity.
Defined.

(** Users of a file that can be written but not read are lost to a
    registration: it loads the empty dict and writes it back with the
    new user. *)
Example write_only_users_file_is_overwritten :
  raw_register_user toy_digest (lit "bob") (lit "hunter2")
    (lit "2024-03-03T00:00:00")
    (Present false true
       (Json (JDict [(lit "alice",
                      JDict [(lit "password", JStr (lit "1terces"));
                             (lit "created_at",
                              JStr (lit "2024-01-01T00:00:00"))])])))
  = (Returned (true, lit "Registration successful"),
     Present false true
       (Json (JDict [(lit "bob",
                      JDict [(lit "password", JStr (lit "2retnuh"));
                             (lit "created_at",
                              JStr (lit "2024-03-03T00:00:00"))])]))).
Proof. reflexivity. Qed.

Example password_with_a_surrogate :
  raw_register_user toy_digest (lit "alice") [55357]
    (lit "2024-01-01T00:00:00") (Absent true)
  = (Raised (lit "UnicodeEncodeError"), Absent true).
Proof. reflexivity. Qed.

Example history_list_under_a_name :
  raw_save_analysis_to_history (lit "alice") (lit "x = 1") (lit "Python")
    ∅ (lit "2024-01-01T00:00:00")
    (Present true true (Json (JDict [(lit "alice", JStr (lit "none"))])))
  = (Raised (lit "AttributeError"),
     Present true true (Json (JDict [(lit "alice", JStr (lit "none"))]))).
Proof. reflexivity. Qed.

Lemma analyze_only_sends_the_request_witness :
  api_key_missing (Some (lit "gsk")) = false
  ∧ is_ascii (lit "Python") = true
  ∧ llm_calls (analyze_code_with_ai (Some (lit "gsk")) provider_replies
                 (lit "x = 1") (lit "Python") world0).2
    = [chat_request (lit "x = 1") (lit "Python")].
Proof.
  split; [reflexivity|]. split; [reflexivity|].
  destruct (analyze_only_sends_the_request (Some (lit "gsk")) provider_replies
              (lit "x = 1") (lit "Python") world0)
    as (_ & _ & _ & _ & _ & _ & _ & _ & Hsent).
  destruct (Hsent eq_refl) as (sent & Hcalls & _ & _ & _ & _ & Hascii).
  destruct (Hascii eq_refl) as [_ <-].
  exact Hcalls.
Defined.

(** With a history file that holds the JSON list [[]], the block stores
    the result and then raises: the page stays the dashboard. *)
Example analysis_block_raises_after_storing :
  let out :=
    raw_analysis_execution (Some (lit "gsk")) provider_replies
      (lit "x = 1") (lit "Python") (lit "2024-01-01T00:00:00")
      (world0, Present true true (Json (JList []))) in
  out.1 = Raised (lit "TypeError")
  ∧ session_analysis_result out.2.1
    = Some (parse_structured_response sample_reply)
  ∧ session_page out.2.1 = lit "dashboard"
  ∧ out.2.2 = Present true true (Json (JList [])).
Proof. cbv zeta. split_and!; reflexivity. Qed.

Lemma users_models_agree_witness :
  users_file_of (Absent true) = Some (users_json world0)
  ∧ existsb is_surrogate (lit "secret1") = false
  ∧ users_file_of
      (raw_register_user toy_digest (lit "alice") (lit "secret1")
         (lit "2024-01-01T00:00:00") (Absent true)).2
    = Some (users_json world_alice).
Proof.
  split; [reflexivity|]. split; [reflexivity|].
  exact (proj2 (proj2 (users_models_agree toy_digest (lit "alice")
                         (lit "secret1") (lit "2024-01-01T00:00:00")
                         (Absent true) world0 eq_refl eq_refl))).
Defined.

Lemma history_models_agree_witness :
  history_file_of (Present true true Garbage) = Some (history_json
    {| users_json := Missing; history_json := Malformed; llm_calls := [];
       session_username := lit "alice"; session_analysis_result := None;
       session_page := lit "dashboard"; errors_shown := [] |})
  ∧ (raw_save_analysis_to_history (lit "alice") (lit "x = 1") (lit "Python")
       ∅ (lit "2024-01-01T00:00:00") (Present true true Garbage)).1
    = Returned tt.
Proof.
  split; [reflexivity|].
  exact (proj1 (history_models_agree (lit "alice") (lit "x = 1")
                  (lit "Python") ∅ (lit "2024-01-01T00:00:00")
                  (Present true true Garbage)
                  {| users_json := Missing; history_json := Malformed;
                     llm_calls := []; session_username := lit "alice";
                     session_analysis_result := None;
                     session_page := lit "dashboard"; errors_shown := [] |}
                  eq_refl)).
Defined.
